(** * ZipRecruiter scraper: extraction and post-processing of job records

    A shallow embedding of [improved_ziprecruiter_scraper.py] (the job-card
    extraction and the salary cascade) and of [run_improved_ziprecruiter.py]
    (post-processing, description structuring, job-type standardisation and
    the CSV export), followed by the properties proved about them.

    Layout:
    - [PyStr]   Python strings as lists of code points and the [str] methods
                the program calls;
    - [Result], [Value] and the dictionaries;
    - the library interfaces ([ReLib], [StrLib], [SysLib], [Bs4Lib]) and the
      documents and elements of [bs4];
    - the program, function by function, under the names of the source;
    - [Re], a backtracking matcher that instantiates [ReLib] on the pattern
      strings of the source, and the concrete library used by the examples;
    - the theorems. *)

From Stdlib Require Import ZArith NArith QArith List String Ascii Bool Lia.
From stdpp Require Import base gmap strings list.
Import ListNotations.

#[local] Set Warnings "-register-all".
#[local] Open Scope N_scope.

(* ===================================================================== *)
(** ** Python strings *)
(* ===================================================================== *)

(** A Python [str] is a sequence of Unicode code points. *)
Definition pystr : Type := list N.

Module PyStr.

(** Decoding of the UTF-8 bytes of a literal of this file into code points,
    so that the literals below read as they do in the source. *)
Fixpoint utf8 (l : list N) : pystr :=
  match l with
  | [] => []
  | b0 :: t =>
    if b0 <? 128 then b0 :: utf8 t
    else if b0 <? 224 then
      match t with
      | b1 :: t1 => ((b0 - 192) * 64 + (b1 - 128)) :: utf8 t1
      | [] => [b0]
      end
    else if b0 <? 240 then
      match t with
      | b1 :: b2 :: t2 =>
        ((b0 - 224) * 4096 + (b1 - 128) * 64 + (b2 - 128)) :: utf8 t2
      | _ => b0 :: t
      end
    else
      match t with
      | b1 :: b2 :: b3 :: t3 =>
        ((b0 - 240) * 262144 + (b1 - 128) * 4096 + (b2 - 128) * 64 + (b3 - 128))
          :: utf8 t3
      | _ => b0 :: t
      end
  end.

Definition py (s : string) : pystr :=
  utf8 (map N_of_ascii (list_ascii_of_string s)).

(** CSS selectors of the source contain the double quote, which a literal of
    this file cannot hold: they are written here with the apostrophe and [sel]
    puts the double quote (code 34) back. No selector of the source contains
    an apostrophe. *)
Definition sel (s : string) : pystr :=
  map (fun c => if c =? 39 then 34 else c) (py s).

Definition eqb (a b : pystr) : bool := bool_decide (a = b).

(** [str.isspace] on one character, which is also the class [\s] of [re] and
    what [str.strip] removes. *)
Definition isspace (c : N) : bool :=
  ((9 <=? c) && (c <=? 13)) || ((28 <=? c) && (c <=? 32))
  || (c =? 133) || (c =? 160) || (c =? 5760)
  || ((8192 <=? c) && (c <=? 8202))
  || (c =? 8232) || (c =? 8233) || (c =? 8239) || (c =? 8287) || (c =? 12288).

Fixpoint lstrip (s : pystr) : pystr :=
  match s with
  | c :: t => if isspace c then lstrip t else s
  | [] => []
  end.

Definition rstrip (s : pystr) : pystr := rev (lstrip (rev s)).

(** [s.strip()] *)
Definition strip (s : pystr) : pystr := rstrip (lstrip s).

(** [s.startswith(p)] *)
Fixpoint startswith (p s : pystr) : bool :=
  match p, s with
  | [], _ => true
  | a :: p', b :: s' => (a =? b) && startswith p' s'
  | _ :: _, [] => false
  end.

(** [sub in s] *)
Fixpoint contains (sub s : pystr) : bool :=
  startswith sub s ||
  match s with
  | [] => false
  | _ :: t => contains sub t
  end.

(** [s.replace(a, b)] for one-character [a] and [b]. *)
Definition replace_char (a b : N) (s : pystr) : pystr :=
  map (fun c => if c =? a then b else c) s.

(** [s.replace(a, '')] for a one-character [a]. *)
Definition remove_char (a : N) (s : pystr) : pystr :=
  filter (fun c => negb (c =? a)) s.

(** [s.split(sep)] for a one-character separator: never the empty list. *)
Fixpoint split_char (sep : N) (s : pystr) : list pystr :=
  match s with
  | [] => [[]]
  | c :: t =>
    if c =? sep then [] :: split_char sep t
    else match split_char sep t with
         | w :: ws => (c :: w) :: ws
         | [] => [[c]]
         end
  end.

(** [s.split()]: the maximal runs of characters that are not whitespace. *)
Fixpoint words_aux (cur : pystr) (s : pystr) : list pystr :=
  match s with
  | [] => match cur with [] => [] | _ => [rev cur] end
  | c :: t =>
    if isspace c
    then match cur with [] => words_aux [] t | _ => rev cur :: words_aux [] t end
    else words_aux (c :: cur) t
  end.

Definition split_ws (s : pystr) : list pystr := words_aux [] s.

(** [sep.join(parts)] *)
Fixpoint join (sep : pystr) (parts : list pystr) : pystr :=
  match parts with
  | [] => []
  | [p] => p
  | p :: ps => p ++ sep ++ join sep ps
  end.

Definition len (s : pystr) : nat := length s.

End PyStr.

Import PyStr.

Definition nl : N := 10.
Definition tab : N := 9.
Definition space : N := 32.

(* ===================================================================== *)
(** ** Exceptions, values and dictionaries *)
(* ===================================================================== *)

(** The outcome of a computation that may raise: [Raise e] carries the name
    of the exception. *)
Inductive Result (A : Type) : Type :=
  | Ok (a : A)
  | Raise (e : string).
Arguments Ok {A} a.
Arguments Raise {A} e.

Definition bind {A B : Type} (c : Result A) (k : A -> Result B) : Result B :=
  match c with
  | Ok a => k a
  | Raise e => Raise e
  end.

#[export] Instance Result_bind : MBind Result := fun A B k c => bind c k.
#[export] Instance Result_ret : MRet Result := @Ok.

(** [try: c  except Exception: h] *)
Definition try_except {A : Type} (c : Result A) (h : string -> Result A) : Result A :=
  match c with
  | Ok a => Ok a
  | Raise e => h e
  end.

Definition is_ok {A : Type} (c : Result A) : bool :=
  match c with Ok _ => true | Raise _ => false end.

(** The values a job record holds. A Python [float] is modelled by the
    rational it denotes; comparisons, [min] and [max] are those of the
    rationals. *)
Inductive Value : Type :=
  | VNone
  | VBool (b : bool)
  | VNum (q : Q)
  | VStr (s : pystr)
  | VList (l : list Value)
  | VDict (d : gmap string Value).

(** A job record is a Python [dict] with string keys. *)
Abbreviation Job := (gmap string Value).

(** Python truthiness: [bool(v)]. *)
Definition truthy (v : Value) : bool :=
  match v with
  | VNone => false
  | VBool b => b
  | VNum q => negb (Qeq_bool q 0)
  | VStr s => match s with [] => false | _ => true end
  | VList l => match l with [] => false | _ => true end
  | VDict d => match map_to_list d with [] => false | _ => true end
  end.

Definition nonempty (s : pystr) : bool :=
  match s with [] => false | _ => true end.

(** [v == s] for a string [s]. *)
Definition eq_str (v : Value) (s : pystr) : bool :=
  match v with
  | VStr t => PyStr.eqb t s
  | _ => false
  end.

(** [d.get(k)]: [None] when the key is absent. *)
Definition dict_get (d : Job) (k : string) : Value :=
  default VNone (d !! k).

(** [d.get(k, dflt)] *)
Definition dict_get_default (d : Job) (k : string) (dflt : Value) : Value :=
  default dflt (d !! k).

(** [k in d] *)
Definition dict_has (d : Job) (k : string) : bool :=
  bool_decide (is_Some (d !! k)).

(** A string-valued dictionary built from a list of items, as a value. *)
Definition str_dict (items : gmap string pystr) : Value :=
  VDict (VStr <$> items).

(* ===================================================================== *)
(** ** The libraries the program calls *)
(* ===================================================================== *)

(** A match object of [re]: [group(0)], [group(1)], [start()] and [end()].
    The program reads [group(1)] only of patterns whose first group takes
    part in every match. *)
Record Match : Type := mkMatch {
  m_group0 : pystr;
  m_group1 : pystr;
  m_start : nat;
  m_end : nat
}.

(** The functions of the module [re] the program calls, on pattern strings.
    The flag is [re.IGNORECASE]. [re_findall0] is [re.findall] on a pattern
    without groups (a list of strings), [re_findall2] on a pattern with two
    groups (a list of pairs). *)
Class ReLib : Type := {
  re_search : pystr -> bool -> pystr -> option Match;
  re_match : pystr -> pystr -> option Match;
  re_findall0 : pystr -> pystr -> list pystr;
  re_findall2 : pystr -> pystr -> list (pystr * pystr);
  re_split : pystr -> pystr -> list pystr;
  re_sub : pystr -> pystr -> pystr -> pystr;
  re_escape : pystr -> pystr
}.

(** The methods of [str] that depend on the Unicode case tables, and
    [float(s)]. *)
Class StrLib : Type := {
  str_lower : pystr -> pystr;
  str_upper : pystr -> pystr;
  str_title : pystr -> pystr;
  py_float : pystr -> Result Q
}.

(** An element of a parsed document (a [bs4] tag): its name, its [class]
    attribute, [.text], [get('href')], [.parent], and the two methods the
    scraper calls on a card, either of which may raise. *)
Inductive Element : Type := mkElement {
  el_name : pystr;
  el_class : option (list pystr);
  el_text : pystr;
  el_href : option pystr;
  el_parent : option Element;
  el_select_one : pystr -> Result (option Element);
  el_get_text : Result pystr
}.

(** An HTML document, by what [bs4] answers on it:
    [BeautifulSoup(html_content, 'html.parser').select(selector)], which
    may raise. *)
Record Html : Type := mkHtml {
  html_select : pystr -> Result (list Element)
}.

(** [hashlib.md5(s.encode()).hexdigest()] and
    [datetime.now().strftime("%Y-%m-%d %H:%M:%S")]. *)
Class SysLib : Type := {
  md5_hexdigest : pystr -> pystr;
  now_timestamp : pystr
}.

(* ===================================================================== *)
(** ** improved_ziprecruiter_scraper.py *)
(* ===================================================================== *)

(** Python's [min] and [max] on a non-empty list of numbers: the first
    smallest (largest) element, found with [<] ([>]). *)
Definition Qltb (x y : Q) : bool := negb (Qle_bool y x).

Definition py_min (x : Q) (l : list Q) : Q :=
  fold_left (fun best y => if Qltb y best then y else best) l x.

Definition py_max (x : Q) (l : list Q) : Q :=
  fold_left (fun best y => if Qltb best y then y else best) l x.

(** [[f(n) for n in l]] for an [f] that may raise. *)
Fixpoint map_result {A B : Type} (f : A -> Result B) (l : list A) : Result (list B) :=
  match l with
  | [] => Ok []
  | a :: t => b ← f a; bs ← map_result f t; Ok (b :: bs)
  end.

Section Scraper.
Context {RE : ReLib} {STR : StrLib} {SYS : SysLib}.

(** [self.base_urls]: the table of base URLs by country code. The class of
    the source reads it and does not define it; it is a parameter here. *)
Variable base_urls : gmap pystr pystr.

Definition salary_selectors : list pystr :=
  [ sel ".salary"; sel "[class*='salary']"; sel ".compensation";
    sel "[class*='compensation']"; sel ".pay"; sel "[class*='pay']";
    sel ".wage"; sel "[data-testid*='salary']"; sel "[class*='money']";
    sel "[class*='amount']"; sel ".job_salary" ].

Definition salary_patterns : list pystr :=
  [ py "£\s*\d+[,\d]*\s*(?:-\s*£\s*\d+[,\d]*)?(?:\s*(?:per|a|/)\s*(?:year|annum|month|hour|yr|pa|p\.a\.|p/a))?";
    py "\$\s*\d+[,\d]*\s*(?:-\s*\$\s*\d+[,\d]*)?(?:\s*(?:per|a|/)\s*(?:year|annum|month|hour|yr|pa|p\.a\.|p/a))?";
    py "€\s*\d+[,\d]*\s*(?:-\s*€\s*\d+[,\d]*)?(?:\s*(?:per|a|/)\s*(?:year|annum|month|hour|yr|pa|p\.a\.|p/a))?";
    py "\d+[,\d]*\s*(?:-\s*\d+[,\d]*)?\s*(?:GBP|USD|EUR|pounds|euros|dollars)";
    py "(?:salary|pay|compensation)[:\s]*[£$€]?\s*\d+[,\d]*\s*(?:-\s*[£$€]?\s*\d+[,\d]*)?" ].

(** The first loop of [extract_salary]: the selectors in order, each lookup
    in its own [try]; the first element with non-empty stripped text ends
    the loop. [None] is the initial [salary_text = None]. *)
Fixpoint salary_from_selectors (job_card : Element) (selectors : list pystr)
  : option pystr :=
  match selectors with
  | [] => None
  | selector :: rest =>
    match el_select_one job_card selector with
    | Ok (Some salary_elem) =>
      if nonempty (strip (el_text salary_elem))
      then Some (strip (el_text salary_elem))
      else salary_from_selectors job_card rest
    | Ok None => salary_from_selectors job_card rest
    | Raise _ => salary_from_selectors job_card rest
    end
  end.

(** The loop over the patterns: the first pattern that matches ends it. *)
Fixpoint salary_from_patterns (full_text : pystr) (patterns : list pystr)
  : option pystr :=
  match patterns with
  | [] => None
  | pattern :: rest =>
    match re_search pattern true full_text with
    | Some m => Some (strip (m_group0 m))
    | None => salary_from_patterns full_text rest
    end
  end.

(** The second stage, run when the first left [salary_text] empty: the
    patterns over [job_card.get_text()], the whole in one [try]. *)
Definition salary_from_full_text (job_card : Element) : option pystr :=
  match el_get_text job_card with
  | Ok full_text => salary_from_patterns full_text salary_patterns
  | Raise _ => None
  end.

(** [salary_text] as it stands at the test [if not salary_text] that
    follows the two stages. *)
Definition find_salary_text (job_card : Element) : option pystr :=
  match salary_from_selectors job_card salary_selectors with
  | Some t => if nonempty t then Some t else salary_from_full_text job_card
  | None => salary_from_full_text job_card
  end.

(** The clean-up of the text found. *)
Definition clean_salary_text (salary_text : pystr) : pystr :=
  strip (re_sub (py "\s+") (py " ")
           (replace_char tab space (replace_char nl space salary_text))).

Definition salary_currency (salary_text : pystr) : Value :=
  match re_search (py "[£$€]|GBP|USD|EUR|pounds|euros|dollars") true salary_text with
  | Some currency_match =>
    let currency := str_upper (m_group0 currency_match) in
    if PyStr.eqb currency (py "£") || PyStr.eqb currency (py "POUNDS")
       || PyStr.eqb currency (py "GBP") then VStr (py "GBP")
    else if PyStr.eqb currency (py "$") || PyStr.eqb currency (py "DOLLARS")
       || PyStr.eqb currency (py "USD") then VStr (py "USD")
    else if PyStr.eqb currency (py "€") || PyStr.eqb currency (py "EUROS")
       || PyStr.eqb currency (py "EUR") then VStr (py "EUR")
    else VNone
  | None => VNone
  end.

Definition salary_period (salary_text : pystr) : Value :=
  match re_search
          (py "per\s+(year|annum|month|hour|day|week)|/(year|annum|month|hour|day|week)|p\.a\.|pa\b|yearly|monthly|hourly|annual")
          true salary_text with
  | Some period_match =>
    let period := str_lower (m_group0 period_match) in
    if contains (py "year") period || contains (py "annum") period
       || contains (py "pa") period || contains (py "p.a") period
       || contains (py "annual") period then VStr (py "yearly")
    else if contains (py "month") period then VStr (py "monthly")
    else if contains (py "hour") period then VStr (py "hourly")
    else if contains (py "day") period then VStr (py "daily")
    else if contains (py "week") period then VStr (py "weekly")
    else VNone
  | None => VNone
  end.

(** [salary_data] after the currency and the period are set. *)
Definition salary_data_init (salary_text : pystr) : Job :=
  <["period" := salary_period salary_text]>
  (<["currency" := salary_currency salary_text]>
  (<["is_range" := VBool false]>
  (<["period" := VNone]>
  (<["max" := VNone]>
  (<["min" := VNone]>
  (<["currency" := VNone]>
  (<["text" := VStr salary_text]> ∅))))))).

(** The numbers of the text: [re.findall] then [float] of each with its
    commas removed; [float] may raise. *)
Definition salary_numbers (salary_text : pystr) : Result (list Q) :=
  map_result (fun n => py_float (remove_char 44 n))
             (re_findall0 (py "\d+[,\d]*(?:\.\d+)?") salary_text).

(** The [try] block that processes the text found, on the cleaned text. *)
Definition salary_data_of (salary_text : pystr) : Result Job :=
  let salary_data := salary_data_init salary_text in
  cleaned_numbers ← salary_numbers salary_text;
  match cleaned_numbers with
  | [] => Ok salary_data
  | x :: rest =>
    match rest with
    | _ :: _ =>
      Ok (<["max" := VNum (py_max x rest)]>
          (<["min" := VNum (py_min x rest)]>
          (<["is_range" := VBool true]> salary_data)))
    | [] => Ok (<["min" := VNum x]> salary_data)
    end
  end.

(** [extract_salary(job_card)]: a dictionary, or [None]. Nothing it calls
    escapes its handlers. *)
Definition extract_salary (job_card : Element) : Value :=
  match find_salary_text job_card with
  | None => VNone
  | Some found =>
    if nonempty found then
      let salary_text := clean_salary_text found in
      match salary_data_of salary_text with
      | Ok salary_data => VDict salary_data
      | Raise _ => VDict (<["text" := VStr salary_text]> ∅)
      end
    else VNone
  end.

Definition job_card_selectors : list pystr :=
  [ sel ".job_content"; sel ".job_result"; sel ".jobList-item"; sel ".job-card";
    sel "article.job_item"; sel "div[data-job-id]"; sel "[class*='job_']";
    sel "[data-testid='job-card']"; sel "article"; sel ".card" ].

(** The loop over [job_card_selectors]: each [select] in its own [try]; the
    first non-empty result ends the loop. *)
Fixpoint find_job_cards (html_content : Html) (selectors : list pystr)
  : list Element :=
  match selectors with
  | [] => []
  | selector :: rest =>
    match html_select html_content selector with
    | Ok ((_ :: _) as cards) => cards
    | Ok [] => find_job_cards html_content rest
    | Raise _ => find_job_cards html_content rest
    end
  end.

(** [if parent and (parent.get('class') or parent.name == 'article' or
    parent.name == 'div')] *)
Definition looks_like_card (parent : Element) : bool :=
  match el_class parent with
  | Some (_ :: _) => true
  | _ => PyStr.eqb (el_name parent) (py "article")
         || PyStr.eqb (el_name parent) (py "div")
  end.

(** [for _ in range(3)]: up to three levels up from [parent]. *)
Fixpoint card_above (levels : nat) (parent : option Element) : option Element :=
  match levels with
  | O => None
  | S n =>
    match parent with
    | Some p => if looks_like_card p then Some p else card_above n (el_parent p)
    | None => card_above n None
    end
  end.

(** The alternative approach: the parents of the first ten potential titles.
    It runs outside any [try]. *)
Definition cards_from_titles (html_content : Html) : Result (list Element) :=
  potential_titles ← html_select html_content
                       (sel "h2, h3, a[href*='job'], a[href*='career']");
  Ok (omap (fun title_elem => card_above 3 (el_parent title_elem))
           (take 10 potential_titles)).

(** The debug preview of the first card, outside any [try]: only whether it
    raises matters. *)
Definition preview_first_card (job_cards : list Element) : Result unit :=
  match job_cards with
  | first_card :: _ =>
    _ ← el_select_one first_card (sel "h2, h3, a[href*='job']"); Ok tt
  | [] => Ok tt
  end.

(** [for selector in selectors: elem = job_card.select_one(selector);
    if elem and elem.text.strip(): ... break], the lookups not guarded. *)
Fixpoint first_text (job_card : Element) (selectors : list pystr)
  : Result (option pystr) :=
  match selectors with
  | [] => Ok None
  | selector :: rest =>
    elem ← el_select_one job_card selector;
    match elem with
    | Some e =>
      if nonempty (strip (el_text e)) then Ok (Some (strip (el_text e)))
      else first_text job_card rest
    | None => first_text job_card rest
    end
  end.

(** The same loop for the URL: [if url_elem and url_elem.get('href')]. *)
Fixpoint first_href (job_card : Element) (selectors : list pystr)
  : Result (option pystr) :=
  match selectors with
  | [] => Ok None
  | selector :: rest =>
    url_elem ← el_select_one job_card selector;
    match url_elem with
    | Some e =>
      match el_href e with
      | Some ((_ :: _) as href) => Ok (Some href)
      | _ => first_href job_card rest
      end
    | None => first_href job_card rest
    end
  end.

Definition title_selectors : list pystr :=
  [ sel "h2"; sel "h3"; sel "a[href*='job'] strong"; sel "a[href*='job']";
    sel ".job-title"; sel ".title" ].
Definition url_selectors : list pystr :=
  [ sel "a[href*='job']"; sel "h2 a"; sel "h3 a"; sel ".job-title a"; sel ".title a" ].
Definition company_selectors : list pystr :=
  [ sel ".company_name"; sel ".company"; sel "[class*='company']"; sel ".hiring-company" ].
Definition location_selectors : list pystr :=
  [ sel ".location"; sel "[class*='location']"; sel "[class*='address']"; sel ".job-location" ].
Definition description_selectors : list pystr :=
  [ sel ".job_snippet"; sel ".description"; sel ".snippet"; sel "[class*='description']" ].
Definition job_type_selectors : list pystr :=
  [ sel ".job_type"; sel ".employment_type"; sel "[class*='type']" ].
Definition date_selectors : list pystr :=
  [ sel ".date"; sel "[class*='posted']"; sel ".job-age"; sel ".posted-date" ].

(** [self.base_urls.get(country_code, 'https://www.ziprecruiter.com')] *)
Definition base_url (country_code : pystr) : pystr :=
  default (py "https://www.ziprecruiter.com") (base_urls !! country_code).

(** Ensure URL is absolute. *)
Definition absolute_url (country_code job_url : pystr) : pystr :=
  if startswith (py "http") job_url then job_url
  else if startswith (py "/") job_url then base_url country_code ++ job_url
  else base_url country_code ++ py "/" ++ job_url.

(** [job[key] = text] when a selector of the list gives text. *)
Definition set_first_text (job_card : Element) (selectors : list pystr)
    (key : string) (job : Job) : Result Job :=
  found ← first_text job_card selectors;
  match found with
  | Some t => Ok (<[key := VStr t]> job)
  | None => Ok job
  end.

(** Skip sponsored or promoted job cards. *)
Definition sponsored_selector : pystr :=
  sel "[class*='sponsor'], [class*='promoted']".

(** The body of the [try] of the loop over the cards: [Ok None] is a
    [continue] (the card is skipped), [Ok (Some job)] reaches
    [jobs.append(job)], [Raise] leaves the body for the handler. *)
Definition process_card (country_code : pystr) (job_card : Element)
  : Result (option Job) :=
  sponsored ← el_select_one job_card sponsored_selector;
  match sponsored with
  | Some _ => Ok None
  | None =>
    job_title ← first_text job_card title_selectors;
    match job_title with
    | None => Ok None
    | Some job_title =>
      job_url ← first_href job_card url_selectors;
      match job_url with
      | None => Ok None
      | Some job_url =>
        let job_url := absolute_url country_code job_url in
        let job_id := md5_hexdigest job_url in
        let job : Job :=
          <["timestamp" := VStr now_timestamp]>
          (<["country" := VStr country_code]>
          (<["source" := VStr (py "ZipRecruiter")]>
          (<["url" := VStr job_url]>
          (<["title" := VStr job_title]>
          (<["id" := VStr job_id]> ∅))))) in
        job ← set_first_text job_card company_selectors "company" job;
        job ← set_first_text job_card location_selectors "location" job;
        job ← set_first_text job_card description_selectors "description" job;
        let job := <["salary" := extract_salary job_card]> job in
        job ← set_first_text job_card job_type_selectors "job_type" job;
        job ← set_first_text job_card date_selectors "date_posted" job;
        Ok (Some job)
      end
    end
  end.

(** The loop over the cards with its handler: a card that raises adds
    nothing and the loop goes on. *)
Fixpoint process_cards (country_code : pystr) (job_cards : list Element)
    (jobs : list Job) : list Job :=
  match job_cards with
  | [] => jobs
  | job_card :: rest =>
    match process_card country_code job_card with
    | Ok (Some job) => process_cards country_code rest (jobs ++ [job])
    | Ok None => process_cards country_code rest jobs
    | Raise _ => process_cards country_code rest jobs
    end
  end.

(** [job_cards] as the loop over the cards finds it: the cards of the
    first selector that has some, or else those of the alternative approach. *)
Definition discover_cards (html_content : Html) : Result (list Element) :=
  match find_job_cards html_content job_card_selectors with
  | [] => cards_from_titles html_content
  | cards => Ok cards
  end.

(** [extract_job_listings(self, html_content, country_code)] *)
Definition extract_job_listings (html_content : Html) (country_code : pystr)
  : Result (list Job) :=
  job_cards ← discover_cards html_content;
  _ ← preview_first_card job_cards;
  Ok (process_cards country_code job_cards []).

End Scraper.

(* ===================================================================== *)
(** ** run_improved_ziprecruiter.py *)
(* ===================================================================== *)

(** What the header loop of [structure_description] reads of a sibling of
    a header: its truth value, whether it is [in potential_headers], whether
    it has [get_text] (then [sib_text] is [get_text()]), or else whether it
    is a [str] (then [sib_text] is the string itself). *)
Record Sibling : Type := mkSibling {
  sib_truthy : bool;
  sib_in_headers : bool;
  sib_has_get_text : bool;
  sib_is_str : bool;
  sib_text : pystr
}.

(** A potential header: [header.get_text()] and the chain of its
    [next_sibling]s. *)
Record Header : Type := mkHeader {
  hd_text : pystr;
  hd_siblings : list Sibling
}.

(** The [bs4] side of the second file, on whatever value the record holds:
    the body of the [try] of [sanitize_html], the body of the [try] of
    [format_html_to_text], [BeautifulSoup(html, 'html.parser').get_text()],
    and [soup.find_all(['h1', ..., 'strong', 'b'])] with what is read of
    each header. Each may raise. *)
Class Bs4Lib : Type := {
  bs_sanitize : Value -> Result pystr;
  bs_format : Value -> Result pystr;
  bs_get_text : Value -> Result pystr;
  bs_headers : Value -> Result (list Header)
}.

(** A method of [str] called on a value that is not a [str] raises. *)
Definition as_str (v : Value) : Result pystr :=
  match v with
  | VStr s => Ok s
  | _ => Raise "AttributeError"
  end.

(** [re] functions given a value that is not a [str] raise. *)
Definition as_text (v : Value) : Result pystr :=
  match v with
  | VStr s => Ok s
  | _ => Raise "TypeError"
  end.

(** The dictionary [structure_description] returns: section names to
    texts. *)
Abbreviation Sections := (gmap string pystr).

Section Runner.
Context {RE : ReLib} {STR : StrLib} {BS : Bs4Lib}.

(** *** extract_job_type *)

(** [job_type_patterns], in the order of the dictionary literal. *)
Definition job_type_patterns : list (pystr * list pystr) :=
  [ (py "Full-time",
     [ py "full[- ]?time"; py "full time"; py "permanent"; py "regular";
       py "ft\b"; py "f/t\b"; py "\bft\b"; py "40\s?hours?"; py "permanent";
       py "regular"; py "permanent full[- ]?time" ]);
    (py "Part-time",
     [ py "part[- ]?time"; py "part time"; py "\bpt\b"; py "p/t\b"; py "\bpt\b";
       py "(\d{1,2})-(\d{1,2})\s?hours?"; py "part-time permanent" ]);
    (py "Contract",
     [ py "contract"; py "fixed[- ]?term"; py "temporary"; py "temp\b";
       py "interim"; py "non[- ]?permanent"; py "\bltd\b"; py "limited term" ]);
    (py "Freelance",
     [ py "freelance"; py "self[- ]?employed"; py "independent contractor";
       py "1099"; py "gig" ]);
    (py "Internship",
     [ py "internship"; py "intern\b"; py "trainee"; py "placement";
       py "student"; py "co-op"; py "apprentice" ]);
    (py "Temporary",
     [ py "temp\b"; py "temporary"; py "seasonal" ]);
    (py "Volunteer",
     [ py "volunteer"; py "unpaid"; py "pro bono" ]) ].

(** [for pattern in patterns: if re.search(pattern, text, re.IGNORECASE)] *)
Fixpoint any_pattern (patterns : list pystr) (text : pystr) : bool :=
  match patterns with
  | [] => false
  | pattern :: rest =>
    match re_search pattern true text with
    | Some _ => true
    | None => any_pattern rest text
    end
  end.

(** The two nested loops over the table: the first standard type one of
    whose patterns is found in [text]. *)
Fixpoint match_job_type (table : list (pystr * list pystr)) (text : pystr)
  : option pystr :=
  match table with
  | [] => None
  | (standard_type, patterns) :: rest =>
    if any_pattern patterns text then Some standard_type
    else match_job_type rest text
  end.

(** [for _, context in job_type_contexts: ...] *)
Fixpoint match_job_type_contexts (contexts : list (pystr * pystr))
  : option pystr :=
  match contexts with
  | [] => None
  | (_, context) :: rest =>
    match match_job_type job_type_patterns context with
    | Some t => Some t
    | None => match_job_type_contexts rest
    end
  end.

(** The part on [job_type_text]: the type found, if any. *)
Definition job_type_from_text (job_type_text : Value) : Result (option pystr) :=
  if truthy job_type_text then
    job_type_text ← as_str job_type_text;
    Ok (match_job_type job_type_patterns (str_lower job_type_text))
  else Ok None.

(** The part on [description_text]. *)
Definition job_type_from_description (description_text : Value)
  : Result (option pystr) :=
  if truthy description_text then
    description_text ← as_str description_text;
    let description_text := str_lower description_text in
    let job_type_contexts :=
      re_findall2 (py "(employment|job|position|work)\s+type\s*:?\s*([^.,:;]+)")
                  description_text in
    match match_job_type_contexts job_type_contexts with
    | Some t => Ok (Some t)
    | None => Ok (match_job_type job_type_patterns description_text)
    end
  else Ok None.

(** [extract_job_type(job_type_text=None, description_text=None)] *)
Definition extract_job_type (job_type_text description_text : Value)
  : Result pystr :=
  if negb (truthy job_type_text) && negb (truthy description_text)
  then Ok (py "")
  else
    from_text ← job_type_from_text job_type_text;
    match from_text with
    | Some standard_type => Ok standard_type
    | None =>
      from_description ← job_type_from_description description_text;
      match from_description with
      | Some standard_type => Ok standard_type
      | None => Ok (py "Full-time")
      end
    end.

(** *** extract_skills *)

Definition common_skills : list pystr :=
  map py
  [ "python"; "javascript"; "react"; "angular"; "vue"; "node"; "django";
    "flask"; "java"; "c++"; "c#"; "ruby"; "php"; "sql"; "postgresql";
    "mysql"; "mongodb"; "aws"; "azure"; "gcp"; "docker"; "kubernetes";
    "git"; "github"; "agile"; "scrum"; "jira"; "html"; "css"; "sass";
    "typescript"; "redux"; "express"; "spring"; "hibernate"; "jquery";
    "graphql"; "rest api"; "microservices"; "devops"; "ci/cd";
    "tensorflow"; "pytorch"; "machine learning"; "data science";
    "excel"; "powerpoint"; "word"; "project management"; "team leadership" ]%string.

Definition skill_found (description_lower skill : pystr) : bool :=
  contains skill description_lower &&
  (if contains (py " ") skill
   then match re_search (py "\b" ++ re_escape skill ++ py "\b") false description_lower with
        | Some _ => true
        | None => false
        end
   else true).

(** [extract_skills(description)]: the list, or [None] for no skill. *)
Definition extract_skills (description : Value) : Result (option (list pystr)) :=
  description ← as_str description;
  let description_lower := str_lower description in
  let skills := map str_title (filter (skill_found description_lower) common_skills) in
  Ok (match skills with [] => None | _ => Some skills end).

(** *** extract_experience *)

Definition experience_patterns : list pystr :=
  [ py "(\d+(?:\+|\s*\+)?(?:\s*\-\s*\d+)?)\s*(?:years?|yrs?)(?:\s*of)?(?:\s*experience)?";
    py "experience:?\s*(\d+(?:\+|\s*\+)?(?:\s*\-\s*\d+)?)\s*(?:years?|yrs?)";
    py "minimum(?:\s*of)?\s*(\d+(?:\+|\s*\+)?(?:\s*\-\s*\d+)?)\s*(?:years?|yrs?)(?:\s*experience)?";
    py "at\s*least\s*(\d+(?:\+|\s*\+)?(?:\s*\-\s*\d+)?)\s*(?:years?|yrs?)(?:\s*experience)?" ].

Fixpoint experience_from (patterns : list pystr) (description_lower : pystr)
  : option pystr :=
  match patterns with
  | [] => None
  | pattern :: rest =>
    match re_search pattern false description_lower with
    | Some m =>
      let experience := strip (m_group1 m) in
      if contains (py "-") experience || contains (py "to") experience
      then Some (experience ++ py " years of experience")
      else Some (experience ++ py "+ years of experience")
    | None => experience_from rest description_lower
    end
  end.

(** [extract_experience(description)] *)
Definition extract_experience (description : Value) : Result (option pystr) :=
  description ← as_str description;
  Ok (experience_from experience_patterns (str_lower description)).

(** *** sanitize_html, format_html_to_text *)

(** [sanitize_html(html_content)]: the handler returns the argument. *)
Definition sanitize_html (html_content : Value) : Value :=
  if negb (truthy html_content) then VStr (py "")
  else match bs_sanitize html_content with
       | Ok cleaned => VStr cleaned
       | Raise _ => html_content
       end.

(** [format_html_to_text(html_content)]: the handler parses again, and
    what it raises escapes. *)
Definition format_html_to_text (html_content : Value) : Result pystr :=
  if negb (truthy html_content) then Ok (py "")
  else try_except (bs_format html_content) (fun _ => bs_get_text html_content).

(** *** structure_description *)

(** The dictionary [sections] of header keywords, in its literal order. *)
Definition sections : list (string * list pystr) :=
  [ ("about_company",
     map py [ "about us"; "about the company"; "who we are"; "company overview";
              "our company"; "company description" ]%string);
    ("job_overview",
     map py [ "job overview"; "position overview"; "role overview"; "about the job";
              "about the role"; "job description"; "summary"; "overview" ]%string);
    ("responsibilities",
     map py [ "responsibilities"; "duties"; "what you'll do"; "your responsibilities";
              "key responsibilities"; "role responsibilities"; "job duties";
              "main duties"; "essential duties"; "the role"; "day to day";
              "day-to-day" ]%string);
    ("requirements",
     map py [ "requirements"; "qualifications"; "what you need"; "skills";
              "required skills"; "must have"; "experience required";
              "required experience"; "essential skills"; "you will need";
              "you'll need"; "we are looking for"; "ideal candidate";
              "candidate profile"; "who you are" ]%string);
    ("nice_to_have",
     map py [ "nice to have"; "preferred"; "bonus points"; "plus"; "desirable";
              "additional skills"; "preferred qualifications"; "preferred skills";
              "good to have" ]%string);
    ("benefits",
     map py [ "benefits"; "perks"; "what we offer"; "compensation"; "package";
              "salary"; "rewards"; "we provide"; "we offer";
              "what's in it for you"; "what's on offer"; "what you'll get" ]%string);
    ("application_process",
     map py [ "application process"; "how to apply"; "next steps"; "apply";
              "apply now"; "application procedure" ]%string) ]%string.

(** [any(keyword in text for keyword in keywords)] *)
Definition any_keyword (keywords : list pystr) (text : pystr) : bool :=
  existsb (fun keyword => contains keyword text) keywords.

(** The loop that matches a header of the HTML against [sections]. *)
Fixpoint header_section (table : list (string * list pystr)) (header_text : pystr)
  : option string :=
  match table with
  | [] => None
  | (section_key, keywords) :: rest =>
    if any_keyword keywords header_text then Some section_key
    else header_section rest header_text
  end.

(** The [while] loop over the siblings that follow a header. *)
Fixpoint sibling_content (siblings : list Sibling) : list pystr :=
  match siblings with
  | [] => []
  | next_element :: rest =>
    if sib_truthy next_element && negb (sib_in_headers next_element) then
      (if sib_has_get_text next_element then
         (if nonempty (strip (sib_text next_element))
          then [strip (sib_text next_element)] else [])
       else if sib_is_str next_element && nonempty (strip (sib_text next_element))
         then [strip (sib_text next_element)] else [])
      ++ sibling_content rest
    else []
  end.

(** One turn of the loop over the potential headers. *)
Definition header_step (section_content : Sections) (header : Header) : Sections :=
  let header_text := str_lower (strip (hd_text header)) in
  if negb (nonempty header_text) || (50 <? len header_text)%nat then section_content
  else
    match header_section sections header_text with
    | Some matched_section =>
      match sibling_content (hd_siblings header) with
      | [] => section_content
      | content => <[matched_section := join [nl] content]> section_content
      end
    | None => section_content
    end.

(** The first stage: [structured] after the parse of the HTML. *)
Definition html_sections (description_html : Value) : Result Sections :=
  if truthy description_html then
    potential_headers ← bs_headers description_html;
    Ok (fold_left header_step potential_headers ∅)
  else Ok ∅.

(** The loop that matches a line of the text against [sections]: a line of
    fifty characters or more is no header. *)
Fixpoint line_section (table : list (string * list pystr)) (line line_lower : pystr)
  : option string :=
  match table with
  | [] => None
  | (section_key, keywords) :: rest =>
    if any_keyword keywords line_lower then
      if (len line <? 50)%nat then Some section_key
      else line_section rest line line_lower
    else line_section rest line line_lower
  end.

(** The state of the loop over the lines: [current_section],
    [section_content], [section_lines]. *)
Record LineState : Type := mkLineState {
  current_section : option string;
  section_content : Sections;
  section_lines : list pystr
}.

(** [if current_section and section_lines: section_content[...] = ...] *)
Definition save_section (st : LineState) : Sections :=
  match current_section st, section_lines st with
  | Some cur, _ :: _ => <[cur := join [nl] (section_lines st)]> (section_content st)
  | _, _ => section_content st
  end.

Definition line_step (st : LineState) (line : pystr) : LineState :=
  let line := strip line in
  if negb (nonempty line) then st
  else
    match line_section sections line (str_lower line) with
    | Some matched_section =>
      mkLineState (Some matched_section) (save_section st) []
    | None =>
      match current_section st with
      | Some _ => mkLineState (current_section st) (section_content st)
                              (section_lines st ++ [line])
      | None => st
      end
    end.

(** The second stage: the sections found in the lines of the text. *)
Definition text_sections (description_text : pystr) : Sections :=
  save_section (fold_left line_step (split_char nl description_text)
                          (mkLineState None ∅ [])).

Definition requirement_keywords : list pystr :=
  map py [ "experience"; "skill"; "proficiency"; "knowledge"; "degree";
           "qualification"; "background"; "ability"; "familiar"; "understanding";
           "education"; "proficient"; "competent"; "expertise"; "fluent";
           "capable"; "able to"; "bachelor"; "master"; "phd"; "certification";
           "qualified" ]%string.

Definition responsibility_keywords : list pystr :=
  map py [ "responsible"; "duty"; "ensure"; "manage"; "develop"; "create";
           "implement"; "deliver"; "coordinate"; "lead"; "organize"; "assist";
           "maintain"; "support"; "prepare"; "provide"; "handle"; "work with";
           "collaborate"; "participate"; "communicate"; "report"; "conduct" ]%string.

(** [sum(1 for keyword in keywords if keyword in text)] *)
Definition count_keywords (keywords : list pystr) (text : pystr) : nat :=
  length (filter (fun keyword => contains keyword text) keywords).

(** The third stage, run when [len(structured) < 2]: bullet points. It
    writes into the dictionary the earlier stages left. *)
Definition bullet_stage (description_text : pystr) (structured : Sections) : Sections :=
  let bullet_sections :=
    re_split (py "\n\s*•|\n\s*-|\n\s*\*|\n\s*\d+\.") description_text in
  if (3 <? length bullet_sections)%nat then
    let structured :=
      match bullet_sections with
      | first :: _ =>
        if (100 <? len first)%nat then <["about" := strip first]> structured
        else structured
      | [] => structured
      end in
    let bullets :=
      map (fun b => py "• " ++ strip b)
          (filter (fun b => nonempty (strip b)) (tail bullet_sections)) in
    match bullets with
    | [] => structured
    | _ =>
      let bullets_text := str_lower (join (py " ") bullets) in
      let req_count := count_keywords requirement_keywords bullets_text in
      let resp_count := count_keywords responsibility_keywords bullets_text in
      if (resp_count <? req_count)%nat
      then <["requirements" := join [nl] bullets]> structured
      else <["responsibilities" := join [nl] bullets]> structured
    end
  else structured.

Definition split_pattern : pystr :=
  py "(\n\s*\d+\.|\n\s*•|\n\s*-|\n\s*\*|\n{2,})".
Definition separator_pattern : pystr :=
  py "^\s*(\n\s*\d+\.|\n\s*•|\n\s*-|\n\s*\*|\n{2,})\s*$".

(** One turn of the loop that classifies the sections after the first. *)
Definition classify_step (structured : Sections) (section : pystr) : Sections :=
  let section_lower := str_lower section in
  if (length (split_ws section_lower) <? 10)%nat then structured
  else if any_keyword (map py ["experience"; "skill"; "require"; "qualification";
                               "proficiency"]%string) section_lower
  then <["requirements" := section]> structured
  else if any_keyword (map py ["responsible"; "duty"; "task"; "role";
                               "work on"]%string) section_lower
  then <["responsibilities" := section]> structured
  else if any_keyword (map py ["benefit"; "offer"; "salary"; "compensation";
                               "package"]%string) section_lower
  then <["benefits" := section]> structured
  else if any_keyword (map py ["company"; "about us"; "who we are"]%string) section_lower
  then <["about_company" := section]> structured
  else structured.

(** The last stage, run when nothing was found and the text is not empty. *)
Definition overview_stage (description_text : pystr) : Sections :=
  if (len description_text <? 500)%nat
  then <["job_overview" := strip description_text]> ∅
  else
    let sections_split := re_split split_pattern description_text in
    let clean_sections :=
      map strip
          (filter (fun section =>
                     nonempty section &&
                     match re_match separator_pattern section with
                     | Some _ => false
                     | None => true
                     end)
                  sections_split) in
    match clean_sections with
    | first :: ((_ :: _) as rest) =>
      fold_left classify_step rest (<["job_overview" := first]> ∅)
    | _ => <["job_overview" := strip description_text]> ∅
    end.

Definition is_empty (structured : Sections) : bool :=
  bool_decide (structured = ∅).

(** The body of the [try] of [structure_description]. *)
Definition structure_description_body (description_text description_html : Value)
  : Result Sections :=
  structured ← html_sections description_html;
  structured ←
    (if is_empty structured then
       text ← as_str description_text; Ok (text_sections text)
     else Ok structured);
  structured ←
    (if (size structured <? 2)%nat then
       text ← as_text description_text; Ok (bullet_stage text structured)
     else Ok structured);
  if is_empty structured && truthy description_text then
    text ← as_str description_text; Ok (overview_stage text)
  else Ok structured.

(** [structure_description(description_text, description_html=None)]: the
    handler gives the minimal structure; what the handler itself raises
    escapes. *)
Definition structure_description (description_text description_html : Value)
  : Result Sections :=
  try_except (structure_description_body description_text description_html)
    (fun _ =>
       if truthy description_text then
         text ← as_str description_text;
         Ok (<["job_overview" := strip text]> ∅)
       else Ok ∅).

(** *** post_process_job_data *)

(** A step of the loop body on one record: the record as the step leaves
    it, and whether the step ended or raised. A record is a dictionary
    mutated in place, so what a step wrote before raising stays written. *)
Definition Step : Type := Job -> Job * Result unit.

(** [not job.get(key) or job.get(key) == unknown or job.get(key) == ""] *)
Definition missing_field (job : Job) (key : string) (unknown : pystr) : bool :=
  negb (truthy (dict_get job key))
  || eq_str (dict_get job key) unknown
  || eq_str (dict_get job key) (py "").

Definition company_patterns : list pystr :=
  [ py "(?:at|for|with|by)\s+([A-Z][A-Za-z0-9\s&]+?(?:Ltd|Limited|Inc|LLC|GmbH|AG|plc|Co\.|Company)?)";
    py "([A-Z][A-Za-z0-9\s&]+?(?:Ltd|Limited|Inc|LLC|GmbH|AG|plc|Co\.|Company)) is (?:seeking|looking|hiring)";
    py "About\s+([A-Z][A-Za-z0-9\s&]+?(?:Ltd|Limited|Inc|LLC|GmbH|AG|plc|Co\.|Company))" ].

Definition location_patterns : list pystr :=
  [ py "Location:\s*([A-Za-z\s,]+)";
    py "(?:in|at|near|from)\s+([A-Z][a-z]+(?:\s+[A-Z][a-z]+)?)";
    py "([A-Z][a-z]+(?:\s+[A-Z][a-z]+)?)\s+(?:office|area|region)" ].

(** The loop over the patterns that looks for a name in the description:
    the first match of reasonable length that holds none of the [banned]
    words. *)
Fixpoint name_from_description (patterns : list pystr) (max_len : nat)
    (banned : list pystr) (desc : pystr) : option pystr :=
  match patterns with
  | [] => None
  | pattern :: rest =>
    match re_search pattern false desc with
    | Some m =>
      let possible := strip (m_group1 m) in
      if (2 <? len possible)%nat && (len possible <? max_len)%nat
         && negb (any_keyword banned (str_lower possible))
      then Some possible
      else name_from_description rest max_len banned desc
    | None => name_from_description rest max_len banned desc
    end
  end.

Definition company_banned : list pystr :=
  map py ["apply"; "role"; "position"; "job"; "we are"; "click"; "ideal"]%string.
Definition location_banned : list pystr :=
  map py ["salary"; "about"; "job"; "position"; "company"]%string.

(** Process company information if missing or incomplete. *)
Definition step_company : Step := fun job =>
  if missing_field job "company" (py "Unknown Company") then
    let found : Result Job :=
      if truthy (dict_get job "description") then
        desc ← as_text (dict_get job "description");
        match name_from_description company_patterns 40 company_banned desc with
        | Some possible_company => Ok (<["company" := VStr possible_company]> job)
        | None => Ok job
        end
      else Ok job in
    match found with
    | Ok job =>
      if missing_field job "company" (py "Unknown Company")
      then (<["company" := VStr (py "Hiring Company")]> job, Ok tt)
      else (job, Ok tt)
    | Raise e => (job, Raise e)
    end
  else (job, Ok tt).

(** Process location information if missing or incomplete. *)
Definition step_location : Step := fun job =>
  if missing_field job "location" (py "Unknown Location") then
    let job :=
      if truthy (dict_get job "is_uk")
      then <["location" := VStr (py "United Kingdom - Remote")]> job
      else job in
    if truthy (dict_get job "description") then
      match as_text (dict_get job "description") with
      | Ok desc =>
        match name_from_description location_patterns 30 location_banned desc with
        | Some possible_location =>
          (<["location" := VStr possible_location]> job, Ok tt)
        | None => (job, Ok tt)
        end
      | Raise e => (job, Raise e)
      end
    else (job, Ok tt)
  else (job, Ok tt).

(** Clean and process description HTML if available. *)
Definition step_html : Step := fun job =>
  match job !! "description_html" with
  | Some html =>
    let clean_html := sanitize_html html in
    let job := <["description_html" := clean_html]> job in
    match format_html_to_text clean_html with
    | Ok text => (<["formatted_description" := VStr text]> job, Ok tt)
    | Raise e => (job, Raise e)
    end
  | None => (job, Ok tt)
  end.

(** Add structured_description. *)
Definition step_structured : Step := fun job =>
  match job !! "description" with
  | Some description =>
    match structure_description description
            (dict_get_default job "description_html" (VStr (py ""))) with
    | Ok structured_description =>
      if is_empty structured_description then (job, Ok tt)
      else (<["structured_description" := str_dict structured_description]> job, Ok tt)
    | Raise e => (job, Raise e)
    end
  | None => (job, Ok tt)
  end.

(** Extract and standardize job type. *)
Definition step_job_type : Step := fun job =>
  match job !! "job_type" with
  | Some job_type_text =>
    match extract_job_type job_type_text
            (dict_get_default job "description" (VStr (py ""))) with
    | Ok standardized_job_type =>
      (<["standardized_job_type" := VStr standardized_job_type]> job, Ok tt)
    | Raise e => (job, Raise e)
    end
  | None =>
    match extract_job_type VNone
            (dict_get_default job "description" (VStr (py ""))) with
    | Ok standardized_job_type =>
      if nonempty standardized_job_type then
        (<["job_type" := VStr standardized_job_type]>
         (<["standardized_job_type" := VStr standardized_job_type]> job), Ok tt)
      else (job, Ok tt)
    | Raise e => (job, Raise e)
    end
  end.

(** Extract skills. *)
Definition step_skills : Step := fun job =>
  match job !! "description" with
  | Some description =>
    match extract_skills description with
    | Ok (Some skills) => (<["skills" := VList (map VStr skills)]> job, Ok tt)
    | Ok None => (job, Ok tt)
    | Raise e => (job, Raise e)
    end
  | None => (job, Ok tt)
  end.

(** Extract experience requirement if available. *)
Definition step_experience : Step := fun job =>
  match job !! "description" with
  | Some description =>
    match extract_experience description with
    | Ok (Some experience) =>
      if nonempty experience then (<["experience" := VStr experience]> job, Ok tt)
      else (job, Ok tt)
    | Ok None => (job, Ok tt)
    | Raise e => (job, Raise e)
    end
  | None => (job, Ok tt)
  end.

(** The steps one after the other; a step that raises ends the run. *)
Fixpoint run_steps (steps : list Step) (job : Job) : Job * Result unit :=
  match steps with
  | [] => (job, Ok tt)
  | step :: rest =>
    match step job with
    | (job, Ok _) => run_steps rest job
    | (job, Raise e) => (job, Raise e)
    end
  end.

(** The body of [for job in jobs]. *)
Definition post_process_steps : list Step :=
  [ step_company; step_location; step_html; step_structured; step_job_type;
    step_skills; step_experience ].

Definition post_process_job (job : Job) : Job * Result unit :=
  run_steps post_process_steps job.

(** The store: the dictionaries (the records) and the lists, by reference. *)
Record Heap : Type := mkHeap {
  dicts : gmap positive Job;
  lists : gmap positive (list positive)
}.

Definition set_dict (h : Heap) (r : positive) (job : Job) : Heap :=
  mkHeap (<[r := job]> (dicts h)) (lists h).

(** The loop over the records of the list, each mutated where it is. A
    reference that is no dictionary has no [get]. *)
Fixpoint post_process_loop (refs : list positive) (h : Heap) : Heap * Result unit :=
  match refs with
  | [] => (h, Ok tt)
  | r :: rest =>
    match dicts h !! r with
    | Some job =>
      match post_process_job job with
      | (job, Ok _) => post_process_loop rest (set_dict h r job)
      | (job, Raise e) => (set_dict h r job, Raise e)
      end
    | None => (h, Raise "AttributeError")
    end
  end.

(** [post_process_job_data(jobs)]: [jobs] is a reference to a list, and
    the value returned is that reference. *)
Definition post_process_job_data (jobs : positive) (h : Heap)
  : Heap * Result positive :=
  match lists h !! jobs with
  | Some refs =>
    match post_process_loop refs h with
    | (h, Ok _) => (h, Ok jobs)
    | (h, Raise e) => (h, Raise e)
    end
  | None => (h, Raise "TypeError")
  end.

End Runner.

(** *** export_to_csv *)

(** The CSV headers, in the order of the source. *)
Definition csv_headers : list string :=
  [ "title"; "company"; "location"; "url"; "salary"; "description";
    "date_posted"; "date_posted_iso"; "is_remote"; "is_uk"; "is_europe";
    "region"; "country_code"; "source"; "job_id"; "source_id"; "id";
    "job_type"; "standardized_job_type"; "experience"; "skills";
    "structured_description" ]%string.

(** [csv.DictWriter]'s [extrasaction]. *)
Inductive ExtrasAction : Type := ExtrasRaise | ExtrasIgnore.

(** [DictWriter._dict_to_list]: the cells of a row, as values; the missing
    ones are [restval], the empty string. With [extrasaction='raise'] a key
    outside [fieldnames] is a [ValueError]. *)
Definition dict_to_list (extrasaction : ExtrasAction) (fieldnames : list string)
    (rowdict : Job) : Result (list Value) :=
  match extrasaction with
  | ExtrasRaise =>
    if forallb (fun k => bool_decide (k ∈ fieldnames)) (map fst (map_to_list rowdict))
    then Ok (map (fun key => dict_get_default rowdict key (VStr [])) fieldnames)
    else Raise "ValueError"
  | ExtrasIgnore =>
    Ok (map (fun key => dict_get_default rowdict key (VStr [])) fieldnames)
  end.

(** [writer.writerows(jobs)]: the rows written, and whether a row raised. *)
Fixpoint writerows (extrasaction : ExtrasAction) (fieldnames : list string)
    (rowdicts : list Job) : list (list Value) * Result unit :=
  match rowdicts with
  | [] => ([], Ok tt)
  | rowdict :: rest =>
    match dict_to_list extrasaction fieldnames rowdict with
    | Ok row =>
      let '(rows, res) := writerows extrasaction fieldnames rest in
      (row :: rows, res)
    | Raise e => ([], Raise e)
    end
  end.

(** [export_to_csv(jobs, filename)]: the rows the file holds afterwards,
    the header first. Whether the file opens is the argument [opened];
    every exception is caught, so nothing is raised. *)
Definition export_to_csv (jobs : list Job) (opened : bool) : list (list Value) :=
  if opened then
    map (fun h => VStr (py h)) csv_headers
      :: fst (writerows ExtrasIgnore csv_headers jobs)
  else [].

(** *** main *)

(** [s.replace(old, new)] for an [old] that is not empty: the occurrences
    of [old] are taken from the left, none overlapping another. [skip]
    counts the characters of the occurrence just replaced that are still to
    be passed over. *)
Fixpoint replace_from (old new : pystr) (skip : nat) (s : pystr) : pystr :=
  match s with
  | [] => []
  | c :: t =>
    match skip with
    | S k => replace_from old new k t
    | O =>
      if startswith old s
      then new ++ replace_from old new (length old - 1) t
      else c :: replace_from old new 0 t
    end
  end.

Definition str_replace (old new s : pystr) : pystr := replace_from old new 0 s.

(** Handle empty job type - either empty string or None. *)
Definition effective_job_type (job_type : option pystr) : pystr :=
  match job_type with
  | None => py "all jobs"
  | Some t => if PyStr.eqb (strip t) (py "") then py "all jobs" else t
  end.

(** Generate output filename if not provided; [timestamp] is
    [datetime.now().strftime("%Y%m%d_%H%M%S")]. *)
Definition output_name (output : option pystr) (job_type location timestamp : pystr)
  : pystr :=
  match output with
  | Some name => name
  | None =>
    let safe_job_type := replace_char space 95 job_type in
    let safe_location := replace_char space 95 location in
    py "ziprecruiter_jobs_" ++ safe_job_type ++ py "_" ++ safe_location
      ++ py "_" ++ timestamp ++ py ".json"
  end.

(** Parse countries. *)
Definition parse_countries (countries : pystr) : list pystr :=
  if contains (py ",") countries then split_char 44 countries else [countries].

(** [csv_file = args.output.replace(".json", ".csv")] *)
Definition csv_name (output : pystr) : pystr :=
  str_replace (py ".json") (py ".csv") output.

(** [job.get("country_code", "unknown")] as a key of [country_stats]: a
    list or a dictionary is not hashable. *)
Definition country_key (job : Job) : Result Value :=
  match dict_get_default job "country_code" (VStr (py "unknown")) with
  | VList _ => Raise "TypeError"
  | VDict _ => Raise "TypeError"
  | country => Ok country
  end.

(** [if country not in country_stats: country_stats[country] = 0] and
    [country_stats[country] += 1], the dictionary in the order of its
    insertions. *)
Fixpoint count_country (country_stats : list (pystr * nat)) (country : pystr)
  : list (pystr * nat) :=
  match country_stats with
  | [] => [(country, 1%nat)]
  | (c, count) :: rest =>
    if PyStr.eqb c country then (c, S count) :: rest
    else (c, count) :: count_country rest country
  end.

Section Main.
Context {STR : StrLib}.

(** The summary "Jobs by Country": the entries printed, each the country
    in upper case with its count. The counting loop raises on a key that is
    not hashable; the printing loop raises on a key that has no [upper],
    and then the summary is not complete. *)
Definition jobs_by_country (jobs : list Job) : Result (list (pystr * nat)) :=
  countries ← map_result country_key jobs;
  names ← map_result as_str countries;
  Ok (map (fun entry => (str_upper (fst entry), snd entry))
          (fold_left count_country names [])).

End Main.

(* ===================================================================== *)
(** ** A concrete library: the module [re] as a backtracking matcher *)
(* ===================================================================== *)

(** The program above is stated over [ReLib], [StrLib], [SysLib] and
    [Bs4Lib]; the theorems hold for every implementation of them. The
    instances below are the ones the examples run on. [Re] reads the pattern
    strings of the source and matches them as the backtracking matcher of
    [re] does: leftmost, alternatives in order, greedy and lazy repetition.
    Character classes and case are those of the code points below 256
    (whitespace: all of Unicode). *)
Module Re.

Definition isdigit (c : N) : bool := (48 <=? c) && (c <=? 57).

Definition isalpha (c : N) : bool :=
  ((65 <=? c) && (c <=? 90)) || ((97 <=? c) && (c <=? 122))
  || (c =? 170) || (c =? 181) || (c =? 186)
  || ((192 <=? c) && (c <=? 214)) || ((216 <=? c) && (c <=? 246))
  || ((248 <=? c) && (c <=? 255)).

(** The class [\w]: alphanumeric, or the underscore. *)
Definition isword (c : N) : bool :=
  isalpha c || isdigit c || (c =? 95)
  || (c =? 178) || (c =? 179) || (c =? 185) || ((188 <=? c) && (c <=? 190)).

Definition lower_c (c : N) : N :=
  if ((65 <=? c) && (c <=? 90))
     || ((192 <=? c) && (c <=? 222) && negb (c =? 215))
  then c + 32 else c.

Definition upper_c (c : N) : N :=
  if ((97 <=? c) && (c <=? 122))
     || ((224 <=? c) && (c <=? 254) && negb (c =? 247))
  then c - 32
  else if c =? 255 then 376
  else if c =? 181 then 924
  else c.

(** An item of a set [[...]]. *)
Inductive item : Type :=
  | IChar (c : N)
  | IRange (lo hi : N)
  | IDigit
  | ISpace
  | IWord.

Inductive regex : Type :=
  | Eps
  | Chr (c : N)
  | Dot
  | CSet (negated : bool) (items : list item)
  | Bol
  | Eol
  | WordB (negated : bool)
  | Seq (a b : regex)
  | Alt (a b : regex)
  | Rep (lo : nat) (hi : option nat) (greedy : bool) (a : regex)
  | Group (i : nat) (a : regex).

(** *** Reading a pattern *)

Definition item_of_escape (c : N) : item :=
  if c =? 100 then IDigit          (* \d *)
  else if c =? 115 then ISpace     (* \s *)
  else if c =? 119 then IWord      (* \w *)
  else if c =? 110 then IChar 10   (* \n *)
  else if c =? 116 then IChar 9    (* \t *)
  else IChar c.

(** The items of a set, up to the closing bracket. *)
Fixpoint parse_items (fuel : nat) (p : pystr) : option (list item * pystr) :=
  match fuel with
  | O => None
  | S f =>
    match p with
    | [] => None
    | 93 :: p' => Some ([], p')
    | 92 :: c :: p' =>
      match parse_items f p' with
      | Some (its, r) => Some (item_of_escape c :: its, r)
      | None => None
      end
    | a :: 45 :: b :: p' =>
      if b =? 93 then
        match parse_items f (45 :: b :: p') with
        | Some (its, r) => Some (IChar a :: its, r)
        | None => None
        end
      else
        match parse_items f p' with
        | Some (its, r) => Some (IRange a b :: its, r)
        | None => None
        end
    | a :: p' =>
      match parse_items f p' with
      | Some (its, r) => Some (IChar a :: its, r)
      | None => None
      end
    end
  end.

Fixpoint parse_nat (acc : nat) (p : pystr) : nat * pystr :=
  match p with
  | c :: p' =>
    if isdigit c then parse_nat (acc * 10 + N.to_nat (c - 48)) p' else (acc, p)
  | [] => (acc, p)
  end.

(** A lazy quantifier is followed by a question mark. *)
Definition parse_lazy (p : pystr) : bool * pystr :=
  match p with
  | 63 :: p' => (false, p')
  | _ => (true, p)
  end.

(** The quantifier after an atom, if there is one. *)
Definition parse_quant (a : regex) (p : pystr) : regex * pystr :=
  match p with
  | 42 :: p' => let '(g, r) := parse_lazy p' in (Rep 0 None g a, r)
  | 43 :: p' => let '(g, r) := parse_lazy p' in (Rep 1 None g a, r)
  | 63 :: p' => let '(g, r) := parse_lazy p' in (Rep 0 (Some 1%nat) g a, r)
  | 123 :: (c :: _) as p' =>
    if isdigit c then
      let '(lo, p1) := parse_nat 0 p' in
      match p1 with
      | 125 :: p2 => let '(g, r) := parse_lazy p2 in (Rep lo (Some lo) g a, r)
      | 44 :: 125 :: p2 => let '(g, r) := parse_lazy p2 in (Rep lo None g a, r)
      | 44 :: ((d :: _) as p2) =>
        if isdigit d then
          let '(hi, p3) := parse_nat 0 p2 in
          match p3 with
          | 125 :: p4 => let '(g, r) := parse_lazy p4 in (Rep lo (Some hi) g a, r)
          | _ => (a, p)
          end
        else (a, p)
      | _ => (a, p)
      end
    else (a, p)
  | _ => (a, p)
  end.

Definition atom_of_escape (c : N) : regex :=
  if c =? 98 then WordB false        (* \b *)
  else if c =? 66 then WordB true    (* \B *)
  else CSet false [item_of_escape c].

(** Alternatives, sequences and atoms; the number is that of the next
    capturing group. *)
Fixpoint parse_alt (fuel : nat) (p : pystr) (g : nat)
  : option (regex * pystr * nat) :=
  match fuel with
  | O => None
  | S f =>
    match parse_seq f p g with
    | Some (a, 124 :: p1, g1) =>
      match parse_alt f p1 g1 with
      | Some (b, p2, g2) => Some (Alt a b, p2, g2)
      | None => None
      end
    | other => other
    end
  end
with parse_seq (fuel : nat) (p : pystr) (g : nat)
  : option (regex * pystr * nat) :=
  match fuel with
  | O => None
  | S f =>
    match p with
    | [] => Some (Eps, p, g)
    | 124 :: _ => Some (Eps, p, g)
    | 41 :: _ => Some (Eps, p, g)
    | _ =>
      match parse_atom f p g with
      | Some (a, p1, g1) =>
        let '(a, p2) := parse_quant a p1 in
        match parse_seq f p2 g1 with
        | Some (Eps, p3, g3) => Some (a, p3, g3)
        | Some (b, p3, g3) => Some (Seq a b, p3, g3)
        | None => None
        end
      | None => None
      end
    end
  end
with parse_atom (fuel : nat) (p : pystr) (g : nat)
  : option (regex * pystr * nat) :=
  match fuel with
  | O => None
  | S f =>
    match p with
    | 40 :: 63 :: 58 :: p1 =>
      match parse_alt f p1 g with
      | Some (a, 41 :: p2, g2) => Some (a, p2, g2)
      | _ => None
      end
    | 40 :: p1 =>
      match parse_alt f p1 (S g) with
      | Some (a, 41 :: p2, g2) => Some (Group g a, p2, g2)
      | _ => None
      end
    | 91 :: 94 :: p1 =>
      match parse_items (S (length p1)) p1 with
      | Some (its, p2) => Some (CSet true its, p2, g)
      | None => None
      end
    | 91 :: p1 =>
      match parse_items (S (length p1)) p1 with
      | Some (its, p2) => Some (CSet false its, p2, g)
      | None => None
      end
    | 92 :: c :: p1 => Some (atom_of_escape c, p1, g)
    | 46 :: p1 => Some (Dot, p1, g)
    | 94 :: p1 => Some (Bol, p1, g)
    | 36 :: p1 => Some (Eol, p1, g)
    | c :: p1 => Some (Chr c, p1, g)
    | [] => None
    end
  end.

(** [re.compile(pattern)]: the expression and the number of its groups. *)
Definition compile (pattern : pystr) : option (regex * nat) :=
  match parse_alt (4 * length pattern + 8) pattern 1 with
  | Some (r, [], g) => Some (r, Nat.pred g)
  | _ => None
  end.

(** *** Matching *)

(** A position in the subject: the character before it, its index, what
    is left, and the groups closed so far (the latest first). *)
Record St : Type := mkSt {
  prev : option N;
  pos : nat;
  rest : pystr;
  caps : list (nat * (nat * nat))
}.

Definition item_matches (it : item) (c : N) : bool :=
  match it with
  | IChar x => c =? x
  | IRange lo hi => (lo <=? c) && (c <=? hi)
  | IDigit => isdigit c
  | ISpace => isspace c
  | IWord => isword c
  end.

(** Membership in a set; with [re.IGNORECASE] the lower-case form of the
    character and its upper-case form are both tried. *)
Definition set_matches (ic : bool) (items : list item) (c : N) : bool :=
  if ic then
    existsb (fun it => item_matches it (lower_c c)
                       || item_matches it (upper_c (lower_c c))) items
  else existsb (fun it => item_matches it c) items.

Definition chr_matches (ic : bool) (x c : N) : bool :=
  if ic then lower_c c =? lower_c x else c =? x.

(** One character consumed. *)
Definition step (test : N -> bool) (st : St) (k : St -> option St) : option St :=
  match rest st with
  | c :: t => if test c then k (mkSt (Some c) (S (pos st)) t (caps st)) else None
  | [] => None
  end.

Definition word_before (st : St) : bool :=
  match prev st with Some c => isword c | None => false end.
Definition word_after (st : St) : bool :=
  match rest st with c :: _ => isword c | [] => false end.

(** Repetition of [body] between [lo] and [hi] times. Beyond [lo], a turn
    that consumes nothing ends the repetition, so [fuel] bounded by the
    length of what is left is enough. *)
Fixpoint rep (body : St -> (St -> option St) -> option St) (fuel lo : nat)
    (hi : option nat) (greedy : bool) (st : St) (k : St -> option St)
  : option St :=
  match fuel with
  | O => None
  | S f =>
    let fewer := match hi with Some h => Some (Nat.pred h) | None => None end in
    match lo with
    | S lo' => body st (fun st' => rep body f lo' fewer greedy st' k)
    | O =>
      let more :=
        match hi with
        | Some O => None
        | _ => body st (fun st' =>
                 if (pos st' =? pos st)%nat then None
                 else rep body f O fewer greedy st' k)
        end in
      if greedy then
        match more with Some r => Some r | None => k st end
      else
        match k st with Some r => Some r | None => more end
    end
  end.

(** The matcher, in continuation-passing style: [k] is what has to match
    after [r]. *)
Fixpoint m (ic : bool) (r : regex) (st : St) (k : St -> option St) : option St :=
  match r with
  | Eps => k st
  | Chr x => step (chr_matches ic x) st k
  | Dot => step (fun c => negb (c =? 10)) st k
  | CSet negated items =>
    step (fun c => xorb negated (set_matches ic items c)) st k
  | Bol => if (pos st =? 0)%nat then k st else None
  | Eol =>
    match rest st with
    | [] => k st
    | [10] => k st
    | _ => None
    end
  | WordB negated =>
    if xorb negated (xorb (word_before st) (word_after st)) then k st else None
  | Seq a b => m ic a st (fun st' => m ic b st' k)
  | Alt a b =>
    match m ic a st k with
    | Some res => Some res
    | None => m ic b st k
    end
  | Rep lo hi greedy a =>
    rep (m ic a) (lo + length (rest st) + 1) lo hi greedy st k
  | Group i a =>
    m ic a st (fun st' => k (mkSt (prev st') (pos st') (rest st')
                                   ((i, (pos st, pos st')) :: caps st')))
  end.

(** A match: where it starts, where it ends, the groups. *)
Record Found : Type := mkFound {
  f_start : nat;
  f_end : nat;
  f_caps : list (nat * (nat * nat));
  f_after : St
}.

(** The match at the position [st], if any; [must_advance] refuses the
    empty match. *)
Definition match_here (ic : bool) (r : regex) (must_advance : bool) (st : St)
  : option Found :=
  match m ic r (mkSt (prev st) (pos st) (rest st) [])
          (fun st' => if must_advance && (pos st' =? pos st)%nat
                      then None else Some st') with
  | Some st' => Some (mkFound (pos st) (pos st') (caps st') st')
  | None => None
  end.

(** The leftmost match at or after [st]. *)
Fixpoint scan (ic : bool) (r : regex) (must_advance : bool) (fuel : nat) (st : St)
  : option Found :=
  match match_here ic r must_advance st with
  | Some f => Some f
  | None =>
    match fuel, rest st with
    | S fuel', c :: t => scan ic r false fuel' (mkSt (Some c) (S (pos st)) t [])
    | _, _ => None
    end
  end.

(** All the matches from left to right, without overlap: after an empty
    match the next one must move on. *)
Fixpoint scan_all (ic : bool) (r : regex) (fuel : nat) (must_advance : bool)
    (st : St) : list Found :=
  match fuel with
  | O => []
  | S fuel' =>
    match scan ic r must_advance (length (rest st)) st with
    | Some f =>
      f :: scan_all ic r fuel' ((f_end f =? f_start f)%nat) (f_after f)
    | None => []
    end
  end.

Definition start_of (s : pystr) : St := mkSt None 0 s [].

Definition slice (s : pystr) (a b : nat) : pystr := take (b - a) (drop a s).

(** [group(i)] of a match in [s]; the empty string for a group that took
    no part. *)
Definition group (s : pystr) (f : Found) (i : nat) : pystr :=
  match i with
  | O => slice s (f_start f) (f_end f)
  | _ =>
    match find (fun c => (fst c =? i)%nat) (f_caps f) with
    | Some (_, (a, b)) => slice s a b
    | None => []
    end
  end.

Definition to_match (s : pystr) (f : Found) : Match :=
  mkMatch (group s f 0) (group s f 1) (f_start f) (f_end f).

(** [re.search(pattern, s, flags)] *)
Definition search (pattern : pystr) (ic : bool) (s : pystr) : option Match :=
  match compile pattern with
  | Some (r, _) => to_match s <$> scan ic r false (length s) (start_of s)
  | None => None
  end.

(** [re.match(pattern, s)] *)
Definition match_ (pattern : pystr) (s : pystr) : option Match :=
  match compile pattern with
  | Some (r, _) => to_match s <$> match_here false r false (start_of s)
  | None => None
  end.

Definition finditer (pattern : pystr) (s : pystr) : list Found :=
  match compile pattern with
  | Some (r, _) => scan_all false r (length s + 2) false (start_of s)
  | None => []
  end.

(** [re.findall(pattern, s)] for a pattern without groups. *)
Definition findall0 (pattern : pystr) (s : pystr) : list pystr :=
  map (fun f => group s f 0) (finditer pattern s).

(** [re.findall(pattern, s)] for a pattern with two groups. *)
Definition findall2 (pattern : pystr) (s : pystr) : list (pystr * pystr) :=
  map (fun f => (group s f 1, group s f 2)) (finditer pattern s).

(** The pieces between the matches, each followed by what comes of the
    match ([between]: nothing for [sub]'s replacement, the groups for
    [split]). *)
Fixpoint pieces (s : pystr) (last : nat) (fs : list Found)
    (between : Found -> list pystr) : list pystr :=
  match fs with
  | [] => [drop last s]
  | f :: fs' =>
    slice s last (f_start f) :: between f ++ pieces s (f_end f) fs' between
  end.

(** [re.split(pattern, s)] *)
Definition split (pattern : pystr) (s : pystr) : list pystr :=
  match compile pattern with
  | Some (r, groups) =>
    pieces s 0 (scan_all false r (length s + 2) false (start_of s))
           (fun f => map (group s f) (seq 1 groups))
  | None => [s]
  end.

(** [re.sub(pattern, repl, s)] for a replacement without escapes. *)
Definition sub (pattern repl : pystr) (s : pystr) : pystr :=
  concat (pieces s 0 (finditer pattern s) (fun _ => [repl])).

(** [re.escape(s)] *)
Definition escape (s : pystr) : pystr :=
  flat_map (fun c =>
    if existsb (N.eqb c)
         [40; 41; 91; 93; 123; 125; 63; 42; 43; 45; 124; 94; 36; 92; 46; 38;
          126; 35; 32; 9; 10; 13; 11; 12]
    then [92; c] else [c]) s.

End Re.

#[local] Instance re_lib : ReLib := {
  re_search := Re.search;
  re_match := Re.match_;
  re_findall0 := Re.findall0;
  re_findall2 := Re.findall2;
  re_split := Re.split;
  re_sub := Re.sub;
  re_escape := Re.escape
}.

(** *** [str] methods and [float] *)

Module Str.

Definition lower (s : pystr) : pystr := map Re.lower_c s.

(** The upper-case form of the sharp s is two letters. *)
Definition upper (s : pystr) : pystr :=
  flat_map (fun c => if c =? 223 then [83; 83] else [Re.upper_c c]) s.

Definition iscased (c : N) : bool :=
  negb (Re.lower_c c =? c) || negb (Re.upper_c c =? c) || (c =? 223).

(** [s.title()]: a cased character is put in upper case after an uncased
    one and in lower case after a cased one. *)
Fixpoint title_aux (previous_is_cased : bool) (s : pystr) : pystr :=
  match s with
  | [] => []
  | c :: t =>
    (if previous_is_cased then [Re.lower_c c]
     else if c =? 223 then [83; 115] else [Re.upper_c c])
    ++ title_aux (iscased c) t
  end.

Definition title (s : pystr) : pystr := title_aux false s.

Fixpoint digits_value (acc : N) (s : pystr) : option N :=
  match s with
  | [] => Some acc
  | c :: t => if Re.isdigit c then digits_value (acc * 10 + (c - 48)) t else None
  end.

(** [float(s)] on the decimal numerals [digits], [digits.digits],
    [digits.] and [.digits]; any other string is refused here. *)
Definition float (s : pystr) : Result Q :=
  match split_char 46 s with
  | [whole] =>
    match whole, digits_value 0 whole with
    | _ :: _, Some n => Ok (inject_Z (Z.of_N n))
    | _, _ => Raise "ValueError"
    end
  | [whole; frac] =>
    match whole ++ frac, digits_value 0 (whole ++ frac) with
    | _ :: _, Some n =>
      Ok (Qmake (Z.of_N n) (Nat.iter (length frac) (Pos.mul 10) 1%positive))
    | _, _ => Raise "ValueError"
    end
  | _ => Raise "ValueError"
  end.

End Str.

#[local] Instance str_lib : StrLib := {
  str_lower := Str.lower;
  str_upper := Str.upper;
  str_title := Str.title;
  py_float := Str.float
}.

(** *** [hashlib.md5] *)

Module Md5.

(** [s.encode()]: UTF-8. *)
Definition encode (s : pystr) : list N :=
  flat_map (fun c =>
    if c <? 128 then [c]
    else if c <? 2048 then [192 + c / 64; 128 + c mod 64]
    else if c <? 65536 then [224 + c / 4096; 128 + (c / 64) mod 64; 128 + c mod 64]
    else [240 + c / 262144; 128 + (c / 4096) mod 64; 128 + (c / 64) mod 64;
          128 + c mod 64]) s.

Definition mask : N := 4294967295.
Definition add32 (a b : N) : N := N.land (a + b) mask.
Definition not32 (a : N) : N := N.lxor a mask.
Definition rotl32 (x : N) (c : N) : N :=
  N.land (N.lor (N.shiftl x c) (N.shiftr x (32 - c))) mask.

Definition K : list N :=
  [ 3614090360; 3905402710; 606105819; 3250441966; 4118548399; 1200080426;
    2821735955; 4249261313; 1770035416; 2336552879; 4294925233; 2304563134;
    1804603682; 4254626195; 2792965006; 1236535329; 4129170786; 3225465664;
    643717713; 3921069994; 3593408605; 38016083; 3634488961; 3889429448;
    568446438; 3275163606; 4107603335; 1163531501; 2850285829; 4243563512;
    1735328473; 2368359562; 4294588738; 2272392833; 1839030562; 4259657740;
    2763975236; 1272893353; 4139469664; 3200236656; 681279174; 3936430074;
    3572445317; 76029189; 3654602809; 3873151461; 530742520; 3299628645;
    4096336452; 1126891415; 2878612391; 4237533241; 1700485571; 2399980690;
    4293915773; 2240044497; 1873313359; 4264355552; 2734768916; 1309151649;
    4149444226; 3174756917; 718787259; 3951481745 ].

Definition shifts : list N :=
  [ 7; 12; 17; 22; 7; 12; 17; 22; 7; 12; 17; 22; 7; 12; 17; 22;
    5; 9; 14; 20; 5; 9; 14; 20; 5; 9; 14; 20; 5; 9; 14; 20;
    4; 11; 16; 23; 4; 11; 16; 23; 4; 11; 16; 23; 4; 11; 16; 23;
    6; 10; 15; 21; 6; 10; 15; 21; 6; 10; 15; 21; 6; 10; 15; 21 ].

(** The message with its padding: the bit 1, zeros up to 56 modulo 64, and
    the length in bits on eight bytes, the low byte first. *)
Definition le_bytes (n : nat) (x : N) : list N :=
  map (fun i => N.land (N.shiftr x (8 * N.of_nat i)) 255) (seq 0 n).

Definition pad (msg : list N) : list N :=
  let n := length msg in
  let zeros := ((64 + 55 - n mod 64) mod 64)%nat in
  msg ++ [128] ++ repeat 0 zeros ++ le_bytes 8 (8 * N.of_nat n).

Fixpoint words (fuel : nat) (bytes : list N) : list N :=
  match fuel, bytes with
  | S f, b0 :: b1 :: b2 :: b3 :: t =>
    (b0 + 256 * b1 + 65536 * b2 + 16777216 * b3) :: words f t
  | _, _ => []
  end.

Definition round (M : list N) (st : N * N * N * N) (i : nat) : N * N * N * N :=
  let '(A, B, C, D) := st in
  let '(F, g) :=
    if (i <? 16)%nat then (N.lor (N.land B C) (N.land (not32 B) D), i)
    else if (i <? 32)%nat then
      (N.lor (N.land D B) (N.land (not32 D) C), ((5 * i + 1) mod 16)%nat)
    else if (i <? 48)%nat then (N.lxor B (N.lxor C D), ((3 * i + 5) mod 16)%nat)
    else (N.lxor C (N.lor B (not32 D)), ((7 * i) mod 16)%nat) in
  let F := add32 (add32 (add32 F A) (nth i K 0)) (nth g M 0) in
  (D, add32 B (rotl32 F (nth i shifts 0)), B, C).

Definition chunk (st : N * N * N * N) (M : list N) : N * N * N * N :=
  let '(a0, b0, c0, d0) := st in
  let '(A, B, C, D) := fold_left (round M) (seq 0 64) st in
  (add32 a0 A, add32 b0 B, add32 c0 C, add32 d0 D).

Fixpoint chunks (fuel : nat) (ws : list N) : list (list N) :=
  match fuel, ws with
  | S f, _ :: _ => take 16 ws :: chunks f (drop 16 ws)
  | _, _ => []
  end.

Definition hex_digit (d : N) : N := if d <? 10 then 48 + d else 87 + d.

Definition hex_byte (b : N) : pystr := [hex_digit (b / 16); hex_digit (b mod 16)].

Definition hexdigest (s : pystr) : pystr :=
  let bytes := pad (encode s) in
  let ws := words (length bytes) bytes in
  let '(a, b, c, d) :=
    fold_left chunk (chunks (length ws) ws)
              (1732584193, 4023233417, 2562383102, 271733878) in
  flat_map hex_byte (le_bytes 4 a ++ le_bytes 4 b ++ le_bytes 4 c ++ le_bytes 4 d).

End Md5.

(** The clock of the examples stands at one instant. *)
#[local] Instance sys_lib : SysLib := {
  md5_hexdigest := Md5.hexdigest;
  now_timestamp := py "2024-05-01 09:30:00"
}.

(** [bs4] on the strings that hold no markup (no tag, no entity): cleaning
    leaves the string as it is, formatting strips it, and there is no
    header. A value that is no string is refused. *)
#[local] Instance bs4_plain : Bs4Lib := {
  bs_sanitize := fun v => as_text v;
  bs_format := fun v => s ← as_text v; Ok (strip s);
  bs_get_text := fun v => as_text v;
  bs_headers := fun v => _ ← as_text v; Ok []
}.

(* ===================================================================== *)
(** ** Properties *)
(* ===================================================================== *)

(** Unfolds the monad of [Result] where a proof has to look inside. *)
Ltac unfold_result :=
  unfold mbind, Result_bind, bind, try_except in *.

(** A value that is a string, or [None]: what the functions of the second
    file document as their arguments. *)
Definition is_text (v : Value) : Prop :=
  v = VNone \/ exists s, v = VStr s.

(** *** extract_job_type *)

Section JobTypeProps.
Context {RE : ReLib} {STR : StrLib}.

(** The seven standardized job types. *)
Definition standard_types : list pystr :=
  [ py "Full-time"; py "Part-time"; py "Contract"; py "Freelance";
    py "Internship"; py "Temporary"; py "Volunteer" ].

(** No pattern of the table is found in [text]. *)
Definition no_pattern_matches (text : pystr) : Prop :=
  forall standard_type patterns pattern,
    In (standard_type, patterns) job_type_patterns ->
    In pattern patterns ->
    re_search pattern true text = None.

Lemma any_pattern_false patterns text :
  (forall pattern, In pattern patterns -> re_search pattern true text = None) ->
  any_pattern patterns text = false.
Proof.
  induction patterns as [|p ps IH]; intros H; simpl; [reflexivity|].
  rewrite (H p) by (left; reflexivity).
  apply IH. intros q Hq. apply H. right. exact Hq.
Qed.

Lemma match_job_type_in table text t :
  match_job_type table text = Some t -> In t (map fst table).
Proof.
  induction table as [|[ty ps] rest IH]; simpl; [discriminate|].
  destruct (any_pattern ps text).
  - intros [= <-]. left. reflexivity.
  - intros H. right. apply IH, H.
Qed.

Lemma match_job_type_none table text :
  (forall ty ps p, In (ty, ps) table -> In p ps -> re_search p true text = None) ->
  match_job_type table text = None.
Proof.
  induction table as [|[ty ps] rest IH]; intros H; simpl; [reflexivity|].
  rewrite any_pattern_false.
  - apply IH. intros ty' ps' p Hin. apply (H ty' ps' p). right. exact Hin.
  - intros p Hp. apply (H ty ps p); [left; reflexivity | exact Hp].
Qed.

Lemma match_job_type_contexts_in contexts t :
  match_job_type_contexts contexts = Some t -> In t (map fst job_type_patterns).
Proof.
  induction contexts as [|[w c] rest IH]; cbn [match_job_type_contexts];
    [discriminate|].
  destruct (match_job_type job_type_patterns c) eqn:E.
  - intros [= <-]. eapply match_job_type_in, E.
  - exact IH.
Qed.

Lemma match_job_type_contexts_none contexts :
  (forall w c, In (w, c) contexts -> no_pattern_matches c) ->
  match_job_type_contexts contexts = None.
Proof.
  induction contexts as [|[w c] rest IH]; intros H; cbn [match_job_type_contexts];
    [reflexivity|].
  rewrite match_job_type_none.
  - apply IH. intros w' c' Hin. apply (H w' c'). right. exact Hin.
  - apply (H w c). left. reflexivity.
Qed.

Lemma standard_types_table : map fst job_type_patterns = standard_types.
Proof. reflexivity. Qed.

Lemma standard_types_nonempty t : In t standard_types -> t <> [].
Proof.
  unfold standard_types. cbn [In].
  intros [<-|[<-|[<-|[<-|[<-|[<-|[<-|[]]]]]]]]; discriminate.
Qed.

Lemma job_type_from_text_in jt t :
  job_type_from_text jt = Ok (Some t) -> In t standard_types.
Proof.
  unfold job_type_from_text. destruct (truthy jt); [|discriminate].
  destruct jt; cbn [as_str]; unfold_result; try discriminate.
  intros [= H]. rewrite <- standard_types_table. eapply match_job_type_in, H.
Qed.

Lemma job_type_from_description_in d t :
  job_type_from_description d = Ok (Some t) -> In t standard_types.
Proof.
  unfold job_type_from_description. destruct (truthy d); [|discriminate].
  destruct d; cbn [as_str]; unfold_result; try discriminate.
  rewrite <- standard_types_table.
  destruct (match_job_type_contexts _) eqn:E.
  - intros [= <-]. eapply match_job_type_contexts_in, E.
  - intros [= H]. eapply match_job_type_in, H.
Qed.

(** On texts the two parts never raise. *)
Lemma job_type_from_text_total jt :
  is_text jt -> exists r, job_type_from_text jt = Ok r.
Proof.
  intros [->|[s ->]]; unfold job_type_from_text; cbn [truthy as_str];
    unfold_result; [eauto|].
  destruct s; eauto.
Qed.

Lemma job_type_from_description_total d :
  is_text d -> exists r, job_type_from_description d = Ok r.
Proof.
  intros [->|[s ->]]; unfold job_type_from_description; cbn [truthy as_str];
    unfold_result; [eauto|].
  destruct s; [eauto|].
  destruct (match_job_type_contexts _); eauto.
Qed.

Lemma job_type_from_text_none jt :
  is_text jt ->
  (forall s, jt = VStr s -> no_pattern_matches (str_lower s)) ->
  job_type_from_text jt = Ok None.
Proof.
  intros [->|[s ->]] H; unfold job_type_from_text; cbn [truthy as_str];
    unfold_result; [reflexivity|].
  destruct s; [reflexivity|].
  rewrite match_job_type_none; [reflexivity|].
  exact (H _ eq_refl).
Qed.

Lemma job_type_from_description_none d :
  is_text d ->
  (forall s, d = VStr s ->
     no_pattern_matches (str_lower s)
     /\ forall w c,
          In (w, c) (re_findall2
                       (py "(employment|job|position|work)\s+type\s*:?\s*([^.,:;]+)")
                       (str_lower s)) ->
          no_pattern_matches c) ->
  job_type_from_description d = Ok None.
Proof.
  intros [->|[s ->]] H; unfold job_type_from_description; cbn [truthy as_str];
    unfold_result; [reflexivity|].
  destruct s as [|c s]; [reflexivity|].
  destruct (H _ eq_refl) as [H1 H2].
  rewrite match_job_type_contexts_none by exact H2.
  rewrite match_job_type_none; [reflexivity | exact H1].
Qed.

(** [standard_type] is the first type of the table, in its order, one of
    whose patterns is found in [text]: no pattern of a type before it is
    found, and some pattern of its own is. *)
Definition first_type_found (text standard_type : pystr) : Prop :=
  exists before patterns after pattern,
    job_type_patterns = before ++ (standard_type, patterns) :: after
    /\ (forall ty ps p, In (ty, ps) before -> In p ps ->
          re_search p true text = None)
    /\ In pattern patterns
    /\ re_search pattern true text <> None.

Lemma any_pattern_some patterns text pattern :
  In pattern patterns -> re_search pattern true text <> None ->
  any_pattern patterns text = true.
Proof.
  induction patterns as [|p ps IH]; cbn [any_pattern In]; [intros []|].
  intros [Heq|Hin] Hm; destruct (re_search p true text) eqn:E; auto.
  subst p. congruence.
Qed.

(** The scan of a table gives the first type with a pattern found. *)
Lemma match_job_type_first before standard_type patterns after pattern text :
  (forall ty ps p, In (ty, ps) before -> In p ps -> re_search p true text = None) ->
  In pattern patterns -> re_search pattern true text <> None ->
  match_job_type (before ++ (standard_type, patterns) :: after) text
  = Some standard_type.
Proof.
  intros Hb Hin Hm. induction before as [|[ty ps] before IH];
    cbn [app match_job_type].
  - rewrite (any_pattern_some _ _ _ Hin Hm). reflexivity.
  - rewrite any_pattern_false.
    + apply IH. intros ty' ps' p H. apply (Hb ty' ps' p). right. exact H.
    + intros p Hp. apply (Hb ty ps p); [left; reflexivity | exact Hp].
Qed.

Lemma match_job_type_found text standard_type :
  first_type_found text standard_type ->
  match_job_type job_type_patterns text = Some standard_type.
Proof.
  intros (before & patterns & after & pattern & -> & Hb & Hin & Hm).
  eapply match_job_type_first; eassumption.
Qed.

(** The scan of the contexts gives the type of the first context that has
    one. *)
Lemma match_job_type_contexts_first before w context after standard_type :
  (forall w' c', In (w', c') before -> no_pattern_matches c') ->
  first_type_found context standard_type ->
  match_job_type_contexts (before ++ (w, context) :: after) = Some standard_type.
Proof.
  intros Hb Hf. induction before as [|[w' c'] before IH];
    cbn [app match_job_type_contexts].
  - rewrite (match_job_type_found _ _ Hf). reflexivity.
  - rewrite match_job_type_none.
    + apply IH. intros w2 c2 H. apply (Hb w2 c2). right. exact H.
    + apply (Hb w' c'). left. reflexivity.
Qed.

(** C10. [extract_job_type] gives the empty string exactly when both of
    its arguments are absent or empty; on texts it always returns; what it
    returns for an input that is not empty is one of the seven standard
    types. The job-type text is preferred: the first type of the table, in
    its order, with a pattern found in the lowered job-type text is returned
    whatever the description is. When no pattern is found in the job-type
    text, the description decides: the first of its job-type contexts that
    has a type gives it, or else the first type with a pattern found in the
    lowered description. When no pattern is found anywhere the result is
    "Full-time". *)
Theorem extract_job_type_total_default (job_type_text description_text : Value) :
  (extract_job_type job_type_text description_text = Ok (py "")
   <-> truthy job_type_text = false /\ truthy description_text = false)
  /\ (is_text job_type_text -> is_text description_text ->
      exists t, extract_job_type job_type_text description_text = Ok t)
  /\ (forall t,
        truthy job_type_text = true \/ truthy description_text = true ->
        extract_job_type job_type_text description_text = Ok t ->
        In t standard_types)
  /\ (forall s t,
        job_type_text = VStr s -> s <> [] ->
        first_type_found (str_lower s) t ->
        extract_job_type job_type_text description_text = Ok t)
  /\ (forall d t before w context after,
        is_text job_type_text ->
        (forall s, job_type_text = VStr s -> no_pattern_matches (str_lower s)) ->
        description_text = VStr d -> d <> [] ->
        re_findall2 (py "(employment|job|position|work)\s+type\s*:?\s*([^.,:;]+)")
                    (str_lower d)
        = before ++ (w, context) :: after ->
        (forall w' c', In (w', c') before -> no_pattern_matches c') ->
        first_type_found context t ->
        extract_job_type job_type_text description_text = Ok t)
  /\ (forall d t,
        is_text job_type_text ->
        (forall s, job_type_text = VStr s -> no_pattern_matches (str_lower s)) ->
        description_text = VStr d -> d <> [] ->
        (forall w c,
           In (w, c) (re_findall2
                        (py "(employment|job|position|work)\s+type\s*:?\s*([^.,:;]+)")
                        (str_lower d)) ->
           no_pattern_matches c) ->
        first_type_found (str_lower d) t ->
        extract_job_type job_type_text description_text = Ok t)
  /\ (is_text job_type_text -> is_text description_text ->
      truthy job_type_text = true \/ truthy description_text = true ->
      (forall s, job_type_text = VStr s -> no_pattern_matches (str_lower s)) ->
      (forall s, description_text = VStr s ->
         no_pattern_matches (str_lower s)
         /\ forall w c,
              In (w, c) (re_findall2
                           (py "(employment|job|position|work)\s+type\s*:?\s*([^.,:;]+)")
                           (str_lower s)) ->
              no_pattern_matches c) ->
      extract_job_type job_type_text description_text = Ok (py "Full-time")).
Proof.
  assert (Hguard : truthy job_type_text = true \/ truthy description_text = true ->
                   negb (truthy job_type_text) && negb (truthy description_text) = false).
  { intros [-> | ->]; [reflexivity | apply andb_false_r]. }
  assert (Hin : forall t,
             truthy job_type_text = true \/ truthy description_text = true ->
             extract_job_type job_type_text description_text = Ok t ->
             In t standard_types).
  { intros t Hne. unfold extract_job_type. rewrite (Hguard Hne). unfold_result.
    destruct (job_type_from_text job_type_text) as [[t1|]|e] eqn:E1; try discriminate.
    - intros [= <-]. eapply job_type_from_text_in, E1.
    - destruct (job_type_from_description description_text) as [[t2|]|e] eqn:E2;
        try discriminate.
      + intros [= <-]. eapply job_type_from_description_in, E2.
      + intros [= <-]. left. reflexivity. }
  split; [|split; [|split; [exact Hin|split; [|split; [|split]]]]].
  - split.
    + intros H.
      destruct (truthy job_type_text) eqn:T1; destruct (truthy description_text) eqn:T2.
      4: split; reflexivity.
      all: exfalso; apply (standard_types_nonempty (py "")); [|reflexivity].
      all: apply Hin; [auto | exact H].
    + intros [T1 T2]. unfold extract_job_type. rewrite T1, T2. reflexivity.
  - intros H1 H2. unfold extract_job_type.
    destruct (negb (truthy job_type_text) && negb (truthy description_text));
      [eauto|].
    destruct (job_type_from_text_total _ H1) as [r1 E1].
    destruct (job_type_from_description_total _ H2) as [r2 E2].
    unfold_result. rewrite E1. destruct r1; [eauto|].
    rewrite E2. destruct r2; eauto.
  - intros s t -> Hs Hf. unfold extract_job_type, job_type_from_text.
    destruct s as [|c s]; [congruence|].
    cbn [truthy negb andb as_str]. unfold_result.
    rewrite (match_job_type_found _ _ Hf). reflexivity.
  - intros d t before w context after H1 Hjt -> Hd Hctx Hb Hf.
    unfold extract_job_type.
    rewrite Hguard by (right; destruct d; [congruence | reflexivity]).
    rewrite (job_type_from_text_none _ H1 Hjt). unfold_result.
    unfold job_type_from_description. destruct d as [|c d]; [congruence|].
    cbn [truthy as_str]. unfold_result. rewrite Hctx.
    rewrite (match_job_type_contexts_first _ _ _ _ _ Hb Hf). reflexivity.
  - intros d t H1 Hjt -> Hd Hctx Hf.
    unfold extract_job_type.
    rewrite Hguard by (right; destruct d; [congruence | reflexivity]).
    rewrite (job_type_from_text_none _ H1 Hjt). unfold_result.
    unfold job_type_from_description. destruct d as [|c d]; [congruence|].
    cbn [truthy as_str]. unfold_result.
    rewrite (match_job_type_contexts_none _ Hctx).
    rewrite (match_job_type_found _ _ Hf). reflexivity.
  - intros H1 H2 Hne Hjt Hd. unfold extract_job_type. rewrite (Hguard Hne).
    rewrite (job_type_from_text_none _ H1 Hjt).
    rewrite (job_type_from_description_none _ H2 Hd).
    reflexivity.
Qed.

End JobTypeProps.

(** *** extract_job_listings *)

Section ScraperProps.
Context {RE : ReLib} {STR : StrLib} {SYS : SysLib}.
Variable base_urls : gmap pystr pystr.

(** The record a card contributes to the result, if any. *)
Definition record_of (country_code : pystr) (job_card : Element) : option Job :=
  match process_card base_urls country_code job_card with
  | Ok (Some job) => Some job
  | _ => None
  end.

(** A selector gives the card an element with text. *)
Definition has_text (job_card : Element) (selector : pystr) : Prop :=
  exists e, el_select_one job_card selector = Ok (Some e) /\ strip (el_text e) <> [].

(** A selector gives the card an element with a link. *)
Definition has_href (job_card : Element) (selector : pystr) : Prop :=
  exists e h, el_select_one job_card selector = Ok (Some e)
              /\ el_href e = Some h /\ h <> [].

Lemma process_cards_app country_code cards jobs :
  process_cards base_urls country_code cards jobs
  = jobs ++ omap (record_of country_code) cards.
Proof.
  revert jobs. induction cards as [|c cards IH]; intros jobs.
  - simpl. rewrite app_nil_r. reflexivity.
  - cbn [process_cards omap list_omap]. unfold record_of at 1.
    destruct (process_card base_urls country_code c) as [[job|]|e].
    + rewrite IH. rewrite <- app_assoc. reflexivity.
    + apply IH.
    + apply IH.
Qed.

(** The loop over the cards isolates the failure of a card: a card whose
    processing raises adds nothing and stops nothing, the loop returns the
    records of the cards before and after it, in order, and the list holds
    the record of every card that gave one. [extract_job_listings] itself
    raises only where the cards are discovered and where the first card is
    previewed, both outside the loop. *)
Lemma card_loop_isolates_failures (html_content : Html) (country_code : pystr) :
  (forall cards jobs,
     process_cards base_urls country_code cards jobs
     = jobs ++ omap (record_of country_code) cards)
  /\ (forall before job_card after e,
        process_card base_urls country_code job_card = Raise e ->
        process_cards base_urls country_code (before ++ job_card :: after) []
        = process_cards base_urls country_code before []
          ++ process_cards base_urls country_code after [])
  /\ (forall cards,
        discover_cards html_content = Ok cards ->
        preview_first_card cards = Ok tt ->
        extract_job_listings base_urls html_content country_code
        = Ok (omap (record_of country_code) cards))
  /\ (forall e,
        extract_job_listings base_urls html_content country_code = Raise e ->
        discover_cards html_content = Raise e
        \/ exists cards, discover_cards html_content = Ok cards
                         /\ preview_first_card cards = Raise e).
Proof.
  split; [|split; [|split]].
  - intros cards jobs. apply process_cards_app.
  - intros before job_card after e He.
    rewrite !process_cards_app. cbn [app].
    rewrite omap_app. cbn [omap list_omap].
    unfold record_of at 2. rewrite He. reflexivity.
  - intros cards Hd Hp. unfold extract_job_listings. unfold_result.
    rewrite Hd, Hp. rewrite process_cards_app. reflexivity.
  - intros e. unfold extract_job_listings. unfold_result.
    destruct (discover_cards html_content) as [cards|e1]; [|intros [= <-]; auto].
    destruct (preview_first_card cards) as [[]|e2] eqn:Hp; [discriminate|].
    intros [= <-]. right. exists cards. auto.
Qed.

(** The preview of the first card is outside the [try] of the loop: what
    its lookup raises leaves [extract_job_listings]. *)
Lemma preview_failure_escapes html_content country_code first_card cards e :
  discover_cards html_content = Ok (first_card :: cards) ->
  el_select_one first_card (sel "h2, h3, a[href*='job']") = Raise e ->
  extract_job_listings base_urls html_content country_code = Raise e.
Proof.
  intros Hd He. unfold extract_job_listings. unfold_result. rewrite Hd.
  cbn [preview_first_card]. unfold_result. rewrite He. reflexivity.
Qed.

Lemma startswith_app (p a b : pystr) :
  startswith p a = true -> startswith p (a ++ b) = true.
Proof.
  revert a. induction p as [|x p IH]; intros a; [reflexivity|].
  destruct a as [|y a]; simpl; [discriminate|].
  intros H. apply andb_true_iff in H as [H1 H2].
  rewrite H1. simpl. apply IH, H2.
Qed.

Lemma base_url_http country_code :
  (forall c u, base_urls !! c = Some u -> startswith (py "http") u = true) ->
  startswith (py "http") (base_url base_urls country_code) = true.
Proof.
  intros H. unfold base_url.
  destruct (base_urls !! country_code) as [u|] eqn:E; simpl.
  - apply (H _ _ E).
  - reflexivity.
Qed.

Lemma absolute_url_http country_code job_url :
  (forall c u, base_urls !! c = Some u -> startswith (py "http") u = true) ->
  startswith (py "http") (absolute_url base_urls country_code job_url) = true.
Proof.
  intros H. unfold absolute_url.
  destruct (startswith (py "http") job_url) eqn:E; [exact E|].
  destruct (startswith (py "/") job_url);
    apply startswith_app, base_url_http, H.
Qed.

Lemma first_text_nonempty job_card selectors t :
  first_text job_card selectors = Ok (Some t) -> t <> [].
Proof.
  induction selectors as [|s selectors IH]; cbn [first_text]; [discriminate|].
  unfold_result.
  destruct (el_select_one job_card s) as [[e|]|]; try discriminate; [|exact IH].
  destruct (strip (el_text e)) as [|c r] eqn:E; cbn [nonempty]; [exact IH|].
  intros [= <-]. discriminate.
Qed.

Lemma first_text_none job_card selectors :
  (forall s, In s selectors -> ~ has_text job_card s) ->
  forall t, first_text job_card selectors <> Ok (Some t).
Proof.
  induction selectors as [|s selectors IH]; intros H t; cbn [first_text];
    [discriminate|].
  unfold_result.
  destruct (el_select_one job_card s) as [[e|]|] eqn:E; try discriminate.
  - destruct (strip (el_text e)) as [|c r] eqn:Et; cbn [nonempty].
    + apply IH. intros s' Hs'. apply H. right. exact Hs'.
    + exfalso. apply (H s); [left; reflexivity|].
      exists e. split; [exact E|]. rewrite Et. discriminate.
  - apply IH. intros s' Hs'. apply H. right. exact Hs'.
Qed.

Lemma first_href_nonempty job_card selectors h :
  first_href job_card selectors = Ok (Some h) -> h <> [].
Proof.
  induction selectors as [|s selectors IH]; cbn [first_href]; [discriminate|].
  unfold_result.
  destruct (el_select_one job_card s) as [[e|]|]; try discriminate; [|exact IH].
  destruct (el_href e) as [[|c r]|]; cbv beta iota; try exact IH.
  intros [= <-]. discriminate.
Qed.

Lemma first_href_none job_card selectors :
  (forall s, In s selectors -> ~ has_href job_card s) ->
  forall h, first_href job_card selectors <> Ok (Some h).
Proof.
  induction selectors as [|s selectors IH]; intros H h; cbn [first_href];
    [discriminate|].
  unfold_result.
  assert (IH' : first_href job_card selectors <> Ok (Some h)).
  { apply IH. intros s' Hs'. apply H. right. exact Hs'. }
  destruct (el_select_one job_card s) as [[e|]|] eqn:E; try discriminate; [|exact IH'].
  destruct (el_href e) as [[|c r]|] eqn:Eh; cbv beta iota; try exact IH'.
  intros _. apply (H s); [left; reflexivity|].
  exists e, (c :: r). repeat split; [exact E | exact Eh | discriminate].
Qed.

(** A field loop writes its own key and no other. *)
Lemma set_first_text_other job_card selectors key job job' k :
  set_first_text job_card selectors key job = Ok job' ->
  k <> key -> job' !! k = job !! k.
Proof.
  unfold set_first_text. unfold_result.
  destruct (first_text job_card selectors) as [[t|]|]; try discriminate.
  - intros [= <-] Hk. apply lookup_insert_ne. congruence.
  - intros [= <-] _. reflexivity.
Qed.

(** What [process_card] did when it gave a record. *)
Lemma process_card_record country_code job_card job :
  process_card base_urls country_code job_card = Ok (Some job) ->
  exists job_title href,
    el_select_one job_card sponsored_selector = Ok None
    /\ first_text job_card title_selectors = Ok (Some job_title)
    /\ first_href job_card url_selectors = Ok (Some href)
    /\ job !! "title" = Some (VStr job_title)
    /\ job !! "url" = Some (VStr (absolute_url base_urls country_code href))
    /\ job !! "id"
       = Some (VStr (md5_hexdigest (absolute_url base_urls country_code href)))
    /\ job !! "source" = Some (VStr (py "ZipRecruiter"))
    /\ job !! "country" = Some (VStr country_code)
    /\ job !! "salary" = Some (extract_salary job_card).
Proof.
  unfold process_card. unfold_result.
  destruct (el_select_one job_card sponsored_selector) as [[?|]|]; try discriminate.
  destruct (first_text job_card title_selectors) as [[job_title|]|]; try discriminate.
  destruct (first_href job_card url_selectors) as [[href|]|]; try discriminate.
  destruct (set_first_text job_card company_selectors _ _) as [j1|] eqn:E1;
    [|discriminate].
  destruct (set_first_text job_card location_selectors _ j1) as [j2|] eqn:E2;
    [|discriminate].
  destruct (set_first_text job_card description_selectors _ j2) as [j3|] eqn:E3;
    [|discriminate].
  destruct (set_first_text job_card job_type_selectors _ _) as [j4|] eqn:E4;
    [|discriminate].
  destruct (set_first_text job_card date_selectors _ j4) as [j5|] eqn:E5;
    [|discriminate].
  intros [= <-]. exists job_title, href.
  assert (Hk : forall k : string,
             k <> "company"%string -> k <> "location"%string ->
             k <> "description"%string -> k <> "job_type"%string ->
             k <> "date_posted"%string -> k <> "salary"%string ->
             j5 !! k =
             (<["timestamp" := VStr now_timestamp]>
              (<["country" := VStr country_code]>
              (<["source" := VStr (py "ZipRecruiter")]>
              (<["url" := VStr (absolute_url base_urls country_code href)]>
              (<["title" := VStr job_title]>
              (<["id" := VStr (md5_hexdigest
                                 (absolute_url base_urls country_code href))]>
               (∅ : Job))))))) !! k).
  { intros k H1 H2 H3 H4 H5 H6.
    rewrite (set_first_text_other _ _ _ _ _ k E5 H5).
    rewrite (set_first_text_other _ _ _ _ _ k E4 H4).
    rewrite lookup_insert_ne by congruence.
    rewrite (set_first_text_other _ _ _ _ _ k E3 H3).
    rewrite (set_first_text_other _ _ _ _ _ k E2 H2).
    rewrite (set_first_text_other _ _ _ _ _ k E1 H1).
    reflexivity. }
  do 3 (split; [reflexivity|]).
  repeat (split; [rewrite Hk by discriminate;
                  repeat (rewrite lookup_insert_ne by discriminate);
                  apply lookup_insert_eq|]).
  rewrite (set_first_text_other _ _ _ _ _ "salary"%string E5) by discriminate.
  rewrite (set_first_text_other _ _ _ _ _ "salary"%string E4) by discriminate.
  apply lookup_insert_eq.
Qed.

(** A card that is sponsored, or has no title, or has no link, gives no
    record. *)
Lemma record_of_none country_code job_card :
  (exists e, el_select_one job_card sponsored_selector = Ok (Some e))
  \/ (forall s, In s title_selectors -> ~ has_text job_card s)
  \/ (forall s, In s url_selectors -> ~ has_href job_card s) ->
  record_of country_code job_card = None.
Proof.
  intros H. unfold record_of.
  destruct (process_card base_urls country_code job_card) as [[job|]|] eqn:E;
    try reflexivity.
  exfalso. apply process_card_record in E
    as (job_title & href & Hs & Ht & Hh & _).
  destruct H as [[e He] | [H | H]].
  - congruence.
  - exact (first_text_none _ _ H _ Ht).
  - exact (first_href_none _ _ H _ Hh).
Qed.

(** C8. Every record [extract_job_listings] returns has a title that is not
    empty, a URL that starts with "http" (the link of the card, put after
    the base URL of the country when it is relative), the MD5 digest of that
    URL as its id, the source "ZipRecruiter" and the country code given; the
    records are those of the cards found, and a card that is sponsored or
    lacks a title or a link gives none. The table of base URLs is not in the
    source: its entries are taken to start with "http". *)
Theorem extract_job_listings_invariants
    (html_content : Html) (country_code : pystr) (jobs : list Job) :
  (forall c u, base_urls !! c = Some u -> startswith (py "http") u = true) ->
  extract_job_listings base_urls html_content country_code = Ok jobs ->
  (forall job, In job jobs ->
     exists job_title job_url href,
       job !! "title" = Some (VStr job_title) /\ job_title <> []
       /\ job !! "url" = Some (VStr job_url)
       /\ startswith (py "http") job_url = true
       /\ job_url = absolute_url base_urls country_code href
       /\ (startswith (py "http") href = true -> job_url = href)
       /\ (startswith (py "http") href = false ->
           job_url = base_url base_urls country_code ++ href
           \/ job_url = base_url base_urls country_code ++ py "/" ++ href)
       /\ job !! "id" = Some (VStr (md5_hexdigest job_url))
       /\ job !! "source" = Some (VStr (py "ZipRecruiter"))
       /\ job !! "country" = Some (VStr country_code))
  /\ (exists cards,
        discover_cards html_content = Ok cards
        /\ jobs = omap (record_of country_code) cards
        /\ forall job_card,
             In job_card cards ->
             (exists e, el_select_one job_card sponsored_selector = Ok (Some e))
             \/ (forall s, In s title_selectors -> ~ has_text job_card s)
             \/ (forall s, In s url_selectors -> ~ has_href job_card s) ->
             record_of country_code job_card = None).
Proof.
  intros Hbase. unfold extract_job_listings. unfold_result.
  destruct (discover_cards html_content) as [cards|] eqn:Hd; [|discriminate].
  destruct (preview_first_card cards) as [[]|]; [|discriminate].
  rewrite process_cards_app. cbn [app]. intros [= <-].
  split.
  - intros job Hin.
    apply list_elem_of_In, list_elem_of_omap in Hin as (job_card & _ & Hrec).
    unfold record_of in Hrec.
    destruct (process_card base_urls country_code job_card) as [[job'|]|] eqn:E;
      try discriminate.
    injection Hrec as ->.
    apply process_card_record in E
      as (job_title & href & _ & Ht & _ & H1 & H2 & H3 & H4 & H5 & _).
    exists job_title, (absolute_url base_urls country_code href), href.
    split; [exact H1|]. split; [exact (first_text_nonempty _ _ _ Ht)|].
    split; [exact H2|]. split; [apply absolute_url_http, Hbase|].
    split; [reflexivity|].
    split; [intros Hh; unfold absolute_url; rewrite Hh; reflexivity|].
    split; [|auto].
    intros Hh. unfold absolute_url. rewrite Hh.
    destruct (startswith (py "/") href); auto.
  - exists cards. split; [reflexivity|]. split; [reflexivity|].
    intros job_card _. apply record_of_none.
Qed.

(** *** extract_salary *)

(** The first stage gives [t]: some selector of the list gives an element
    whose stripped text is [t], not empty, and no selector before it gives
    text. *)
Definition selector_stage_yields (job_card : Element) (t : pystr) : Prop :=
  exists before selector after e,
    salary_selectors = before ++ selector :: after
    /\ (forall s, In s before -> ~ has_text job_card s)
    /\ el_select_one job_card selector = Ok (Some e)
    /\ strip (el_text e) = t /\ t <> [].

(** The second stage gives [t]: the full text is read, some pattern of the
    list is found in it with [t] the stripped match, and no pattern before
    it is found. *)
Definition pattern_stage_yields (job_card : Element) (t : pystr) : Prop :=
  exists full_text before pattern after m,
    el_get_text job_card = Ok full_text
    /\ salary_patterns = before ++ pattern :: after
    /\ (forall q, In q before -> re_search q true full_text = None)
    /\ re_search pattern true full_text = Some m
    /\ strip (m_group0 m) = t.

Lemma salary_from_selectors_first job_card before selector after e :
  (forall s, In s before -> ~ has_text job_card s) ->
  el_select_one job_card selector = Ok (Some e) ->
  strip (el_text e) <> [] ->
  salary_from_selectors job_card (before ++ selector :: after)
  = Some (strip (el_text e)).
Proof.
  intros Hb He Hne. induction before as [|b before IH]; cbn [app salary_from_selectors].
  - rewrite He. destruct (strip (el_text e)); [congruence | reflexivity].
  - assert (Hb' : forall s, In s before -> ~ has_text job_card s)
      by (intros s Hs; apply Hb; right; exact Hs).
    destruct (el_select_one job_card b) as [[eb|]|] eqn:Eb; try exact (IH Hb').
    destruct (strip (el_text eb)) as [|c r] eqn:Et; cbn [nonempty]; [exact (IH Hb')|].
    exfalso. apply (Hb b); [left; reflexivity|].
    exists eb. split; [exact Eb|]. rewrite Et. discriminate.
Qed.

Lemma salary_from_selectors_none job_card selectors :
  salary_from_selectors job_card selectors = None
  <-> forall s, In s selectors -> ~ has_text job_card s.
Proof.
  induction selectors as [|s selectors IH]; cbn [salary_from_selectors].
  - split; [intros _ s [] | reflexivity].
  - split.
    + intros H x [<-|Hx].
      * intros (e & He & Hne). rewrite He in H.
        destruct (strip (el_text e)); [congruence | discriminate].
      * revert x Hx. apply IH.
        destruct (el_select_one job_card s) as [[e|]|]; try exact H.
        destruct (nonempty (strip (el_text e))); [discriminate | exact H].
    + intros H.
      assert (Hrest : salary_from_selectors job_card selectors = None)
        by (apply IH; intros x Hx; apply H; right; exact Hx).
      destruct (el_select_one job_card s) as [[e|]|] eqn:He; try exact Hrest.
      destruct (strip (el_text e)) as [|c r] eqn:Et; cbn [nonempty]; [exact Hrest|].
      exfalso. apply (H s); [left; reflexivity|].
      exists e. split; [exact He|]. rewrite Et. discriminate.
Qed.

Lemma salary_from_selectors_some job_card selectors t :
  salary_from_selectors job_card selectors = Some t -> t <> [].
Proof.
  induction selectors as [|s selectors IH]; cbn [salary_from_selectors];
    [discriminate|].
  destruct (el_select_one job_card s) as [[e|]|]; try exact IH.
  destruct (strip (el_text e)) as [|c r]; cbn [nonempty]; [exact IH|].
  intros [= <-]. discriminate.
Qed.

Lemma salary_from_patterns_first full_text before pattern after m :
  (forall q, In q before -> re_search q true full_text = None) ->
  re_search pattern true full_text = Some m ->
  salary_from_patterns full_text (before ++ pattern :: after)
  = Some (strip (m_group0 m)).
Proof.
  intros Hb Hm. induction before as [|b before IH]; cbn [app salary_from_patterns].
  - rewrite Hm. reflexivity.
  - rewrite (Hb b) by (left; reflexivity).
    apply IH. intros q Hq. apply Hb. right. exact Hq.
Qed.

Lemma salary_from_patterns_some full_text patterns t :
  salary_from_patterns full_text patterns = Some t ->
  exists before pattern after m,
    patterns = before ++ pattern :: after
    /\ (forall q, In q before -> re_search q true full_text = None)
    /\ re_search pattern true full_text = Some m
    /\ strip (m_group0 m) = t.
Proof.
  induction patterns as [|p patterns IH]; cbn [salary_from_patterns];
    [discriminate|].
  destruct (re_search p true full_text) as [m|] eqn:Em.
  - intros [= <-]. exists [], p, patterns, m.
    repeat split; [intros q [] | exact Em].
  - intros H. destruct (IH H) as (before & pattern & after & m & -> & Hb & Hm & Ht).
    exists (p :: before), pattern, after, m.
    repeat split; try assumption.
    intros q [<-|Hq]; [exact Em | apply Hb, Hq].
Qed.

Lemma extract_salary_none job_card :
  extract_salary job_card = VNone
  <-> find_salary_text job_card = None \/ find_salary_text job_card = Some [].
Proof.
  unfold extract_salary.
  destruct (find_salary_text job_card) as [[|c r]|]; cbn [nonempty].
  - split; auto.
  - destruct (salary_data_of _); split; try discriminate;
      intros [H|H]; discriminate.
  - split; auto.
Qed.

(** C1. [extract_salary] is a cascade: the text of the first selector, in
    the order of the list, that gives text is taken whatever the patterns
    would find; when no selector gives text, the stripped match of the first
    pattern, in the order of the list, found in the full text is taken; and
    the result is [None] exactly when no selector gives text and the
    patterns give no text. *)
Theorem extract_salary_cascade (job_card : Element) :
  (forall t, selector_stage_yields job_card t ->
             find_salary_text job_card = Some t)
  /\ (forall t,
        (forall s, In s salary_selectors -> ~ has_text job_card s) ->
        pattern_stage_yields job_card t ->
        find_salary_text job_card = Some t)
  /\ (extract_salary job_card = VNone
      <-> (forall s, In s salary_selectors -> ~ has_text job_card s)
          /\ (forall t, pattern_stage_yields job_card t -> t = [])).
Proof.
  assert (Hstage2 : forall t,
             pattern_stage_yields job_card t ->
             salary_from_full_text job_card = Some t).
  { intros t (full_text & before & pattern & after & m & Hg & Hp & Hb & Hm & <-).
    unfold salary_from_full_text. rewrite Hg, Hp.
    apply salary_from_patterns_first; assumption. }
  split; [|split].
  - intros t (before & selector & after & e & Hs & Hb & He & <- & Hne).
    unfold find_salary_text. rewrite Hs.
    rewrite (salary_from_selectors_first _ _ _ _ _ Hb He Hne).
    destruct (strip (el_text e)); [congruence | reflexivity].
  - intros t Hnone Hy. unfold find_salary_text.
    apply salary_from_selectors_none in Hnone. rewrite Hnone.
    apply Hstage2, Hy.
  - rewrite extract_salary_none. unfold find_salary_text. split.
    + intros H.
      destruct (salary_from_selectors job_card salary_selectors) as [t|] eqn:E1.
      * pose proof (salary_from_selectors_some _ _ _ E1) as Hne.
        destruct t; [congruence|]. cbn [nonempty] in H.
        destruct H as [H|H]; discriminate.
      * split; [apply salary_from_selectors_none, E1|].
        intros t Hy. rewrite (Hstage2 t Hy) in H.
        destruct H as [H|H]; congruence.
    + intros [Hnone Hpat].
      apply salary_from_selectors_none in Hnone. rewrite Hnone.
      unfold salary_from_full_text in *.
      destruct (el_get_text job_card) as [full_text|] eqn:Hg; [|auto].
      destruct (salary_from_patterns full_text salary_patterns) as [t|] eqn:E2;
        [|auto].
      right. f_equal. apply Hpat.
      destruct (salary_from_patterns_some _ _ _ E2)
        as (before & pattern & after & m & Hp & Hb & Hm & Ht).
      exists full_text, before, pattern, after, m. auto.
Qed.

Lemma Qltb_true x y : Qltb x y = true -> Qle x y.
Proof.
  unfold Qltb. intros H. apply negb_true_iff in H.
  apply Qlt_le_weak, Qnot_le_lt. intros Hle.
  apply Qle_bool_iff in Hle. congruence.
Qed.

Lemma Qltb_false x y : Qltb x y = false -> Qle y x.
Proof.
  unfold Qltb. intros H. apply negb_false_iff in H.
  apply Qle_bool_iff, H.
Qed.

(** [min] is an element of the list and is below every element. *)
Lemma py_min_spec x l :
  In (py_min x l) (x :: l) /\ forall y, In y (x :: l) -> Qle (py_min x l) y.
Proof.
  unfold py_min. revert x. induction l as [|a l IH]; intros x; cbn [fold_left].
  - split; [left; reflexivity|]. intros y [<-|[]]. apply Qle_refl.
  - destruct (Qltb a x) eqn:E.
    + destruct (IH a) as [Hin Hle]. split.
      * right. exact Hin.
      * intros y [<-|Hy]; [|apply Hle, Hy].
        eapply Qle_trans; [apply Hle; left; reflexivity | apply Qltb_true, E].
    + destruct (IH x) as [Hin Hle]. split.
      * destruct Hin as [Hin|Hin]; [left; exact Hin | right; right; exact Hin].
      * intros y [<-|[<-|Hy]].
        -- apply Hle. left. reflexivity.
        -- eapply Qle_trans; [apply Hle; left; reflexivity | apply Qltb_false, E].
        -- apply Hle. right. exact Hy.
Qed.

(** [max] is an element of the list and is above every element. *)
Lemma py_max_spec x l :
  In (py_max x l) (x :: l) /\ forall y, In y (x :: l) -> Qle y (py_max x l).
Proof.
  unfold py_max. revert x. induction l as [|a l IH]; intros x; cbn [fold_left].
  - split; [left; reflexivity|]. intros y [<-|[]]. apply Qle_refl.
  - destruct (Qltb x a) eqn:E.
    + destruct (IH a) as [Hin Hle]. split.
      * right. exact Hin.
      * intros y [<-|Hy]; [|apply Hle, Hy].
        eapply Qle_trans; [apply Qltb_true, E | apply Hle; left; reflexivity].
    + destruct (IH x) as [Hin Hle]. split.
      * destruct Hin as [Hin|Hin]; [left; exact Hin | right; right; exact Hin].
      * intros y [<-|[<-|Hy]].
        -- apply Hle. left. reflexivity.
        -- eapply Qle_trans; [apply Qltb_false, E | apply Hle; left; reflexivity].
        -- apply Hle. right. exact Hy.
Qed.

Lemma salary_data_init_text salary_text :
  salary_data_init salary_text !! "text" = Some (VStr salary_text).
Proof.
  unfold salary_data_init.
  repeat (rewrite lookup_insert_ne by discriminate). apply lookup_insert_eq.
Qed.

Lemma salary_data_init_is_range salary_text :
  salary_data_init salary_text !! "is_range" = Some (VBool false).
Proof.
  unfold salary_data_init.
  repeat (rewrite lookup_insert_ne by discriminate). apply lookup_insert_eq.
Qed.

Lemma salary_data_init_max salary_text :
  salary_data_init salary_text !! "max" = Some VNone.
Proof.
  unfold salary_data_init.
  repeat (rewrite lookup_insert_ne by discriminate). apply lookup_insert_eq.
Qed.

(** C9. Whenever [extract_salary] has found a text, every dictionary it
    returns keeps the cleaned text under "text". When two numbers or more
    are parsed, "is_range" is true, "min" is the smallest and "max" the
    largest of them, so [min <= max]; when exactly one is parsed,
    "is_range" is false, "min" is that number and "max" is [None]. *)
Theorem extract_salary_numbers (job_card : Element) (found : pystr) :
  find_salary_text job_card = Some found ->
  found <> [] ->
  let salary_text := clean_salary_text found in
  (exists d, extract_salary job_card = VDict d
             /\ d !! "text" = Some (VStr salary_text))
  /\ (forall x y rest,
        salary_numbers salary_text = Ok (x :: y :: rest) ->
        exists d lo hi,
          extract_salary job_card = VDict d
          /\ d !! "is_range" = Some (VBool true)
          /\ d !! "min" = Some (VNum lo) /\ d !! "max" = Some (VNum hi)
          /\ In lo (x :: y :: rest) /\ In hi (x :: y :: rest)
          /\ (forall n, In n (x :: y :: rest) -> Qle lo n /\ Qle n hi)
          /\ Qle lo hi)
  /\ (forall x,
        salary_numbers salary_text = Ok [x] ->
        exists d,
          extract_salary job_card = VDict d
          /\ d !! "is_range" = Some (VBool false)
          /\ d !! "min" = Some (VNum x) /\ d !! "max" = Some VNone).
Proof.
  intros Hfind Hne salary_text. unfold extract_salary. rewrite Hfind.
  destruct found as [|c r]; [congruence|]. cbn [nonempty].
  fold salary_text. unfold salary_data_of. unfold_result.
  split; [|split].
  - destruct (salary_numbers salary_text) as [[|x [|y rest]]|e]; eexists;
      (split; [reflexivity|]).
    + apply salary_data_init_text.
    + rewrite lookup_insert_ne by discriminate. apply salary_data_init_text.
    + repeat (rewrite lookup_insert_ne by discriminate).
      apply salary_data_init_text.
    + apply lookup_insert_eq.
  - intros x y rest ->.
    destruct (py_min_spec x (y :: rest)) as [Hmin_in Hmin].
    destruct (py_max_spec x (y :: rest)) as [Hmax_in Hmax].
    eexists; exists (py_min x (y :: rest)), (py_max x (y :: rest)).
    split; [reflexivity|].
    split; [repeat (rewrite lookup_insert_ne by discriminate);
            apply lookup_insert_eq|].
    split; [rewrite lookup_insert_ne by discriminate; apply lookup_insert_eq|].
    split; [apply lookup_insert_eq|].
    split; [exact Hmin_in|]. split; [exact Hmax_in|].
    split; [intros n Hn; split; [apply Hmin | apply Hmax]; exact Hn|].
    apply Hmax, Hmin_in.
  - intros x ->. eexists. split; [reflexivity|].
    split; [rewrite lookup_insert_ne by discriminate;
            apply salary_data_init_is_range|].
    split; [apply lookup_insert_eq|].
    rewrite lookup_insert_ne by discriminate. apply salary_data_init_max.
Qed.

(** *** Failures of single fields *)

(** Two cards that answer alike to every selector that is not a salary
    selector. *)
Definition agree_outside_salary (c c' : Element) : Prop :=
  forall s, ~ In s salary_selectors -> el_select_one c s = el_select_one c' s.

(** The selectors the body of the loop looks up itself. *)
Definition field_selectors : list pystr :=
  sponsored_selector :: title_selectors ++ url_selectors ++ company_selectors
    ++ location_selectors ++ description_selectors ++ job_type_selectors
    ++ date_selectors.

Lemma field_selectors_not_salary :
  Forall (fun s => ~ In s salary_selectors) field_selectors.
Proof.
  assert (H : Forall (fun s => s ∉ salary_selectors) field_selectors).
  { apply (bool_decide_unpack _). vm_compute. exact I. }
  eapply Forall_impl; [exact H|].
  intros s Hs Hin. apply Hs, list_elem_of_In, Hin.
Qed.

Lemma first_text_agree c c' selectors :
  (forall s, In s selectors -> el_select_one c s = el_select_one c' s) ->
  first_text c selectors = first_text c' selectors.
Proof.
  induction selectors as [|s selectors IH]; intros H; cbn [first_text];
    [reflexivity|].
  rewrite (H s) by (left; reflexivity).
  rewrite IH by (intros x Hx; apply H; right; exact Hx). reflexivity.
Qed.

Lemma first_href_agree c c' selectors :
  (forall s, In s selectors -> el_select_one c s = el_select_one c' s) ->
  first_href c selectors = first_href c' selectors.
Proof.
  induction selectors as [|s selectors IH]; intros H; cbn [first_href];
    [reflexivity|].
  rewrite (H s) by (left; reflexivity).
  rewrite IH by (intros x Hx; apply H; right; exact Hx). reflexivity.
Qed.

Lemma agree_on_field_selectors c c' s :
  agree_outside_salary c c' -> In s field_selectors ->
  el_select_one c s = el_select_one c' s.
Proof.
  intros Ha Hs. apply Ha.
  exact (proj1 (List.Forall_forall _ _) field_selectors_not_salary s Hs).
Qed.

Lemma set_first_text_salary c selectors key j j1 v :
  key <> "salary"%string ->
  set_first_text c selectors key j = Ok j1 ->
  set_first_text c selectors key (<["salary" := v]> j) = Ok (<["salary" := v]> j1).
Proof.
  intros Hk. unfold set_first_text. unfold_result.
  destruct (first_text c selectors) as [[t|]|]; try discriminate.
  - intros [= <-]. f_equal. apply insert_insert_ne. congruence.
  - intros [= <-]. reflexivity.
Qed.

(** The record of a card depends on the salary lookups through the value
    of [extract_salary] only. *)
Lemma process_card_salary country_code c c' job :
  agree_outside_salary c c' ->
  process_card base_urls country_code c = Ok (Some job) ->
  process_card base_urls country_code c'
  = Ok (Some (<["salary" := extract_salary c']> job)).
Proof.
  intros Ha.
  assert (Hsel : forall l, (forall s, In s l -> In s field_selectors) ->
                           first_text c l = first_text c' l).
  { intros l Hl. apply first_text_agree. intros s Hs.
    apply agree_on_field_selectors; auto. }
  assert (Hset : forall l key j, (forall s, In s l -> In s field_selectors) ->
                 set_first_text c l key j = set_first_text c' l key j).
  { intros l key j Hl. unfold set_first_text. rewrite (Hsel l Hl). reflexivity. }
  unfold process_card.
  rewrite <- (agree_on_field_selectors c c' sponsored_selector Ha)
    by (left; reflexivity).
  rewrite <- (Hsel title_selectors)
    by (intros s Hs; right; unfold field_selectors; rewrite !in_app_iff; auto).
  rewrite <- (first_href_agree c c' url_selectors)
    by (intros s Hs; apply agree_on_field_selectors; [exact Ha|];
        right; rewrite !in_app_iff; auto).
  unfold_result.
  destruct (el_select_one c sponsored_selector) as [[?|]|]; try discriminate.
  destruct (first_text c title_selectors) as [[job_title|]|]; try discriminate.
  destruct (first_href c url_selectors) as [[href|]|]; try discriminate.
  assert (Hfield : forall l key j,
             In l [company_selectors; location_selectors; description_selectors;
                   job_type_selectors; date_selectors] ->
             set_first_text c' l key j = set_first_text c l key j).
  { intros l key j Hl. symmetry. apply Hset. intros s Hs. right.
    cbn [In] in Hl. rewrite !in_app_iff.
    destruct Hl as [<-|[<-|[<-|[<-|[<-|[]]]]]]; auto 10. }
  rewrite (Hfield company_selectors) by (cbn [In]; auto).
  destruct (set_first_text c company_selectors _ _) as [j1|]; [|discriminate].
  rewrite (Hfield location_selectors) by (cbn [In]; auto).
  destruct (set_first_text c location_selectors _ j1) as [j2|]; [|discriminate].
  rewrite (Hfield description_selectors) by (cbn [In]; auto).
  destruct (set_first_text c description_selectors _ j2) as [j3|]; [|discriminate].
  rewrite (Hfield job_type_selectors) by (cbn [In]; auto 10).
  destruct (set_first_text c job_type_selectors _ (<["salary":=extract_salary c]> j3))
    as [j4|] eqn:E4; [|discriminate].
  destruct (set_first_text c date_selectors _ j4) as [j5|] eqn:E5; [|discriminate].
  intros [= <-].
  apply (set_first_text_salary _ _ _ _ _ (extract_salary c')) in E4;
    [|discriminate].
  rewrite insert_insert_eq in E4. rewrite E4.
  rewrite (Hfield date_selectors) by (cbn [In]; auto 10).
  apply (set_first_text_salary _ _ _ _ _ (extract_salary c')) in E5;
    [|discriminate].
  rewrite E5. reflexivity.
Qed.

Lemma extract_salary_all_raise job_card :
  (forall s, In s salary_selectors -> exists e, el_select_one job_card s = Raise e) ->
  (exists e, el_get_text job_card = Raise e) ->
  extract_salary job_card = VNone.
Proof.
  intros Hs [e He]. apply extract_salary_none. left.
  unfold find_salary_text, salary_from_full_text. rewrite He.
  assert (salary_from_selectors job_card salary_selectors = None) as ->;
    [|reflexivity].
  apply salary_from_selectors_none. intros s Hin (el & Hel & _).
  destruct (Hs s Hin) as [e' He']. congruence.
Qed.

(** C2, as the code has it. A failure inside the salary extraction stays
    there: a card that differs from another only in what its salary
    lookups do gives the same record but for "salary", which is what
    [extract_salary] returns, and [None] when every salary lookup and the
    reading of the text raise. A failure of a lookup for the company, the
    location, the description, the job type or the date ends the card: it
    gives no record, and the loop goes on with the cards that follow. *)
Theorem field_failure_handling (country_code : pystr) (job_card : Element) :
  (forall job_card' job,
     agree_outside_salary job_card job_card' ->
     process_card base_urls country_code job_card = Ok (Some job) ->
     process_card base_urls country_code job_card'
     = Ok (Some (<["salary" := extract_salary job_card']> job)))
  /\ ((forall s, In s salary_selectors ->
                 exists e, el_select_one job_card s = Raise e) ->
      (exists e, el_get_text job_card = Raise e) ->
      extract_salary job_card = VNone)
  /\ (forall job_title href selectors e,
        el_select_one job_card sponsored_selector = Ok None ->
        first_text job_card title_selectors = Ok (Some job_title) ->
        first_href job_card url_selectors = Ok (Some href) ->
        In selectors [company_selectors; location_selectors;
                      description_selectors; job_type_selectors;
                      date_selectors] ->
        first_text job_card selectors = Raise e ->
        (exists e', process_card base_urls country_code job_card = Raise e')
        /\ record_of country_code job_card = None
        /\ forall before after,
             process_cards base_urls country_code
                           (before ++ job_card :: after) []
             = process_cards base_urls country_code before []
               ++ process_cards base_urls country_code after []).
Proof.
  split; [|split].
  - intros job_card' job. apply process_card_salary.
  - apply extract_salary_all_raise.
  - intros job_title href selectors e Hs Ht Hh Hin Hraise.
    assert (Hr : exists e', process_card base_urls country_code job_card = Raise e').
    { unfold process_card, set_first_text. unfold_result. rewrite Hs, Ht, Hh.
      cbn [In] in Hin.
      destruct (first_text job_card company_selectors) as [[?|]|] eqn:E1;
        [| |eauto];
      (destruct (first_text job_card location_selectors) as [[?|]|] eqn:E2;
        [| |eauto]);
      (destruct (first_text job_card description_selectors) as [[?|]|] eqn:E3;
        [| |eauto]);
      (destruct (first_text job_card job_type_selectors) as [[?|]|] eqn:E4;
        [| |eauto]);
      (destruct (first_text job_card date_selectors) as [[?|]|] eqn:E5;
        [| |eauto]).
      all: exfalso; intuition congruence. }
    destruct Hr as [e' He'].
    split; [eauto|]. split; [unfold record_of; rewrite He'; reflexivity|].
    intros before after.
    rewrite !process_cards_app. cbn [app].
    rewrite omap_app. cbn [omap list_omap].
    unfold record_of at 2. rewrite He'. reflexivity.
Qed.

End ScraperProps.

(** *** export_to_csv *)

(** The cells of a record under the headers, in their order: the value of
    the key, or the empty string. *)
Definition csv_row (job : Job) : list Value :=
  map (fun key => dict_get_default job key (VStr [])) csv_headers.

Lemma writerows_ignore jobs :
  writerows ExtrasIgnore csv_headers jobs = (map csv_row jobs, Ok tt).
Proof.
  induction jobs as [|job jobs IH]; [reflexivity|].
  cbn [writerows dict_to_list]. rewrite IH. reflexivity.
Qed.

Lemma csv_row_extra job key value :
  ~ In key csv_headers -> csv_row (<[key := value]> job) = csv_row job.
Proof.
  intros Hk. unfold csv_row. apply map_ext_in. intros h Hh.
  unfold dict_get_default. rewrite lookup_insert_ne; [reflexivity|].
  intros ->. exact (Hk Hh).
Qed.

(** C7, as the code has it. The file holds the header row, which is the
    twenty-two enumerated fields in their order, then one row for each
    record in order; every row has twenty-two cells, the values of the
    record under the headers; a key that is no header changes nothing and
    raises nothing (with [extrasaction='raise'] it would). *)
Theorem export_to_csv_rows (jobs : list Job) :
  export_to_csv jobs true
  = map (fun h => VStr (py h)) csv_headers :: map csv_row jobs
  /\ length csv_headers = 22%nat
  /\ length (export_to_csv jobs true) = S (length jobs)
  /\ Forall (fun row => length row = 22%nat) (export_to_csv jobs true)
  /\ snd (writerows ExtrasIgnore csv_headers jobs) = Ok tt
  /\ (forall job key value,
        ~ In key csv_headers ->
        dict_to_list ExtrasIgnore csv_headers (<[key := value]> job)
        = dict_to_list ExtrasIgnore csv_headers job)
  /\ (forall job key value,
        ~ In key csv_headers ->
        dict_to_list ExtrasRaise csv_headers (<[key := value]> job)
        = Raise "ValueError").
Proof.
  assert (Hexp : export_to_csv jobs true
                 = map (fun h => VStr (py h)) csv_headers :: map csv_row jobs).
  { unfold export_to_csv. rewrite writerows_ignore. reflexivity. }
  split; [exact Hexp|]. split; [reflexivity|].
  split; [rewrite Hexp; cbn [length]; rewrite length_map; reflexivity|].
  split; [|split; [rewrite writerows_ignore; reflexivity|split]].
  - rewrite Hexp. constructor.
    + rewrite length_map. reflexivity.
    + apply Forall_forall. intros row Hrow.
      apply list_elem_of_fmap in Hrow as (job & -> & _).
      unfold csv_row. rewrite length_map. reflexivity.
  - intros job key value Hk. cbn [dict_to_list]. f_equal.
    exact (csv_row_extra job key value Hk).
  - intros job key value Hk. cbn [dict_to_list].
    destruct (forallb _ _) eqn:E; [|reflexivity].
    exfalso. apply Hk.
    rewrite forallb_forall in E.
    assert (Hin : In key (map fst (map_to_list (<[key := value]> job)))).
    { apply in_map_iff. exists (key, value). split; [reflexivity|].
      apply list_elem_of_In, elem_of_map_to_list, lookup_insert_eq. }
    specialize (E key Hin). apply bool_decide_eq_true in E.
    apply list_elem_of_In, E.
Qed.

(** C7, the claim as stated fails: the header row written has twenty-two
    fields, not twenty-one. *)
Lemma export_to_csv_header_not_21 :
  exists header,
    head (export_to_csv [] true) = Some header
    /\ length header = 22%nat /\ length header <> 21%nat.
Proof.
  eexists. split; [reflexivity|]. split; [reflexivity | discriminate].
Qed.

(** *** post_process_job_data *)

Section RunnerProps.
Context {RE : ReLib} {STR : StrLib} {BS : Bs4Lib}.

(** The keys the steps of the post-processing write. *)
Definition written_keys : list string :=
  [ "company"; "location"; "description_html"; "formatted_description";
    "structured_description"; "standardized_job_type"; "job_type"; "skills";
    "experience" ]%string.

(** A step writes under the keys of [keys] only. *)
Definition writes_only (keys : list string) (step : Step) : Prop :=
  forall (job : Job) (k : string), ~ In k keys -> (step job).1 !! k = job !! k.

(** A step removes no key. *)
Definition keeps_keys (step : Step) : Prop :=
  forall (job : Job) (k : string),
    is_Some (job !! k) -> is_Some ((step job).1 !! k).

Lemma insert_keeps (job : Job) (key k : string) (v : Value) :
  is_Some (job !! k) -> is_Some (<[key := v]> job !! k).
Proof.
  intros H. destruct (decide (key = k)) as [->|Hne].
  - rewrite lookup_insert_eq. eauto.
  - rewrite lookup_insert_ne by exact Hne. exact H.
Qed.

(** Case analysis on every test a step makes. *)
Ltac innermost x :=
  lazymatch x with
  | context [match _ with _ => _ end] => fail
  | context [if _ then _ else _] => fail
  | _ => idtac
  end.

Ltac step_cases :=
  cbv zeta;
  repeat match goal with
         | |- context [if ?b then _ else _] => innermost b; destruct b
         | |- context [match ?x with _ => _ end] => innermost x; destruct x
         end;
  cbn [fst snd].

Ltac frame_step :=
  intros job k Hk; unfold_result; step_cases;
  repeat (rewrite lookup_insert_ne by (intros <-; apply Hk; cbn [In]; auto 10));
  reflexivity.

Ltac keeps_step :=
  intros job k Hk; unfold_result; step_cases;
  repeat apply insert_keeps; exact Hk.

Lemma step_company_writes : writes_only ["company"%string] step_company.
Proof. unfold step_company. frame_step. Qed.

Lemma step_location_writes : writes_only ["location"%string] step_location.
Proof. unfold step_location. frame_step. Qed.

Lemma step_html_writes :
  writes_only ["description_html"; "formatted_description"]%string step_html.
Proof. unfold step_html. frame_step. Qed.

Lemma step_structured_writes :
  writes_only ["structured_description"%string] step_structured.
Proof. unfold step_structured. frame_step. Qed.

Lemma step_job_type_writes :
  writes_only ["standardized_job_type"; "job_type"]%string step_job_type.
Proof. unfold step_job_type. frame_step. Qed.

Lemma step_skills_writes : writes_only ["skills"%string] step_skills.
Proof. unfold step_skills. frame_step. Qed.

Lemma step_experience_writes : writes_only ["experience"%string] step_experience.
Proof. unfold step_experience. frame_step. Qed.

Lemma step_company_keeps : keeps_keys step_company.
Proof. unfold step_company. keeps_step. Qed.
Lemma step_location_keeps : keeps_keys step_location.
Proof. unfold step_location. keeps_step. Qed.
Lemma step_html_keeps : keeps_keys step_html.
Proof. unfold step_html. keeps_step. Qed.
Lemma step_structured_keeps : keeps_keys step_structured.
Proof. unfold step_structured. keeps_step. Qed.
Lemma step_job_type_keeps : keeps_keys step_job_type.
Proof. unfold step_job_type. keeps_step. Qed.
Lemma step_skills_keeps : keeps_keys step_skills.
Proof. unfold step_skills. keeps_step. Qed.
Lemma step_experience_keeps : keeps_keys step_experience.
Proof. unfold step_experience. keeps_step. Qed.

(** A step leaves the value under [K] as it is in the records that
    satisfy [P]. *)
Definition preserves (P : Job -> Prop) (K : string) (step : Step) : Prop :=
  forall job : Job, P job -> (step job).1 !! K = job !! K.

Lemma writes_only_preserves P K keys step :
  writes_only keys step -> ~ In K keys -> preserves P K step.
Proof. intros H Hk job _. apply H, Hk. Qed.

Lemma run_steps_preserves (P : Job -> Prop) K steps :
  (forall j j' : Job, j' !! K = j !! K -> P j -> P j') ->
  Forall (preserves P K) steps ->
  preserves P K (run_steps steps).
Proof.
  intros Hext Hall. induction Hall as [|step steps Hstep _ IH]; intros job HP.
  - reflexivity.
  - cbn [run_steps]. specialize (Hstep job HP).
    destruct (step job) as [job1 [u|e]]; cbn [fst] in *.
    + rewrite IH; [exact Hstep|]. exact (Hext _ _ Hstep HP).
    + exact Hstep.
Qed.

Lemma run_steps_keeps steps :
  Forall keeps_keys steps -> keeps_keys (run_steps steps).
Proof.
  intros Hall. induction Hall as [|step steps Hstep _ IH]; intros job k Hk.
  - exact Hk.
  - cbn [run_steps]. specialize (Hstep job k Hk).
    destruct (step job) as [job1 [u|e]]; cbn [fst] in *.
    + apply IH, Hstep.
    + exact Hstep.
Qed.

Lemma missing_field_lookup (j j' : Job) key unknown :
  j' !! key = j !! key ->
  missing_field j' key unknown = missing_field j key unknown.
Proof. intros H. unfold missing_field, dict_get. rewrite H. reflexivity. Qed.

Lemma step_company_populated :
  preserves (fun job => missing_field job "company" (py "Unknown Company") = false)
            "company" step_company.
Proof. intros job H. unfold step_company. rewrite H. reflexivity. Qed.

Lemma step_location_populated :
  preserves (fun job => missing_field job "location" (py "Unknown Location") = false)
            "location" step_location.
Proof. intros job H. unfold step_location. rewrite H. reflexivity. Qed.

Lemma step_job_type_present :
  preserves (fun job => is_Some (job !! "job_type")) "job_type" step_job_type.
Proof.
  intros job [v Hv]. unfold step_job_type. rewrite Hv.
  destruct (extract_job_type _ _); cbn [fst]; [|exact Hv].
  rewrite lookup_insert_ne by discriminate. exact Hv.
Qed.

(** The steps, each with the keys it writes. *)
Lemma post_process_steps_preserve P K :
  preserves P K step_company ->
  preserves P K step_location ->
  preserves P K step_job_type ->
  ~ In K ["description_html"; "formatted_description"; "structured_description";
          "standardized_job_type"; "skills"; "experience"]%string ->
  Forall (preserves P K) post_process_steps.
Proof.
  intros Hc Hl Hj Hk. unfold post_process_steps.
  repeat constructor; try assumption.
  - eapply writes_only_preserves; [apply step_html_writes|].
    intros Hin. apply Hk. cbn [In] in *. intuition auto.
  - eapply writes_only_preserves; [apply step_structured_writes|].
    intros Hin. apply Hk. cbn [In] in *. intuition auto.
  - eapply writes_only_preserves; [apply step_skills_writes|].
    intros Hin. apply Hk. cbn [In] in *. intuition auto.
  - eapply writes_only_preserves; [apply step_experience_writes|].
    intros Hin. apply Hk. cbn [In] in *. intuition auto.
Qed.

(** What the processing of a record leaves of it. *)
Record post_frame (job job' : Job) : Prop := mk_post_frame {
  pf_other : forall k : string, ~ In k written_keys -> job' !! k = job !! k;
  pf_keys : forall k : string, is_Some (job !! k) -> is_Some (job' !! k);
  pf_company :
    missing_field job "company" (py "Unknown Company") = false ->
    job' !! "company" = job !! "company";
  pf_location :
    missing_field job "location" (py "Unknown Location") = false ->
    job' !! "location" = job !! "location";
  pf_job_type :
    is_Some (job !! "job_type") -> job' !! "job_type" = job !! "job_type"
}.

Lemma post_frame_refl job : post_frame job job.
Proof. constructor; auto. Qed.

Lemma post_frame_trans j1 j2 j3 :
  post_frame j1 j2 -> post_frame j2 j3 -> post_frame j1 j3.
Proof.
  intros [A1 A2 A3 A4 A5] [B1 B2 B3 B4 B5]. constructor.
  - intros k Hk. rewrite B1, A1 by exact Hk. reflexivity.
  - intros k Hk. apply B2, A2, Hk.
  - intros H. rewrite <- (A3 H). apply B3.
    rewrite (missing_field_lookup j1 j2) by (apply A3, H). exact H.
  - intros H. rewrite <- (A4 H). apply B4.
    rewrite (missing_field_lookup j1 j2) by (apply A4, H). exact H.
  - intros H. rewrite <- (A5 H). apply B5. rewrite (A5 H). exact H.
Qed.

Lemma post_process_job_frame (job : Job) :
  post_frame job (post_process_job job).1.
Proof.
  unfold post_process_job. constructor.
  - intros k Hk.
    apply (run_steps_preserves (fun _ => True) k); [auto| |exact I].
    apply post_process_steps_preserve.
    + eapply writes_only_preserves; [apply step_company_writes|].
      intros Hin. apply Hk. unfold written_keys. cbn [In] in *. intuition auto 12.
    + eapply writes_only_preserves; [apply step_location_writes|].
      intros Hin. apply Hk. unfold written_keys. cbn [In] in *. intuition auto 12.
    + eapply writes_only_preserves; [apply step_job_type_writes|].
      intros Hin. apply Hk. unfold written_keys. cbn [In] in *. intuition auto 12.
    + intros Hin. apply Hk. unfold written_keys. cbn [In] in *. intuition auto 12.
  - apply run_steps_keeps. unfold post_process_steps.
    repeat constructor;
      auto using step_company_keeps, step_location_keeps, step_html_keeps,
        step_structured_keeps, step_job_type_keeps, step_skills_keeps,
        step_experience_keeps.
  - apply (run_steps_preserves
             (fun job => missing_field job "company" (py "Unknown Company") = false)).
    + intros j j' Hl H. rewrite (missing_field_lookup j j') by exact Hl. exact H.
    + apply post_process_steps_preserve.
      * apply step_company_populated.
      * eapply writes_only_preserves; [apply step_location_writes|].
        cbn [In]. intros [H|[]]. discriminate.
      * eapply writes_only_preserves; [apply step_job_type_writes|].
        cbn [In]. intros [H|[H|[]]]; discriminate.
      * cbn [In]. intros H. repeat destruct H as [H|H]; try discriminate. exact H.
  - apply (run_steps_preserves
             (fun job => missing_field job "location" (py "Unknown Location") = false)).
    + intros j j' Hl H. rewrite (missing_field_lookup j j') by exact Hl. exact H.
    + apply post_process_steps_preserve.
      * eapply writes_only_preserves; [apply step_company_writes|].
        cbn [In]. intros [H|[]]. discriminate.
      * apply step_location_populated.
      * eapply writes_only_preserves; [apply step_job_type_writes|].
        cbn [In]. intros [H|[H|[]]]; discriminate.
      * cbn [In]. intros H. repeat destruct H as [H|H]; try discriminate. exact H.
  - apply (run_steps_preserves (fun job => is_Some (job !! "job_type"))).
    + intros j j' Hl H. rewrite Hl. exact H.
    + apply post_process_steps_preserve.
      * eapply writes_only_preserves; [apply step_company_writes|].
        cbn [In]. intros [H|[]]. discriminate.
      * eapply writes_only_preserves; [apply step_location_writes|].
        cbn [In]. intros [H|[]]. discriminate.
      * apply step_job_type_present.
      * cbn [In]. intros H. repeat destruct H as [H|H]; try discriminate. exact H.
Qed.

(** What [post_process_job_data] leaves of the store: the lists as they
    were, the same references, and each record framed. *)
Definition heap_frame (h h' : Heap) : Prop :=
  lists h' = lists h
  /\ dom (dicts h') = dom (dicts h)
  /\ forall (l : positive) (job : Job),
       dicts h !! l = Some job ->
       exists job', dicts h' !! l = Some job' /\ post_frame job job'.

Lemma heap_frame_refl h : heap_frame h h.
Proof.
  split; [reflexivity|]. split; [reflexivity|].
  intros l job Hl. exists job. split; [exact Hl | apply post_frame_refl].
Qed.

Lemma heap_frame_trans h1 h2 h3 :
  heap_frame h1 h2 -> heap_frame h2 h3 -> heap_frame h1 h3.
Proof.
  intros (A1 & A2 & A3) (B1 & B2 & B3).
  split; [congruence|]. split; [congruence|].
  intros l job Hl.
  destruct (A3 l job Hl) as (job2 & H2 & F2).
  destruct (B3 l job2 H2) as (job3 & H3 & F3).
  exists job3. split; [exact H3 | eapply post_frame_trans; eassumption].
Qed.

Lemma set_dict_frame h r job job' :
  dicts h !! r = Some job -> post_frame job job' ->
  heap_frame h (set_dict h r job').
Proof.
  intros Hr Hf. unfold set_dict. split; [reflexivity|]. cbn [dicts]. split.
  - apply dom_insert_lookup_L. eauto.
  - intros l j Hl. destruct (decide (r = l)) as [->|Hne].
    + rewrite lookup_insert_eq. exists job'. split; [reflexivity|]. congruence.
    + rewrite lookup_insert_ne by exact Hne.
      exists j. split; [exact Hl | apply post_frame_refl].
Qed.

Lemma post_process_loop_frame refs h :
  heap_frame h (post_process_loop refs h).1.
Proof.
  revert h. induction refs as [|r refs IH]; intros h; cbn [post_process_loop].
  - apply heap_frame_refl.
  - destruct (dicts h !! r) as [job|] eqn:Hr; [|apply heap_frame_refl].
    pose proof (post_process_job_frame job) as Hf.
    destruct (post_process_job job) as [job' [u|e]]; cbn [fst] in *.
    + eapply heap_frame_trans; [exact (set_dict_frame h r job job' Hr Hf)|].
      apply IH.
    + exact (set_dict_frame h r job job' Hr Hf).
Qed.

(** The records as the extraction types them: the description and the job
    type, when present, are strings, and there is no HTML description. *)
Definition well_typed (job : Job) : Prop :=
  (forall v, job !! "description" = Some v -> exists s, v = VStr s)
  /\ (forall v, job !! "job_type" = Some v -> exists s, v = VStr s)
  /\ job !! "description_html" = None.

(** A step ends on such records, and leaves them such. *)
Definition step_returns (step : Step) : Prop :=
  forall job, well_typed job ->
    exists job', step job = (job', Ok tt) /\ well_typed job'.

Lemma well_typed_insert (job : Job) (key : string) (v : Value) :
  key <> "description"%string -> key <> "job_type"%string ->
  key <> "description_html"%string ->
  well_typed job -> well_typed (<[key := v]> job).
Proof.
  intros H1 H2 H3 (A & B & C). unfold well_typed.
  rewrite !lookup_insert_ne by congruence. auto.
Qed.

Lemma well_typed_insert_job_type (job : Job) (s : pystr) :
  well_typed job -> well_typed (<["job_type" := VStr s]> job).
Proof.
  intros (A & B & C). unfold well_typed.
  rewrite lookup_insert_eq. rewrite !lookup_insert_ne by discriminate.
  split; [exact A|]. split; [|exact C]. intros v [= <-]. eauto.
Qed.

Lemma well_typed_description job :
  well_typed job ->
  job !! "description" = None \/ exists s, job !! "description" = Some (VStr s).
Proof.
  intros (A & _). destruct (job !! "description") as [v|]; [|auto].
  destruct (A v eq_refl) as [s ->]. eauto.
Qed.

Lemma dict_get_text job key :
  job !! key = None \/ (exists s, job !! key = Some (VStr s)) ->
  dict_get job key = VNone \/ exists s, dict_get job key = VStr s.
Proof.
  unfold dict_get. intros [->|[s ->]]; cbn [default]; eauto.
Qed.

Lemma step_company_returns : step_returns step_company.
Proof.
  intros job Hwt. unfold step_company.
  destruct (missing_field job "company" _); [|eauto].
  destruct (dict_get_text job "description" (well_typed_description _ Hwt))
    as [->|[s ->]]; cbn [truthy as_text].
  - destruct (missing_field job "company" _); eexists; (split; [reflexivity|]);
      [apply well_typed_insert; [discriminate..|exact Hwt] | exact Hwt].
  - destruct s; unfold_result.
    + destruct (missing_field job "company" _); eexists; (split; [reflexivity|]);
        [apply well_typed_insert; [discriminate..|exact Hwt] | exact Hwt].
    + destruct (name_from_description _ _ _ _);
        destruct (missing_field _ "company" _); eexists; (split; [reflexivity|]);
        repeat (apply well_typed_insert; [discriminate..|]); exact Hwt.
Qed.

Lemma step_location_returns : step_returns step_location.
Proof.
  intros job Hwt. unfold step_location.
  destruct (missing_field job "location" _); [|eauto].
  assert (Hd : forall v, dict_get (<["location" := v]> job) "description"
                         = dict_get job "description").
  { intros v. unfold dict_get. rewrite lookup_insert_ne by discriminate.
    reflexivity. }
  destruct (truthy (dict_get job "is_uk")); rewrite ?Hd;
    (destruct (dict_get_text job "description" (well_typed_description _ Hwt))
       as [->|[s ->]]; cbn [truthy as_text];
     [|destruct s; [|destruct (name_from_description _ _ _ _)]]);
    eexists; (split; [reflexivity|]);
    repeat (apply well_typed_insert; [discriminate..|]); exact Hwt.
Qed.

Lemma step_html_returns : step_returns step_html.
Proof.
  intros job Hwt. unfold step_html.
  destruct Hwt as (A & B & C). rewrite C. exists job. split; [reflexivity|].
  split; auto.
Qed.

(** On a string [structure_description] never raises. *)
Lemma structure_description_returns s html :
  exists d, structure_description (VStr s) html = Ok d.
Proof.
  unfold structure_description, try_except.
  destruct (structure_description_body (VStr s) html); [eauto|].
  cbn [truthy as_str]. unfold_result. destruct s; eauto.
Qed.

Lemma step_structured_returns : step_returns step_structured.
Proof.
  intros job Hwt. unfold step_structured.
  destruct (well_typed_description _ Hwt) as [->|[s ->]]; [eauto|].
  destruct (structure_description_returns s
              (dict_get_default job "description_html" (VStr (py ""))))
    as [d ->].
  destruct (is_empty d); eexists; (split; [reflexivity|]);
    [exact Hwt | apply well_typed_insert; [discriminate..|exact Hwt]].
Qed.

Lemma extract_job_type_returns jt d :
  is_text jt -> is_text d -> exists t, extract_job_type jt d = Ok t.
Proof.
  intros H1 H2. unfold extract_job_type.
  destruct (negb (truthy jt) && negb (truthy d)); [eauto|].
  destruct (job_type_from_text_total _ H1) as [r1 E1].
  destruct (job_type_from_description_total _ H2) as [r2 E2].
  unfold_result. rewrite E1. destruct r1; [eauto|].
  rewrite E2. destruct r2; eauto.
Qed.

Lemma step_job_type_returns : step_returns step_job_type.
Proof.
  intros job Hwt. unfold step_job_type.
  assert (Hd : is_text (dict_get_default job "description" (VStr (py "")))).
  { unfold dict_get_default.
    destruct (well_typed_description _ Hwt) as [->|[s ->]]; cbn [default];
      right; eauto. }
  destruct (job !! "job_type") as [v|] eqn:Ejt.
  - destruct Hwt as (A & B & C). destruct (B v Ejt) as [s ->].
    destruct (extract_job_type_returns (VStr s) _ (or_intror (ex_intro _ s eq_refl)) Hd)
      as [t ->].
    eexists. split; [reflexivity|].
    apply well_typed_insert; [discriminate..|]. split; auto.
  - destruct (extract_job_type_returns VNone _ (or_introl eq_refl) Hd) as [t ->].
    destruct (nonempty t); eexists; (split; [reflexivity|]); [|exact Hwt].
    apply well_typed_insert_job_type.
    apply well_typed_insert; [discriminate..|exact Hwt].
Qed.

Lemma step_skills_returns : step_returns step_skills.
Proof.
  intros job Hwt. unfold step_skills.
  destruct (well_typed_description _ Hwt) as [->|[s ->]]; [eauto|].
  unfold extract_skills. cbn [as_str]. unfold_result.
  destruct (map str_title _); eexists; (split; [reflexivity|]);
    [exact Hwt | apply well_typed_insert; [discriminate..|exact Hwt]].
Qed.

Lemma step_experience_returns : step_returns step_experience.
Proof.
  intros job Hwt. unfold step_experience.
  destruct (well_typed_description _ Hwt) as [->|[s ->]]; [eauto|].
  unfold extract_experience. cbn [as_str]. unfold_result.
  destruct (experience_from _ _) as [t|]; [destruct (nonempty t)|];
    eexists; (split; [reflexivity|]);
    try exact Hwt; apply well_typed_insert; [discriminate..|exact Hwt].
Qed.

Lemma run_steps_returns steps :
  Forall step_returns steps -> step_returns (run_steps steps).
Proof.
  intros Hall. induction Hall as [|step steps Hstep _ IH]; intros job Hwt.
  - exists job. split; [reflexivity | exact Hwt].
  - cbn [run_steps]. destruct (Hstep job Hwt) as (job1 & -> & Hwt1).
    apply IH, Hwt1.
Qed.

Lemma post_process_job_returns : step_returns post_process_job.
Proof.
  apply run_steps_returns. unfold post_process_steps.
  repeat constructor;
    auto using step_company_returns, step_location_returns, step_html_returns,
      step_structured_returns, step_job_type_returns, step_skills_returns,
      step_experience_returns.
Qed.

(** On a store of such records the loop ends without raising. *)
Lemma post_process_loop_returns refs h :
  (forall r, In r refs -> is_Some (dicts h !! r)) ->
  (forall l job, dicts h !! l = Some job -> well_typed job) ->
  exists h', post_process_loop refs h = (h', Ok tt).
Proof.
  revert h. induction refs as [|r refs IH]; intros h Hrefs Hwt;
    cbn [post_process_loop]; [eauto|].
  destruct (Hrefs r (or_introl eq_refl)) as [job Hr]. rewrite Hr.
  destruct (post_process_job_returns job (Hwt _ _ Hr)) as (job' & -> & Hwt').
  apply IH.
  - intros r' Hr'. unfold set_dict. cbn [dicts].
    destruct (decide (r = r')) as [->|Hne].
    + rewrite lookup_insert_eq. eauto.
    + rewrite lookup_insert_ne by exact Hne. apply Hrefs. right. exact Hr'.
  - intros l j. unfold set_dict. cbn [dicts].
    destruct (decide (r = l)) as [->|Hne].
    + rewrite lookup_insert_eq. intros [= <-]. exact Hwt'.
    + rewrite lookup_insert_ne by exact Hne. apply Hwt.
Qed.

Lemma populated_not_missing (job : Job) key unknown s :
  job !! key = Some (VStr s) -> s <> [] -> s <> unknown ->
  missing_field job key unknown = false.
Proof.
  intros Hk Hne Hunk. unfold missing_field, dict_get. rewrite Hk.
  cbn [default from_option id truthy eq_str]. unfold PyStr.eqb.
  rewrite (bool_decide_eq_false_2 (s = unknown)) by exact Hunk.
  rewrite (bool_decide_eq_false_2 (s = py "")) by exact Hne.
  destruct s; [congruence | reflexivity].
Qed.

(** C6. [post_process_job_data] returns the reference it was given; the
    list holds the same references in the same order and the store the same
    records, none replaced, none dropped; a record loses no key; what is
    under a key the post-processing does not write ("title", "url", "id",
    and the other fields of the extraction) is as it was; a company or a
    location that is a non-empty string other than "Unknown Company" or
    "Unknown Location" is as it was, and so is a job type that is present.
    On records typed as the extraction types them it does return. *)
Theorem post_process_job_data_frame (jobs : positive) (h : Heap) :
  let h' := (post_process_job_data jobs h).1 in
  (forall r, (post_process_job_data jobs h).2 = Ok r -> r = jobs)
  /\ lists h' = lists h
  /\ dom (dicts h') = dom (dicts h)
  /\ (forall (l : positive) (job : Job),
        dicts h !! l = Some job ->
        exists job',
          dicts h' !! l = Some job'
          /\ (forall k : string, is_Some (job !! k) -> is_Some (job' !! k))
          /\ job' !! "title" = job !! "title"
          /\ job' !! "url" = job !! "url"
          /\ job' !! "id" = job !! "id"
          /\ (forall k : string, ~ In k written_keys -> job' !! k = job !! k)
          /\ (forall s, job !! "company" = Some (VStr s) ->
                        s <> [] -> s <> py "Unknown Company" ->
                        job' !! "company" = Some (VStr s))
          /\ (forall s, job !! "location" = Some (VStr s) ->
                        s <> [] -> s <> py "Unknown Location" ->
                        job' !! "location" = Some (VStr s))
          /\ (forall v, job !! "job_type" = Some v -> job' !! "job_type" = Some v))
  /\ (forall refs,
        lists h !! jobs = Some refs ->
        (forall r, In r refs -> is_Some (dicts h !! r)) ->
        (forall l job, dicts h !! l = Some job -> well_typed job) ->
        (post_process_job_data jobs h).2 = Ok jobs).
Proof.
  cbv zeta.
  assert (Hframe : heap_frame h (post_process_job_data jobs h).1).
  { unfold post_process_job_data.
    destruct (lists h !! jobs) as [refs|]; [|apply heap_frame_refl].
    pose proof (post_process_loop_frame refs h) as Hf.
    destruct (post_process_loop refs h) as [h1 [u|e]]; exact Hf. }
  destruct Hframe as (Hl & Hd & Hj).
  split; [|split; [exact Hl|split; [exact Hd|split]]].
  - intros r. unfold post_process_job_data.
    destruct (lists h !! jobs) as [refs|]; [|discriminate].
    destruct (post_process_loop refs h) as [h1 [u|e]]; cbn [snd];
      [|discriminate].
    intros [= <-]. reflexivity.
  - intros l job Hjob. destruct (Hj l job Hjob) as (job' & Hjob' & F).
    destruct F as [F1 F2 F3 F4 F5].
    exists job'. split; [exact Hjob'|]. split; [exact F2|].
    split; [apply F1; unfold written_keys; cbn [In]; intuition discriminate|].
    split; [apply F1; unfold written_keys; cbn [In]; intuition discriminate|].
    split; [apply F1; unfold written_keys; cbn [In]; intuition discriminate|].
    split; [exact F1|].
    split; [|split].
    + intros s Hs Hne Hunk. rewrite F3; [exact Hs|].
      eapply populated_not_missing; eassumption.
    + intros s Hs Hne Hunk. rewrite F4; [exact Hs|].
      eapply populated_not_missing; eassumption.
    + intros v Hv. rewrite F5; [exact Hv | eauto].
  - intros refs Hrefs Hall Hwt. unfold post_process_job_data. rewrite Hrefs.
    destruct (post_process_loop_returns refs h Hall Hwt) as [h1 ->].
    reflexivity.
Qed.

Lemma run_steps_cons_ok step steps (job job' : Job) :
  run_steps (step :: steps) job = (job', Ok tt) ->
  exists job1, step job = (job1, Ok tt) /\ run_steps steps job1 = (job', Ok tt).
Proof.
  cbn [run_steps]. destruct (step job) as [job1 [[]|e]]; [eauto|discriminate].
Qed.

(** After its step the company is filled in. *)
Lemma step_company_fills (job job' : Job) :
  step_company job = (job', Ok tt) ->
  missing_field job' "company" (py "Unknown Company") = false.
Proof.
  unfold step_company.
  destruct (missing_field job "company" _) eqn:E; [|intros [= <-]; exact E].
  assert (Hfill : forall j : Job,
             missing_field (<["company" := VStr (py "Hiring Company")]> j)
                           "company" (py "Unknown Company") = false).
  { intros j. unfold missing_field, dict_get. rewrite lookup_insert_eq.
    reflexivity. }
  destruct (if truthy (dict_get job "description") then _ else _) as [j|e];
    [|discriminate].
  destruct (missing_field j "company" _) eqn:E2; intros [= <-];
    [apply Hfill | exact E2].
Qed.

(** After its step a job type that was present is standardized. *)
Lemma step_job_type_standardizes (job job' : Job) :
  step_job_type job = (job', Ok tt) ->
  is_Some (job !! "job_type") ->
  exists t, job' !! "standardized_job_type" = Some (VStr t).
Proof.
  unfold step_job_type. intros H [v Hv]. rewrite Hv in H.
  destruct (extract_job_type _ _) as [t|]; [|discriminate].
  injection H as <-. exists t. apply lookup_insert_eq.
Qed.

(** C4, as the code has it. The post-processing fills in the company,
    standardizes the job type, and writes under the keys of [written_keys]
    only (company, location, the HTML and formatted description, the
    structured description, the job types, skills, experience): the salary
    of every record of the store is after it what it was before, missing or
    unparsed as it may be. *)
Theorem post_process_leaves_salary (jobs : positive) (h : Heap) :
  (forall (l : positive) (job : Job),
     dicts h !! l = Some job ->
     exists job',
       dicts (post_process_job_data jobs h).1 !! l = Some job'
       /\ job' !! "salary" = job !! "salary"
       /\ forall k : string, ~ In k written_keys -> job' !! k = job !! k)
  /\ (forall job job' : Job,
        post_process_job job = (job', Ok tt) ->
        missing_field job' "company" (py "Unknown Company") = false
        /\ (is_Some (job !! "job_type") ->
            exists t, job' !! "standardized_job_type" = Some (VStr t))).
Proof.
  split.
  - assert (Hframe : heap_frame h (post_process_job_data jobs h).1).
    { unfold post_process_job_data.
      destruct (lists h !! jobs) as [refs|]; [|apply heap_frame_refl].
      pose proof (post_process_loop_frame refs h) as Hf.
      destruct (post_process_loop refs h) as [h1 [u|e]]; exact Hf. }
    destruct Hframe as (_ & _ & Hj).
    intros l job Hjob. destruct (Hj l job Hjob) as (job' & Hjob' & [F1 _ _ _ _]).
    exists job'. split; [exact Hjob'|]. split; [|exact F1].
    apply F1. unfold written_keys. cbn [In]. intuition discriminate.
  - intros job job' H. unfold post_process_job, post_process_steps in H.
    apply run_steps_cons_ok in H as (j1 & H1 & H).
    split.
    + pose proof (step_company_fills _ _ H1) as Hfill.
      assert (Hc : (run_steps [step_location; step_html; step_structured;
                               step_job_type; step_skills; step_experience] j1).1
                   !! "company" = j1 !! "company").
      { apply (run_steps_preserves (fun _ => True)); [auto| |exact I].
        repeat constructor.
        - eapply writes_only_preserves; [apply step_location_writes|].
          cbn [In]. intuition discriminate.
        - eapply writes_only_preserves; [apply step_html_writes|].
          cbn [In]. intuition discriminate.
        - eapply writes_only_preserves; [apply step_structured_writes|].
          cbn [In]. intuition discriminate.
        - eapply writes_only_preserves; [apply step_job_type_writes|].
          cbn [In]. intuition discriminate.
        - eapply writes_only_preserves; [apply step_skills_writes|].
          cbn [In]. intuition discriminate.
        - eapply writes_only_preserves; [apply step_experience_writes|].
          cbn [In]. intuition discriminate. }
      rewrite H in Hc. cbn [fst] in Hc.
      rewrite (missing_field_lookup j1 job') by exact Hc. exact Hfill.
    + intros Hjt.
      apply run_steps_cons_ok in H as (j2 & H2 & H).
      apply run_steps_cons_ok in H as (j3 & H3 & H).
      apply run_steps_cons_ok in H as (j4 & H4 & H).
      apply run_steps_cons_ok in H as (j5 & H5 & H).
      apply run_steps_cons_ok in H as (j6 & H6 & H).
      apply run_steps_cons_ok in H as (j7 & H7 & H).
      cbn [run_steps] in H. injection H as <-.
      assert (Hjt4 : is_Some (j4 !! "job_type")).
      { pose proof (step_structured_keeps j3 "job_type") as K3.
        pose proof (step_html_keeps j2 "job_type") as K2.
        pose proof (step_location_keeps j1 "job_type") as K1.
        pose proof (step_company_keeps job "job_type") as K0.
        rewrite H1 in K0. rewrite H2 in K1. rewrite H3 in K2. rewrite H4 in K3.
        cbn [fst] in *. auto. }
      destruct (step_job_type_standardizes _ _ H5 Hjt4) as [t Ht].
      exists t.
      pose proof (step_skills_writes j5 "standardized_job_type") as W5.
      pose proof (step_experience_writes j6 "standardized_job_type") as W6.
      rewrite H6 in W5. rewrite H7 in W6. cbn [fst] in *.
      rewrite W6, W5; [exact Ht| |]; cbn [In]; intuition discriminate.
Qed.

(** *** structure_description *)

(** What the stages after the header stages make of the sections [found]
    by the headers: kept when there are two or more; or else what the bullet
    stage makes of them, and when that is nothing, the overview. *)
Definition after_headers (found : Sections) (description_text : pystr) : Sections :=
  if (size found <? 2)%nat then
    if is_empty (bullet_stage description_text found)
    then overview_stage description_text
    else bullet_stage description_text found
  else found.

Lemma classify_step_keeps (structured : Sections) section (k : string) :
  is_Some (structured !! k) -> is_Some (classify_step structured section !! k).
Proof.
  intros H. unfold classify_step.
  repeat match goal with
         | |- context [if ?b then _ else _] => destruct b
         end;
    try exact H; apply lookup_insert_is_Some'; right; exact H.
Qed.

Lemma fold_classify_keeps rest (structured : Sections) (k : string) :
  is_Some (structured !! k) ->
  is_Some (fold_left classify_step rest structured !! k).
Proof.
  revert structured. induction rest as [|sec rest IH]; intros structured H;
    cbn [fold_left]; [exact H|].
  apply IH, classify_step_keeps, H.
Qed.

Lemma overview_stage_has_overview description_text :
  is_Some (overview_stage description_text !! "job_overview").
Proof.
  unfold overview_stage.
  destruct (len description_text <? 500)%nat;
    [rewrite lookup_insert_eq; eauto|].
  destruct (map strip _) as [|first [|second rest]];
    try (rewrite lookup_insert_eq; eauto).
  apply fold_classify_keeps. rewrite lookup_insert_eq. eauto.
Qed.

Lemma sections_nonempty (structured : Sections) (k : string) :
  is_Some (structured !! k) -> structured <> ∅.
Proof. intros [v Hv] ->. rewrite lookup_empty in Hv. discriminate. Qed.

Lemma is_empty_false (structured : Sections) :
  is_empty structured = false -> structured <> ∅.
Proof. unfold is_empty. intros H. apply bool_decide_eq_false in H. exact H. Qed.

Lemma is_empty_size (structured : Sections) :
  (2 <= size structured)%nat -> is_empty structured = false.
Proof.
  intros H. unfold is_empty. apply bool_decide_eq_false. intros ->.
  rewrite map_size_empty in H. lia.
Qed.

(** The body on a string that is not empty, when the HTML stage does not
    raise. *)
Lemma structure_description_body_ok s html hs :
  s <> [] ->
  html_sections html = Ok hs ->
  structure_description_body (VStr s) html
  = Ok (after_headers (if is_empty hs then text_sections s else hs) s).
Proof.
  intros Hs Hh. unfold structure_description_body. rewrite Hh.
  cbn [as_str as_text truthy]. unfold_result.
  assert (Ht : match s with [] => false | _ => true end = true)
    by (destruct s; [congruence | reflexivity]).
  rewrite Ht. clear Ht.
  set (found := if is_empty hs then text_sections s else hs).
  assert (match (if is_empty hs then Ok (text_sections s) else Ok hs) with
          | Ok a => Ok a | Raise e => @Raise Sections e end = Ok found) as Hfound
    by (unfold found; destruct (is_empty hs); reflexivity).
  destruct (is_empty hs); fold found; unfold after_headers;
    destruct (size found <? 2)%nat eqn:Esz;
    try (destruct (is_empty (bullet_stage s found)); reflexivity).
  all: rewrite andb_true_r; destruct (is_empty found) eqn:Ee; [|reflexivity].
  all: exfalso; apply Nat.ltb_ge in Esz; apply is_empty_size in Esz; congruence.
Qed.

(** C5, as the code has it. For a description text that is not empty
    [structure_description] returns a dictionary that is not empty, also
    when its body raises, and then it is the overview alone. The sections
    come from the headers of the HTML when it has some with content, or
    else from the header lines of the text. Two sections or more are
    returned as they are. With fewer, the bullet stage writes into what the
    headers gave: it may add "about", "requirements" or "responsibilities"
    and may replace the latter two; and when nothing at all is found the
    length-based overview is returned, which always has "job_overview". *)
Theorem structure_description_fallbacks (s : pystr) (description_html : Value) :
  s <> [] ->
  (exists d, structure_description (VStr s) description_html = Ok d /\ d <> ∅)
  /\ (forall e,
        structure_description_body (VStr s) description_html = Raise e ->
        structure_description (VStr s) description_html
        = Ok (<["job_overview" := strip s]> ∅))
  /\ (forall hs,
        html_sections description_html = Ok hs ->
        structure_description (VStr s) description_html
        = Ok (after_headers (if is_empty hs then text_sections s else hs) s))
  /\ (forall hs,
        html_sections description_html = Ok hs ->
        (2 <= size hs)%nat ->
        structure_description (VStr s) description_html = Ok hs)
  /\ (forall hs,
        html_sections description_html = Ok hs ->
        hs = ∅ -> (2 <= size (text_sections s))%nat ->
        structure_description (VStr s) description_html = Ok (text_sections s))
  /\ is_Some (overview_stage s !! "job_overview")
  /\ ((len s < 500)%nat ->
      overview_stage s = <["job_overview" := strip s]> ∅).
Proof.
  intros Hs.
  assert (Hraise : forall e,
            structure_description_body (VStr s) description_html = Raise e ->
            structure_description (VStr s) description_html
            = Ok (<["job_overview" := strip s]> ∅)).
  { intros e He. unfold structure_description, try_except. rewrite He.
    cbn [truthy as_str]. unfold_result. destruct s; [congruence | reflexivity]. }
  assert (Hok : forall hs,
            html_sections description_html = Ok hs ->
            structure_description (VStr s) description_html
            = Ok (after_headers (if is_empty hs then text_sections s else hs) s)).
  { intros hs Hh. unfold structure_description, try_except.
    rewrite (structure_description_body_ok s description_html hs Hs Hh).
    reflexivity. }
  split; [|split; [exact Hraise|split; [exact Hok|split; [|split; [|split]]]]].
  - destruct (structure_description_body (VStr s) description_html) as [d|e] eqn:E.
    + destruct (html_sections description_html) as [hs|e] eqn:Eh.
      * rewrite (Hok hs eq_refl). eexists. split; [reflexivity|].
        unfold after_headers.
        destruct (size _ <? 2)%nat eqn:Esz.
        -- destruct (is_empty (bullet_stage s _)) eqn:Eb.
           ++ eapply sections_nonempty, overview_stage_has_overview.
           ++ apply is_empty_false, Eb.
        -- apply is_empty_false, is_empty_size, Nat.ltb_ge, Esz.
      * unfold structure_description_body in E. rewrite Eh in E.
        unfold_result. discriminate.
    + rewrite (Hraise e eq_refl). eexists. split; [reflexivity|].
      eapply (sections_nonempty _ "job_overview"). rewrite lookup_insert_eq. eauto.
  - intros hs Hh Hsz. rewrite (Hok hs Hh).
    rewrite (is_empty_size hs Hsz). unfold after_headers.
    apply Nat.ltb_ge in Hsz. rewrite Hsz. reflexivity.
  - intros hs Hh -> Hsz. rewrite (Hok ∅ Hh).
    unfold is_empty at 1. rewrite bool_decide_eq_true_2 by reflexivity.
    unfold after_headers. apply Nat.ltb_ge in Hsz. rewrite Hsz. reflexivity.
  - apply overview_stage_has_overview.
  - intros Hlen. unfold overview_stage.
    apply Nat.ltb_lt in Hlen. rewrite Hlen. reflexivity.
Qed.

End RunnerProps.

(* ===================================================================== *)
(** ** More properties: discovery, record shape, post-processing, main *)
(* ===================================================================== *)

(** *** Facts about the [str] methods *)

Lemma lstrip_fixed c t : isspace c = false -> lstrip (c :: t) = c :: t.
Proof. intros H. cbn [lstrip]. rewrite H. reflexivity. Qed.

Lemma lstrip_head s :
  match lstrip s with c :: _ => isspace c = false | [] => True end.
Proof.
  induction s as [|c t IH]; cbn [lstrip]; [exact I|].
  destruct (isspace c) eqn:E; [exact IH | exact E].
Qed.

Lemma lstrip_idem s : lstrip (lstrip s) = lstrip s.
Proof.
  pose proof (lstrip_head s) as H.
  destruct (lstrip s) as [|c t]; [reflexivity | apply lstrip_fixed, H].
Qed.

Lemma lstrip_snoc l c :
  isspace c = false -> exists w, lstrip (l ++ [c]) = w ++ [c].
Proof.
  intros Hc. induction l as [|a l IH]; cbn [app lstrip].
  - rewrite Hc. exists []. reflexivity.
  - destruct (isspace a); [exact IH|]. exists (a :: l). reflexivity.
Qed.

(** [strip] leaves nothing to strip. *)
Lemma strip_idem s : strip (strip s) = strip s.
Proof.
  unfold strip, rstrip.
  pose proof (lstrip_head s) as Hh.
  destruct (lstrip s) as [|c t]; [reflexivity|].
  cbn [rev]. destruct (lstrip_snoc (rev t) c Hh) as [w Hw].
  pose proof (lstrip_idem (rev t ++ [c])) as Hi.
  rewrite Hw in *. rewrite rev_app_distr. cbn [rev app].
  rewrite (lstrip_fixed c (rev w) Hh).
  cbn [rev]. rewrite rev_involutive. rewrite Hi.
  rewrite rev_app_distr. reflexivity.
Qed.

Lemma startswith_spec p s :
  startswith p s = true <-> exists post, s = p ++ post.
Proof.
  revert s. induction p as [|a p IH]; intros s.
  - split; [intros _; exists s; reflexivity | reflexivity].
  - destruct s as [|b s]; cbn [startswith].
    + split; [discriminate | intros [post H]; discriminate H].
    + rewrite andb_true_iff, N.eqb_eq, IH. split.
      * intros [-> [post ->]]. exists post. reflexivity.
      * intros [post [= -> ->]]. eauto.
Qed.

Lemma contains_spec sub s :
  contains sub s = true <-> exists pre post, s = pre ++ sub ++ post.
Proof.
  induction s as [|c s IH]; cbn [contains].
  - rewrite orb_false_r, startswith_spec. split.
    + intros [post H]. exists [], post. exact H.
    + intros (pre & post & H). destruct pre as [|x pre]; [|discriminate H].
      exists post. exact H.
  - rewrite orb_true_iff, startswith_spec, IH. split.
    + intros [[post H] | (pre & post & H)].
      * exists [], post. exact H.
      * exists (c :: pre), post. rewrite H. reflexivity.
    + intros (pre & post & H). destruct pre as [|x pre].
      * left. exists post. exact H.
      * right. injection H as -> ->. eauto.
Qed.

(** A substring of a substring is a substring. *)
Lemma contains_trans a b s :
  contains a b = true -> contains b s = true -> contains a s = true.
Proof.
  rewrite !contains_spec. intros (p1 & q1 & ->) (p2 & q2 & ->).
  exists (p2 ++ p1), (q1 ++ q2). rewrite <- !app_assoc. reflexivity.
Qed.

Lemma split_char_cons sep s : exists w ws, split_char sep s = w :: ws.
Proof.
  induction s as [|c t IH]; cbn [split_char]; [eauto|].
  destruct (c =? sep); [eauto|]. destruct IH as (w & ws & ->). eauto.
Qed.

Lemma join_cons sep p q ps : join sep (p :: q :: ps) = p ++ sep ++ join sep (q :: ps).
Proof. reflexivity. Qed.

(** [sep.join(s.split(sep)) == s] *)
Lemma join_split_char sep s : join [sep] (split_char sep s) = s.
Proof.
  induction s as [|c t IH]; cbn [split_char]; [reflexivity|].
  destruct (split_char_cons sep t) as (w & ws & E). rewrite E in *.
  destruct (c =? sep) eqn:Ec.
  - apply N.eqb_eq in Ec as ->. rewrite join_cons, IH. reflexivity.
  - destruct ws as [|w' ws].
    + cbn [join] in *. rewrite IH. reflexivity.
    + rewrite join_cons in *. rewrite <- IH. reflexivity.
Qed.

Lemma split_char_no_sep sep s w :
  In w (split_char sep s) -> ~ In sep w.
Proof.
  revert w. induction s as [|c t IH]; intros w; cbn [split_char].
  - intros [<-|[]] [].
  - destruct (c =? sep) eqn:Ec.
    + intros [<-|H]; [intros [] | apply IH, H].
    + destruct (split_char_cons sep t) as (w0 & ws & E). rewrite E in *.
      intros [<-|H].
      * intros [->|H]; [rewrite N.eqb_refl in Ec; discriminate|].
        apply (IH w0); [left; reflexivity | exact H].
      * apply IH. right. exact H.
Qed.

Lemma contains_char_in c s : contains [c] s = true <-> In c s.
Proof.
  rewrite contains_spec. split.
  - intros (pre & post & ->). apply in_or_app. right. left. reflexivity.
  - intros H. apply in_split in H as (l1 & l2 & ->). exists l1, l2. reflexivity.
Qed.

Lemma split_char_single sep s : ~ In sep s -> split_char sep s = [s].
Proof.
  induction s as [|c t IH]; intros H; cbn [split_char]; [reflexivity|].
  destruct (c =? sep) eqn:Ec.
  - apply N.eqb_eq in Ec as ->. exfalso. apply H. left. reflexivity.
  - rewrite IH; [reflexivity|]. intros Hin. apply H. right. exact Hin.
Qed.

Section ScraperMore.
Context {RE : ReLib} {STR : StrLib} {SYS : SysLib}.
Variable base_urls : gmap pystr pystr.

(** *** The discovery of the cards *)

(** A selector finds no card: [select] gives the empty list, or raises. *)
Definition finds_nothing (html_content : Html) (selector : pystr) : Prop :=
  html_select html_content selector = Ok []
  \/ exists e, html_select html_content selector = Raise e.

Lemma find_job_cards_first html_content before selector after c cards :
  (forall s, In s before -> finds_nothing html_content s) ->
  html_select html_content selector = Ok (c :: cards) ->
  find_job_cards html_content (before ++ selector :: after) = c :: cards.
Proof.
  intros Hb Hs. induction before as [|b before IH]; cbn [app find_job_cards].
  - rewrite Hs. reflexivity.
  - destruct (Hb b (or_introl eq_refl)) as [-> | [e ->]];
      apply IH; intros s Hin; apply Hb; right; exact Hin.
Qed.

Lemma find_job_cards_nothing html_content selectors :
  find_job_cards html_content selectors = []
  <-> forall s, In s selectors -> finds_nothing html_content s.
Proof.
  induction selectors as [|s selectors IH]; cbn [find_job_cards].
  - split; [intros _ s [] | reflexivity].
  - destruct (html_select html_content s) as [[|c cards]|e] eqn:E.
    + rewrite IH. split.
      * intros H s' [<-|Hin]; [left; exact E | apply H, Hin].
      * intros H s' Hin. apply H. right. exact Hin.
    + split; [discriminate|]. intros H.
      destruct (H s (or_introl eq_refl)) as [H1 | [e H1]]; congruence.
    + rewrite IH. split.
      * intros H s' [<-|Hin]; [right; eauto | apply H, Hin].
      * intros H s' Hin. apply H. right. exact Hin.
Qed.

(** X1. The cards are those of the first selector of the list, in its
    order, that finds some: the selectors before it that find nothing or
    raise are passed over. The alternative approach runs exactly when no
    selector finds a card, and it is the only place where the discovery can
    raise. *)
Theorem discover_cards_priority (html_content : Html) :
  (forall before selector after c cards,
     job_card_selectors = before ++ selector :: after ->
     (forall s, In s before -> finds_nothing html_content s) ->
     html_select html_content selector = Ok (c :: cards) ->
     discover_cards html_content = Ok (c :: cards))
  /\ ((forall s, In s job_card_selectors -> finds_nothing html_content s) ->
      discover_cards html_content = cards_from_titles html_content)
  /\ (forall e,
        discover_cards html_content = Raise e ->
        (forall s, In s job_card_selectors -> finds_nothing html_content s)
        /\ html_select html_content
             (sel "h2, h3, a[href*='job'], a[href*='career']") = Raise e).
Proof.
  split; [|split].
  - intros before selector after c cards Hsel Hb Hs. unfold discover_cards.
    rewrite Hsel, (find_job_cards_first _ _ _ _ _ _ Hb Hs). reflexivity.
  - intros H. apply find_job_cards_nothing in H. unfold discover_cards.
    rewrite H. reflexivity.
  - intros e. unfold discover_cards.
    destruct (find_job_cards html_content job_card_selectors) as [|c cards] eqn:E;
      [|discriminate].
    intros H. split; [apply find_job_cards_nothing, E|].
    unfold cards_from_titles in H. unfold_result.
    destruct (html_select html_content _) as [titles|e']; [discriminate|].
    exact H.
Qed.

(** The parents looked at above a title: [levels] of them at most, the
    nearest first. *)
Fixpoint ancestors (levels : nat) (parent : option Element) : list Element :=
  match levels, parent with
  | S n, Some p => p :: ancestors n (el_parent p)
  | _, _ => []
  end.

Lemma card_above_nearest levels parent c :
  card_above levels parent = Some c ->
  looks_like_card c = true
  /\ exists nearer further,
       ancestors levels parent = nearer ++ c :: further
       /\ Forall (fun a => looks_like_card a = false) nearer.
Proof.
  revert parent. induction levels as [|n IH]; intros parent; cbn [card_above];
    [discriminate|].
  destruct parent as [p|].
  - cbn [ancestors]. destruct (looks_like_card p) eqn:E.
    + intros [= <-]. split; [exact E|]. exists [], (ancestors n (el_parent p)).
      split; [reflexivity | constructor].
    + intros H. destruct (IH _ H) as (Hc & nearer & further & Ha & Hn).
      split; [exact Hc|]. exists (p :: nearer), further.
      split; [rewrite Ha; reflexivity | constructor; assumption].
  - intros H. destruct n; cbn [card_above] in H; [discriminate|].
    destruct (IH None) as (_ & nearer & further & Ha & _).
    + destruct n; exact H.
    + destruct nearer; discriminate Ha.
Qed.

Lemma omap_length_le {A B : Type} (f : A -> option B) (l : list A) :
  (length (omap f l) <= length l)%nat.
Proof.
  induction l as [|a l IH]; cbn [omap list_omap length]; [lia|].
  destruct (f a); cbn [length]; lia.
Qed.

(** X2. The alternative approach looks at the first ten potential titles
    only and gives at most one card for each: the nearest of the three
    closest ancestors of the title that has a class or is an [article] or a
    [div]. *)
Theorem cards_from_titles_nearest_ancestor
    (html_content : Html) (potential_titles cards : list Element) :
  html_select html_content (sel "h2, h3, a[href*='job'], a[href*='career']")
  = Ok potential_titles ->
  cards_from_titles html_content = Ok cards ->
  (length cards <= 10)%nat
  /\ (length cards <= length potential_titles)%nat
  /\ forall c, In c cards ->
       looks_like_card c = true
       /\ exists title_elem nearer further,
            In title_elem (take 10 potential_titles)
            /\ ancestors 3 (el_parent title_elem) = nearer ++ c :: further
            /\ Forall (fun a => looks_like_card a = false) nearer.
Proof.
  intros Ht. unfold cards_from_titles. rewrite Ht. unfold_result.
  intros [= <-].
  assert (Hlen : (length (omap (fun title_elem => card_above 3 (el_parent title_elem))
                               (take 10 potential_titles))
                  <= length (take 10 potential_titles))%nat)
    by apply omap_length_le.
  pose proof (firstn_le_length 10 potential_titles) as Hten.
  pose proof (Nat.le_min_r 10 (length potential_titles)) as Hall.
  rewrite <- length_take in Hall.
  split; [exact (Nat.le_trans _ _ _ Hlen Hten)|].
  split; [exact (Nat.le_trans _ _ _ Hlen Hall)|].
  intros c Hin.
  apply list_elem_of_In, list_elem_of_omap in Hin as (title_elem & Hin & Hc).
  apply (card_above_nearest 3 (el_parent title_elem)) in Hc as (Hc & nearer & further & Ha & Hn).
  split; [exact Hc|]. exists title_elem, nearer, further.
  split; [apply list_elem_of_In, Hin|]. auto.
Qed.

End ScraperMore.

Section RecordShape.
Context {RE : ReLib} {STR : StrLib} {SYS : SysLib}.
Variable base_urls : gmap pystr pystr.

(** *** The shape of a record *)

(** The keys set for every record, and the keys set when the card has the
    field. *)
Definition required_keys : list string :=
  [ "id"; "title"; "url"; "source"; "country"; "timestamp"; "salary" ]%string.
Definition optional_keys : list string :=
  [ "company"; "location"; "description"; "job_type"; "date_posted" ]%string.

(** A text as the field loops store it: stripped, and not empty. *)
Definition stripped_text (v : Value) : Prop :=
  exists t, v = VStr t /\ t <> [] /\ strip t = t.

Lemma first_text_stripped job_card selectors t :
  first_text job_card selectors = Ok (Some t) -> t <> [] /\ strip t = t.
Proof.
  induction selectors as [|s selectors IH]; cbn [first_text]; [discriminate|].
  unfold_result.
  destruct (el_select_one job_card s) as [[e|]|]; try discriminate; [|exact IH].
  destruct (strip (el_text e)) as [|c r] eqn:E; cbn [nonempty]; [exact IH|].
  intros [= <-]. split; [discriminate|]. rewrite <- E. apply strip_idem.
Qed.

(** What is under a key after a field loop was there before it, or is the
    text the loop found. *)
Lemma set_first_text_lookup job_card selectors key (job job' : Job) (k : string) v :
  set_first_text job_card selectors key job = Ok job' ->
  job' !! k = Some v ->
  job !! k = Some v \/ (k = key /\ stripped_text v).
Proof.
  unfold set_first_text. unfold_result.
  destruct (first_text job_card selectors) as [[t|]|] eqn:E; try discriminate.
  - intros [= <-]. destruct (decide (key = k)) as [->|Hne].
    + rewrite lookup_insert_eq. intros [= <-]. right. split; [reflexivity|].
      exists t. split; [reflexivity|]. eapply first_text_stripped, E.
    + rewrite lookup_insert_ne by exact Hne. auto.
  - intros [= <-]. auto.
Qed.

Lemma set_first_text_keeps job_card selectors key (job job' : Job) (k : string) :
  set_first_text job_card selectors key job = Ok job' ->
  is_Some (job !! k) -> is_Some (job' !! k).
Proof.
  unfold set_first_text. unfold_result.
  destruct (first_text job_card selectors) as [[t|]|]; try discriminate;
    intros [= <-]; [|auto].
  intros H. apply lookup_insert_is_Some'. auto.
Qed.

(** [extract_salary] gives [None] or a dictionary. *)
Lemma extract_salary_none_or_dict job_card :
  extract_salary job_card = VNone \/ exists d, extract_salary job_card = VDict d.
Proof.
  unfold extract_salary.
  destruct (find_salary_text job_card) as [found|]; [|auto].
  destruct (nonempty found); [|auto].
  destruct (salary_data_of _); eauto.
Qed.

(** Where the value under a key of a record comes from. *)
Lemma process_card_lookup country_code job_card (job : Job) (k : string) v :
  process_card base_urls country_code job_card = Ok (Some job) ->
  job !! k = Some v ->
  (In k optional_keys /\ stripped_text v)
  \/ (k = "salary"%string /\ v = extract_salary job_card)
  \/ (k = "timestamp"%string /\ v = VStr now_timestamp)
  \/ (In k ["id"; "title"; "url"; "source"; "country"]%string
      /\ exists t, v = VStr t).
Proof.
  unfold process_card. unfold_result.
  destruct (el_select_one job_card sponsored_selector) as [[?|]|]; try discriminate.
  destruct (first_text job_card title_selectors) as [[job_title|]|]; try discriminate.
  destruct (first_href job_card url_selectors) as [[href|]|]; try discriminate.
  destruct (set_first_text job_card company_selectors _ _) as [j1|] eqn:E1;
    [|discriminate].
  destruct (set_first_text job_card location_selectors _ j1) as [j2|] eqn:E2;
    [|discriminate].
  destruct (set_first_text job_card description_selectors _ j2) as [j3|] eqn:E3;
    [|discriminate].
  destruct (set_first_text job_card job_type_selectors _ _) as [j4|] eqn:E4;
    [|discriminate].
  destruct (set_first_text job_card date_selectors _ j4) as [j5|] eqn:E5;
    [|discriminate].
  intros [= <-] Hv. unfold optional_keys.
  destruct (set_first_text_lookup _ _ _ _ _ _ _ E5 Hv) as [Hv4 | [-> Ht]];
    [|left; cbn [In]; auto 10].
  destruct (set_first_text_lookup _ _ _ _ _ _ _ E4 Hv4) as [Hv3 | [-> Ht]];
    [|left; cbn [In]; auto 10].
  destruct (decide (k = "salary"%string)) as [->|Hsal].
  { rewrite lookup_insert_eq in Hv3. injection Hv3 as <-. auto. }
  rewrite lookup_insert_ne in Hv3 by congruence.
  destruct (set_first_text_lookup _ _ _ _ _ _ _ E3 Hv3) as [Hv2 | [-> Ht]];
    [|left; cbn [In]; auto 10].
  destruct (set_first_text_lookup _ _ _ _ _ _ _ E2 Hv2) as [Hv1 | [-> Ht]];
    [|left; cbn [In]; auto 10].
  destruct (set_first_text_lookup _ _ _ _ _ _ _ E1 Hv1) as [Hv0 | [-> Ht]];
    [|left; cbn [In]; auto 10].
  right. right.
  repeat match type of Hv0 with
         | <[?key := _]> _ !! k = Some _ =>
           destruct (decide (k = key)) as [->|?];
             [rewrite lookup_insert_eq in Hv0; injection Hv0 as <-
             |rewrite lookup_insert_ne in Hv0 by congruence]
         end.
  all: try (left; split; reflexivity).
  all: try (right; split; [cbn [In]; auto 10 | eexists; reflexivity]).
  rewrite lookup_empty in Hv0. discriminate.
Qed.

(** The keys every record has. *)
Lemma process_card_required country_code job_card (job : Job) (k : string) :
  process_card base_urls country_code job_card = Ok (Some job) ->
  In k required_keys -> is_Some (job !! k).
Proof.
  unfold process_card. unfold_result.
  destruct (el_select_one job_card sponsored_selector) as [[?|]|]; try discriminate.
  destruct (first_text job_card title_selectors) as [[job_title|]|]; try discriminate.
  destruct (first_href job_card url_selectors) as [[href|]|]; try discriminate.
  destruct (set_first_text job_card company_selectors _ _) as [j1|] eqn:E1;
    [|discriminate].
  destruct (set_first_text job_card location_selectors _ j1) as [j2|] eqn:E2;
    [|discriminate].
  destruct (set_first_text job_card description_selectors _ j2) as [j3|] eqn:E3;
    [|discriminate].
  destruct (set_first_text job_card job_type_selectors _ _) as [j4|] eqn:E4;
    [|discriminate].
  destruct (set_first_text job_card date_selectors _ j4) as [j5|] eqn:E5;
    [|discriminate].
  intros [= <-] Hk.
  apply (set_first_text_keeps _ _ _ _ _ _ E5).
  apply (set_first_text_keeps _ _ _ _ _ _ E4).
  apply lookup_insert_is_Some'.
  destruct (decide (k = "salary"%string)) as [->|Hsal]; [auto|]. right.
  apply (set_first_text_keeps _ _ _ _ _ _ E3).
  apply (set_first_text_keeps _ _ _ _ _ _ E2).
  apply (set_first_text_keeps _ _ _ _ _ _ E1).
  unfold required_keys in Hk. cbn [In] in Hk.
  repeat (destruct Hk as [<-|Hk];
          [try congruence;
           repeat (rewrite lookup_insert_ne by discriminate);
           rewrite ?lookup_insert_eq; eauto|]).
  destruct Hk.
Qed.

(** X3. Every record [extract_job_listings] returns holds the seven keys
    "id", "title", "url", "source", "country", "timestamp" and "salary",
    and no key besides these and "company", "location", "description",
    "job_type" and "date_posted". One of the latter five is present only
    with a text that is stripped and not empty; the salary is [None] or a
    dictionary; the other values are strings. *)
Theorem extract_job_listings_schema
    (html_content : Html) (country_code : pystr) (jobs : list Job) :
  extract_job_listings base_urls html_content country_code = Ok jobs ->
  forall job, In job jobs ->
    (forall k, In k required_keys -> is_Some (job !! k))
    /\ (forall k : string, is_Some (job !! k) ->
          In k (required_keys ++ optional_keys))
    /\ (forall k v, In k optional_keys -> job !! k = Some v ->
          exists t, v = VStr t /\ t <> [] /\ strip t = t)
    /\ (forall k v, In k ["id"; "title"; "url"; "source"; "country"; "timestamp"]%string ->
          job !! k = Some v -> exists t, v = VStr t)
    /\ (job !! "salary" = Some VNone \/ exists d, job !! "salary" = Some (VDict d)).
Proof.
  unfold extract_job_listings. unfold_result.
  destruct (discover_cards html_content) as [cards|]; [|discriminate].
  destruct (preview_first_card cards) as [[]|]; [|discriminate].
  rewrite process_cards_app. cbn [app]. intros [= <-] job Hin.
  apply list_elem_of_In, list_elem_of_omap in Hin as (job_card & _ & Hrec).
  unfold record_of in Hrec.
  destruct (process_card base_urls country_code job_card) as [[job'|]|] eqn:E;
    try discriminate.
  injection Hrec as ->.
  assert (Hlk : forall (k : string) v, job !! k = Some v ->
            (In k optional_keys /\ stripped_text v)
            \/ (k = "salary"%string /\ v = extract_salary job_card)
            \/ (k = "timestamp"%string /\ v = VStr now_timestamp)
            \/ (In k ["id"; "title"; "url"; "source"; "country"]%string
                /\ exists t, v = VStr t)).
  { intros k v. apply (process_card_lookup _ _ _ _ _ E). }
  split; [intros k; apply (process_card_required _ _ _ _ E)|].
  split; [|split; [|split]].
  - intros k [v Hv]. apply in_or_app.
    destruct (Hlk k v Hv) as [[H _] | [[-> _] | [[-> _] | [H _]]]].
    + right. exact H.
    + left. unfold required_keys. cbn [In]. auto 10.
    + left. unfold required_keys. cbn [In]. auto 10.
    + left. unfold required_keys. cbn [In] in *. intuition auto 10.
  - intros k v Hk Hv.
    destruct (Hlk k v Hv) as [[_ H] | [[-> _] | [[-> _] | [H _]]]].
    + exact H.
    + exfalso. unfold optional_keys in Hk. cbn [In] in Hk.
      intuition discriminate.
    + exfalso. unfold optional_keys in Hk. cbn [In] in Hk.
      intuition discriminate.
    + exfalso. unfold optional_keys in Hk. cbn [In] in Hk, H.
      intuition (subst; discriminate).
  - intros k v Hk Hv.
    destruct (Hlk k v Hv) as [[H _] | [[-> _] | [[-> ->] | [_ H]]]].
    + exfalso. unfold optional_keys in H. cbn [In] in Hk, H.
      intuition (subst; discriminate).
    + exfalso. cbn [In] in Hk. intuition discriminate.
    + eauto.
    + exact H.
  - assert (Hs : is_Some (job !! "salary")).
    { apply (process_card_required _ _ _ _ E). unfold required_keys.
      cbn [In]. auto 10. }
    destruct Hs as [v Hv]. rewrite Hv.
    destruct (Hlk _ v Hv) as [[H _] | [[_ ->] | [[H _] | [H _]]]].
    + exfalso. unfold optional_keys in H. cbn [In] in H. intuition discriminate.
    + destruct (extract_salary_none_or_dict job_card) as [-> | [d ->]]; eauto.
    + discriminate H.
    + exfalso. cbn [In] in H. intuition discriminate.
Qed.

End RecordShape.

Section SalaryShape.
Context {RE : ReLib} {STR : StrLib} {SYS : SysLib}.

(** *** The shape of a salary *)

Definition salary_keys : list string :=
  [ "text"; "currency"; "min"; "max"; "period"; "is_range" ]%string.
Definition currency_codes : list Value :=
  [ VNone; VStr (py "GBP"); VStr (py "USD"); VStr (py "EUR") ].
Definition period_names : list Value :=
  [ VNone; VStr (py "yearly"); VStr (py "monthly"); VStr (py "hourly");
    VStr (py "daily"); VStr (py "weekly") ].

Lemma salary_currency_code salary_text :
  In (salary_currency salary_text) currency_codes.
Proof.
  unfold salary_currency, currency_codes.
  destruct (re_search _ true salary_text); [|left; reflexivity].
  cbv zeta.
  repeat match goal with
         | |- context [if ?b then _ else _] => destruct b
         end; cbn [In]; auto 10.
Qed.

Lemma salary_period_name salary_text :
  In (salary_period salary_text) period_names.
Proof.
  unfold salary_period, period_names.
  destruct (re_search _ true salary_text); [|left; reflexivity].
  cbv zeta.
  repeat match goal with
         | |- context [if ?b then _ else _] => destruct b
         end; cbn [In]; auto 10.
Qed.

Lemma clean_salary_text_stripped found :
  strip (clean_salary_text found) = clean_salary_text found.
Proof. unfold clean_salary_text. apply strip_idem. Qed.

Lemma salary_data_init_keys salary_text (k : string) :
  is_Some (salary_data_init salary_text !! k) <-> In k salary_keys.
Proof.
  unfold salary_data_init, salary_keys.
  rewrite !lookup_insert_is_Some', lookup_empty. cbn [In].
  split.
  - intros H. repeat destruct H as [H|H]; auto 10. destruct H as [? H]. discriminate H.
  - intros H. repeat destruct H as [H|H]; auto 10. destruct H.
Qed.

Lemma salary_data_init_currency salary_text :
  salary_data_init salary_text !! "currency" = Some (salary_currency salary_text).
Proof.
  unfold salary_data_init.
  repeat (rewrite lookup_insert_ne by discriminate). apply lookup_insert_eq.
Qed.

Lemma salary_data_init_period salary_text :
  salary_data_init salary_text !! "period" = Some (salary_period salary_text).
Proof. unfold salary_data_init. apply lookup_insert_eq. Qed.

Lemma salary_data_init_min salary_text :
  salary_data_init salary_text !! "min" = Some VNone.
Proof.
  unfold salary_data_init.
  repeat (rewrite lookup_insert_ne by discriminate). apply lookup_insert_eq.
Qed.

(** The salary dictionary with its numbers: the consistent states of
    "is_range", "min" and "max". *)
Definition salary_numbers_consistent (d : Job) : Prop :=
  (d !! "is_range" = Some (VBool false) /\ d !! "max" = Some VNone
   /\ (d !! "min" = Some VNone \/ exists x, d !! "min" = Some (VNum x)))
  \/ (d !! "is_range" = Some (VBool true)
      /\ exists lo hi, d !! "min" = Some (VNum lo) /\ d !! "max" = Some (VNum hi)
                       /\ Qle lo hi).

(** What [salary_data_of] gives when it returns. *)
Lemma salary_data_of_shape salary_text (d : Job) :
  salary_data_of salary_text = Ok d ->
  d !! "text" = Some (VStr salary_text)
  /\ (forall k : string, is_Some (d !! k) <-> In k salary_keys)
  /\ d !! "currency" = Some (salary_currency salary_text)
  /\ d !! "period" = Some (salary_period salary_text)
  /\ salary_numbers_consistent d.
Proof.
  unfold salary_data_of. unfold_result.
  destruct (salary_numbers salary_text) as [[|x [|y rest]]|e]; [| | |discriminate];
    intros [= <-].
  - split; [apply salary_data_init_text|].
    split; [apply salary_data_init_keys|].
    split; [apply salary_data_init_currency|].
    split; [apply salary_data_init_period|].
    left. split; [apply salary_data_init_is_range|].
    split; [apply salary_data_init_max|]. left. apply salary_data_init_min.
  - split; [rewrite lookup_insert_ne by discriminate; apply salary_data_init_text|].
    split.
    { intros k. rewrite lookup_insert_is_Some', salary_data_init_keys.
      unfold salary_keys. cbn [In]. intuition auto 10. }
    split; [rewrite lookup_insert_ne by discriminate; apply salary_data_init_currency|].
    split; [rewrite lookup_insert_ne by discriminate; apply salary_data_init_period|].
    left. split; [rewrite lookup_insert_ne by discriminate;
                  apply salary_data_init_is_range|].
    split; [rewrite lookup_insert_ne by discriminate; apply salary_data_init_max|].
    right. exists x. apply lookup_insert_eq.
  - split; [repeat (rewrite lookup_insert_ne by discriminate);
            apply salary_data_init_text|].
    split.
    { intros k. rewrite !lookup_insert_is_Some', salary_data_init_keys.
      unfold salary_keys. cbn [In]. intuition auto 10. }
    split; [repeat (rewrite lookup_insert_ne by discriminate);
            apply salary_data_init_currency|].
    split; [repeat (rewrite lookup_insert_ne by discriminate);
            apply salary_data_init_period|].
    right. split; [repeat (rewrite lookup_insert_ne by discriminate);
                   apply lookup_insert_eq|].
    exists (py_min x (y :: rest)), (py_max x (y :: rest)).
    split; [rewrite lookup_insert_ne by discriminate; apply lookup_insert_eq|].
    split; [apply lookup_insert_eq|].
    destruct (py_min_spec x (y :: rest)) as [Hin _].
    destruct (py_max_spec x (y :: rest)) as [_ Hmax].
    apply Hmax, Hin.
Qed.

(** X4. [extract_salary] gives [None] or a dictionary whose "text" is
    stripped. The dictionary has either the key "text" alone (the numbers
    could not be read) or exactly the six keys "text", "currency", "min",
    "max", "period" and "is_range"; then the currency is [None], "GBP",
    "USD" or "EUR", the period is [None] or one of "yearly", "monthly",
    "hourly", "daily" and "weekly", and "is_range" is true exactly when
    "max" is a number, in which case "min" is a number too and
    [min <= max]. *)
Theorem extract_salary_shape (job_card : Element) :
  extract_salary job_card = VNone
  \/ exists d t,
       extract_salary job_card = VDict d
       /\ d !! "text" = Some (VStr t) /\ strip t = t
       /\ ((forall k : string, is_Some (d !! k) <-> k = "text"%string)
           \/ ((forall k : string, is_Some (d !! k) <-> In k salary_keys)
               /\ (exists c, d !! "currency" = Some c /\ In c currency_codes)
               /\ (exists p, d !! "period" = Some p /\ In p period_names)
               /\ salary_numbers_consistent d)).
Proof.
  unfold extract_salary.
  destruct (find_salary_text job_card) as [found|]; [|auto].
  destruct (nonempty found); [|auto]. right.
  destruct (salary_data_of (clean_salary_text found)) as [d|e] eqn:E.
  - apply salary_data_of_shape in E as (Ht & Hk & Hc & Hp & Hn).
    exists d, (clean_salary_text found).
    split; [reflexivity|]. split; [exact Ht|].
    split; [apply clean_salary_text_stripped|]. right.
    split; [exact Hk|].
    split; [eexists; split; [exact Hc | apply salary_currency_code]|].
    split; [eexists; split; [exact Hp | apply salary_period_name]|].
    exact Hn.
  - eexists; exists (clean_salary_text found).
    split; [reflexivity|]. split; [apply lookup_insert_eq|].
    split; [apply clean_salary_text_stripped|]. left.
    intros k. rewrite lookup_insert_is_Some', lookup_empty. split.
    + intros [<-|[? H]]; [reflexivity | discriminate H].
    + intros ->. left. reflexivity.
Qed.

End SalaryShape.

Section JobTypeOrder.
Context {RE : ReLib} {STR : StrLib}.

(** *** The order of the job-type table *)

(** The patterns of a standard type, as the table lists them. *)
Definition patterns_of (standard_type : pystr) : list pystr :=
  match find (fun entry => PyStr.eqb (fst entry) standard_type) job_type_patterns with
  | Some (_, patterns) => patterns
  | None => []
  end.

Lemma any_pattern_true patterns text pattern :
  In pattern patterns -> re_search pattern true text <> None ->
  any_pattern patterns text = true.
Proof.
  induction patterns as [|p ps IH]; cbn [any_pattern In]; [intros []|].
  intros [Heq|Hin] Hm; destruct (re_search p true text) eqn:E; auto.
  subst p. congruence.
Qed.

Lemma any_pattern_found patterns text :
  any_pattern patterns text = true ->
  exists pattern, In pattern patterns /\ re_search pattern true text <> None.
Proof.
  induction patterns as [|p ps IH]; cbn [any_pattern]; [discriminate|].
  destruct (re_search p true text) eqn:E.
  - intros _. exists p. split; [left; reflexivity | congruence].
  - intros H. destruct (IH H) as (q & Hq & Hm). exists q. split; [right|]; assumption.
Qed.

Lemma any_pattern_none patterns text pattern :
  any_pattern patterns text = false -> In pattern patterns ->
  re_search pattern true text = None.
Proof.
  intros H Hin. destruct (re_search pattern true text) eqn:E; [|reflexivity].
  rewrite (any_pattern_true patterns text pattern Hin) in H; congruence.
Qed.

(** A pattern of "Full-time" that is found decides, whatever else is. *)
Lemma match_job_type_full_time text pattern :
  In pattern (patterns_of (py "Full-time")) ->
  re_search pattern true text <> None ->
  match_job_type job_type_patterns text = Some (py "Full-time").
Proof.
  intros Hin Hm.
  replace (patterns_of (py "Full-time"))
    with (snd (hd (py "", []) job_type_patterns)) in Hin
    by (vm_compute; reflexivity).
  unfold job_type_patterns in *. cbn [match_job_type hd snd] in *.
  rewrite (any_pattern_true _ text pattern Hin Hm). reflexivity.
Qed.

Ltac different_type :=
  let H := fresh in intros [= H]; vm_compute in H; discriminate H.

(** The outermost test of the scan. *)
Ltac next_type E :=
  match goal with
  | |- (if ?b then _ else _) = _ -> _ => destruct b eqn:E
  end.

(** "Temporary" is reached by "seasonal" alone: its other two patterns are
    patterns of "Contract", which comes first. *)
Lemma match_job_type_temporary text :
  match_job_type job_type_patterns text = Some (py "Temporary") ->
  re_search (py "seasonal") true text <> None
  /\ re_search (py "temporary") true text = None
  /\ re_search (py "temp\b") true text = None.
Proof.
  unfold job_type_patterns. cbn [match_job_type].
  next_type Efull; [different_type|].
  next_type Epart; [different_type|].
  next_type Econtract; [different_type|].
  next_type Efree; [different_type|].
  next_type Eintern; [different_type|].
  assert (H1 : re_search (py "temporary") true text = None)
    by (apply (any_pattern_none _ _ _ Econtract); cbn [In]; auto 10).
  assert (H2 : re_search (py "temp\b") true text = None)
    by (apply (any_pattern_none _ _ _ Econtract); cbn [In]; auto 10).
  next_type Etemp.
  - intros _. apply any_pattern_found in Etemp as (p & Hp & Hm).
    cbn [In] in Hp. destruct Hp as [<-|[<-|[<-|[]]]]; [congruence|congruence|].
    auto.
  - next_type Evol; [different_type | discriminate].
Qed.

(** X5. The table of job types is scanned in its order and the first type
    with a pattern found wins. So a job-type text in which a pattern of
    "Full-time" such as "permanent" is found is "Full-time" whatever else
    it says and whatever the description is; and "Temporary" is returned
    only for a text in which "seasonal" is found and neither "temporary"
    nor "temp" is: these two are patterns of "Contract", which comes
    first. *)
Theorem job_type_table_order (s : pystr) :
  In (py "permanent") (patterns_of (py "Full-time"))
  /\ (forall pattern description_text,
        s <> [] ->
        In pattern (patterns_of (py "Full-time")) ->
        re_search pattern true (str_lower s) <> None ->
        extract_job_type (VStr s) description_text = Ok (py "Full-time"))
  /\ (extract_job_type (VStr s) VNone = Ok (py "Temporary") ->
      re_search (py "seasonal") true (str_lower s) <> None
      /\ re_search (py "temporary") true (str_lower s) = None
      /\ re_search (py "temp\b") true (str_lower s) = None)
  /\ (extract_job_type VNone (VStr s) = Ok (py "Temporary") ->
      exists text,
        re_search (py "seasonal") true text <> None
        /\ re_search (py "temporary") true text = None
        /\ re_search (py "temp\b") true text = None).
Proof.
  split; [vm_compute; auto 10|]. split; [|split].
  - intros pattern description_text Hs Hin Hm.
    unfold extract_job_type, job_type_from_text.
    destruct s as [|c s']; [congruence|].
    cbn [truthy negb andb as_str]. unfold_result.
    rewrite (match_job_type_full_time _ _ Hin Hm). reflexivity.
  - unfold extract_job_type, job_type_from_text, job_type_from_description.
    destruct s as [|c s']; cbn [truthy negb andb as_str]; unfold_result;
      [different_type|].
    destruct (match_job_type job_type_patterns _) as [t|] eqn:E.
    + intros [= ->]. apply match_job_type_temporary, E.
    + different_type.
  - unfold extract_job_type, job_type_from_text, job_type_from_description.
    destruct s as [|c s']; cbn [truthy negb andb as_str]; unfold_result;
      [different_type|].
    destruct (match_job_type_contexts _) as [t|] eqn:E.
    + intros [= ->]. clear -E.
      induction (re_findall2 _ _) as [|[w ctx] rest IH];
        cbn [match_job_type_contexts] in E; [discriminate|].
      destruct (match_job_type job_type_patterns ctx) as [t|] eqn:Ec.
      * injection E as ->. exists ctx. apply match_job_type_temporary, Ec.
      * apply IH, E.
    + destruct (match_job_type job_type_patterns _) as [t|] eqn:E2.
      * intros [= ->]. eexists. apply match_job_type_temporary, E2.
      * different_type.
Qed.

End JobTypeOrder.

(** A key that is not among those a step writes. *)
Ltac other_key := cbn [In]; intuition discriminate.

Section PostProcessMore.
Context {RE : ReLib} {STR : StrLib} {BS : Bs4Lib}.

(** *** A description that is no string *)

Lemma step_skills_raises (job : Job) v :
  job !! "description" = Some v -> (forall s, v <> VStr s) ->
  (step_skills job).2 = Raise "AttributeError".
Proof.
  intros Hd Hv. unfold step_skills, extract_skills. rewrite Hd.
  destruct v; cbn [as_str]; unfold_result; try reflexivity.
  exfalso. exact (Hv _ eq_refl).
Qed.

(** The steps before [step_skills] leave the description as it is. *)
Lemma description_kept (step : Step) keys (job : Job) :
  writes_only keys step -> ~ In "description"%string keys ->
  (step job).1 !! "description" = job !! "description".
Proof. intros H Hk. apply H, Hk. Qed.

Lemma post_process_job_raises (job : Job) v :
  job !! "description" = Some v -> (forall s, v <> VStr s) ->
  exists e, (post_process_job job).2 = Raise e.
Proof.
  intros Hd Hv. unfold post_process_job, post_process_steps. cbn [run_steps].
  pose proof (description_kept _ _ job step_company_writes) as K1.
  destruct (step_company job) as [j1 [[]|e]]; cbn [fst snd] in *; [|eauto].
  pose proof (description_kept _ _ j1 step_location_writes) as K2.
  destruct (step_location j1) as [j2 [[]|e]]; cbn [fst snd] in *; [|eauto].
  pose proof (description_kept _ _ j2 step_html_writes) as K3.
  destruct (step_html j2) as [j3 [[]|e]]; cbn [fst snd] in *; [|eauto].
  pose proof (description_kept _ _ j3 step_structured_writes) as K4.
  destruct (step_structured j3) as [j4 [[]|e]]; cbn [fst snd] in *; [|eauto].
  pose proof (description_kept _ _ j4 step_job_type_writes) as K5.
  destruct (step_job_type j4) as [j5 [[]|e]]; cbn [fst snd] in *; [|eauto].
  assert (H5 : j5 !! "description" = Some v).
  { rewrite K5, K4, K3, K2, K1; [exact Hd| | | | |]; cbn [In];
      intuition discriminate. }
  pose proof (step_skills_raises j5 v H5 Hv) as Hr.
  destruct (step_skills j5) as [j6 [[]|e]]; cbn [snd] in *; [discriminate|eauto].
Qed.

(** The loop over two lists, one after the other. *)
Lemma post_process_loop_app xs ys h :
  post_process_loop (xs ++ ys) h
  = match post_process_loop xs h with
    | (h1, Ok _) => post_process_loop ys h1
    | (h1, Raise e) => (h1, Raise e)
    end.
Proof.
  revert h. induction xs as [|x xs IH]; intros h; cbn [app post_process_loop];
    [reflexivity|].
  destruct (dicts h !! x) as [job|]; [|reflexivity].
  destruct (post_process_job job) as [job' [[]|e]]; [apply IH | reflexivity].
Qed.

(** The loop writes the records of its list only. *)
Lemma post_process_loop_elsewhere refs h (l : positive) :
  ~ In l refs -> dicts (post_process_loop refs h).1 !! l = dicts h !! l.
Proof.
  revert h. induction refs as [|r refs IH]; intros h Hl; cbn [post_process_loop];
    [reflexivity|].
  assert (Hne : r <> l) by (intros ->; apply Hl; left; reflexivity).
  destruct (dicts h !! r) as [job|]; [|reflexivity].
  destruct (post_process_job job) as [job' [[]|e]]; cbn [fst].
  - rewrite IH by (intros Hin; apply Hl; right; exact Hin).
    unfold set_dict. cbn [dicts]. apply lookup_insert_ne, Hne.
  - unfold set_dict. cbn [dicts]. apply lookup_insert_ne, Hne.
Qed.

(** X6. A record whose "description" is present and is no string ([None],
    say) ends the whole post-processing with an exception: nothing in
    [post_process_job_data] catches what [extract_skills] raises on it. The
    records of the list that come after it and not before it are not
    processed: they are left exactly as they were. *)
Theorem post_process_stops_at_bad_description
    (jobs : positive) (h : Heap) (before after : list positive) (r : positive)
    (job : Job) (v : Value) :
  lists h !! jobs = Some (before ++ r :: after) ->
  dicts h !! r = Some job ->
  job !! "description" = Some v ->
  (forall s, v <> VStr s) ->
  (exists e, (post_process_job_data jobs h).2 = Raise e)
  /\ forall l, ~ In l (before ++ [r]) ->
       dicts (post_process_job_data jobs h).1 !! l = dicts h !! l.
Proof.
  intros Hl Hr Hd Hv.
  assert (Hstop : exists e, (post_process_loop (before ++ [r]) h).2 = Raise e).
  { rewrite post_process_loop_app.
    pose proof (post_process_loop_frame before h) as (_ & _ & Hf).
    destruct (post_process_loop before h) as [h1 [[]|e]]; cbn [fst snd] in *;
      [|eauto].
    destruct (Hf r job Hr) as (job1 & Hr1 & [F1 _ _ _ _]).
    cbn [post_process_loop]. rewrite Hr1.
    assert (Hd1 : job1 !! "description" = Some v).
    { rewrite F1; [exact Hd|]. unfold written_keys. cbn [In].
      intuition discriminate. }
    destruct (post_process_job_raises job1 v Hd1 Hv) as [e He].
    destruct (post_process_job job1) as [job2 [[]|e']]; cbn [snd] in *;
      [discriminate | eauto]. }
  assert (Hsame : post_process_loop (before ++ r :: after) h
                  = post_process_loop (before ++ [r]) h).
  { change (before ++ r :: after) with (before ++ [r] ++ after).
    rewrite app_assoc, post_process_loop_app.
    destruct Hstop as [e He].
    destruct (post_process_loop (before ++ [r]) h) as [h1 [[]|e']];
      cbn [snd] in *; [discriminate | reflexivity]. }
  unfold post_process_job_data. rewrite Hl, Hsame.
  destruct Hstop as [e He].
  pose proof (post_process_loop_elsewhere (before ++ [r]) h) as Hout.
  destruct (post_process_loop (before ++ [r]) h) as [h1 [[]|e']];
    cbn [fst snd] in *; [discriminate|].
  split; [eauto | exact Hout].
Qed.

(** *** The HTML description *)

(** The records a run of the steps that returns goes through. *)
Lemma post_process_trace (job job' : Job) :
  post_process_job job = (job', Ok tt) ->
  exists j1 j2 j3 j4 j5 j6,
    step_company job = (j1, Ok tt) /\ step_location j1 = (j2, Ok tt)
    /\ step_html j2 = (j3, Ok tt) /\ step_structured j3 = (j4, Ok tt)
    /\ step_job_type j4 = (j5, Ok tt) /\ step_skills j5 = (j6, Ok tt)
    /\ step_experience j6 = (job', Ok tt).
Proof.
  unfold post_process_job, post_process_steps. intros H.
  apply run_steps_cons_ok in H as (j1 & H1 & H).
  apply run_steps_cons_ok in H as (j2 & H2 & H).
  apply run_steps_cons_ok in H as (j3 & H3 & H).
  apply run_steps_cons_ok in H as (j4 & H4 & H).
  apply run_steps_cons_ok in H as (j5 & H5 & H).
  apply run_steps_cons_ok in H as (j6 & H6 & H).
  apply run_steps_cons_ok in H as (j7 & H7 & H).
  cbn [run_steps] in H. injection H as <-.
  exists j1, j2, j3, j4, j5, j6. auto 10.
Qed.

Lemma post_process_returned (job : Job) :
  (post_process_job job).2 = Ok tt ->
  post_process_job job = ((post_process_job job).1, Ok tt).
Proof. destruct (post_process_job job) as [j r]. cbn [fst snd]. intros ->. reflexivity. Qed.

(** What a step leaves under a key it does not write. *)
Lemma step_frame (step : Step) keys (j j' : Job) r (k : string) :
  writes_only keys step -> step j = (j', r) -> ~ In k keys -> j' !! k = j !! k.
Proof. intros W E Hk. specialize (W j k Hk). rewrite E in W. exact W. Qed.

(** X7. When the post-processing of a record that has a "description_html"
    returns, that field holds the sanitized HTML and
    "formatted_description" the text formatted from the sanitized HTML (not
    from the original). An HTML that is falsy ([None], the empty string)
    becomes the empty string, and so does the formatted text, without any
    parsing; an HTML that the parser refuses while sanitizing is kept as it
    is. *)
Theorem post_process_html (job : Job) (html : Value) :
  job !! "description_html" = Some html ->
  (post_process_job job).2 = Ok tt ->
  let job' := (post_process_job job).1 in
  job' !! "description_html" = Some (sanitize_html html)
  /\ (exists text,
        format_html_to_text (sanitize_html html) = Ok text
        /\ job' !! "formatted_description" = Some (VStr text))
  /\ (truthy html = false ->
      job' !! "description_html" = Some (VStr (py ""))
      /\ job' !! "formatted_description" = Some (VStr (py "")))
  /\ (forall e, truthy html = true -> bs_sanitize html = Raise e ->
        job' !! "description_html" = Some html).
Proof.
  intros Hh Hok. cbv zeta.
  apply post_process_returned, post_process_trace in Hok
    as (j1 & j2 & j3 & j4 & j5 & j6 & H1 & H2 & H3 & H4 & H5 & H6 & H7).
  set (job' := (post_process_job job).1) in *.
  assert (Hh2 : j2 !! "description_html" = Some html).
  { rewrite (step_frame _ _ _ _ _ _ step_location_writes H2) by other_key.
    rewrite (step_frame _ _ _ _ _ _ step_company_writes H1) by other_key.
    exact Hh. }
  assert (Hlater : forall k : string,
             k = "description_html"%string \/ k = "formatted_description"%string ->
             job' !! k = j3 !! k).
  { intros k Hk.
    rewrite (step_frame _ _ _ _ _ _ step_experience_writes H7)
      by (destruct Hk as [-> | ->]; other_key).
    rewrite (step_frame _ _ _ _ _ _ step_skills_writes H6)
      by (destruct Hk as [-> | ->]; other_key).
    rewrite (step_frame _ _ _ _ _ _ step_job_type_writes H5)
      by (destruct Hk as [-> | ->]; other_key).
    rewrite (step_frame _ _ _ _ _ _ step_structured_writes H4)
      by (destruct Hk as [-> | ->]; other_key).
    reflexivity. }
  unfold step_html in H3. rewrite Hh2 in H3.
  destruct (format_html_to_text (sanitize_html html)) as [text|e] eqn:Ef;
    [|discriminate].
  injection H3 as <-.
  assert (A : job' !! "description_html" = Some (sanitize_html html)).
  { rewrite Hlater by auto. rewrite lookup_insert_ne by discriminate.
    apply lookup_insert_eq. }
  assert (B : job' !! "formatted_description" = Some (VStr text)).
  { rewrite Hlater by auto. apply lookup_insert_eq. }
  split; [exact A|]. split; [eauto|]. split.
  - intros Hf. rewrite A, B. unfold sanitize_html in *. rewrite Hf in *.
    cbn [negb] in *. unfold format_html_to_text in Ef. cbn [truthy negb] in Ef.
    injection Ef as <-. auto.
  - intros e Ht He. rewrite A. unfold sanitize_html. rewrite Ht, He. reflexivity.
Qed.

End PostProcessMore.

Section PostProcessFields.
Context {RE : ReLib} {STR : StrLib} {BS : Bs4Lib}.

(** *** Company, location and job type after the post-processing *)

(** A name taken from the description is the stripped first group of a
    match of one of the patterns, of reasonable length, with no banned word
    in it. *)
Lemma name_from_description_spec patterns max_len banned desc c :
  name_from_description patterns max_len banned desc = Some c ->
  (2 < len c)%nat /\ (len c < max_len)%nat
  /\ any_keyword banned (str_lower c) = false
  /\ strip c = c
  /\ exists pattern m,
       In pattern patterns /\ re_search pattern false desc = Some m
       /\ c = strip (m_group1 m).
Proof.
  induction patterns as [|p ps IH]; cbn [name_from_description]; [discriminate|].
  assert (IH' : name_from_description ps max_len banned desc = Some c ->
                (2 < len c)%nat /\ (len c < max_len)%nat
                /\ any_keyword banned (str_lower c) = false /\ strip c = c
                /\ exists pattern m,
                     In pattern (p :: ps) /\ re_search pattern false desc = Some m
                     /\ c = strip (m_group1 m)).
  { intros H. destruct (IH H) as (A & B & C & D & q & m & Hq & Hm & Hc).
    repeat (split; [assumption|]). exists q, m. split; [right|]; auto. }
  destruct (re_search p false desc) as [m|] eqn:E; [|exact IH'].
  cbv zeta.
  destruct ((2 <? len (strip (m_group1 m)))%nat) eqn:E1; cbn [andb]; [|exact IH'].
  destruct ((len (strip (m_group1 m)) <? max_len)%nat) eqn:E2; cbn [andb];
    [|exact IH'].
  destruct (any_keyword banned (str_lower (strip (m_group1 m)))) eqn:E3;
    cbn [negb]; [exact IH'|].
  intros [= <-].
  split; [apply Nat.ltb_lt, E1|]. split; [apply Nat.ltb_lt, E2|].
  split; [exact E3|]. split; [apply strip_idem|].
  exists p, m. split; [left; reflexivity|]. auto.
Qed.

(** The description as the company and location steps read it: the text
    searched, if any. *)
Definition searched_description (job : Job) : option pystr :=
  match dict_get job "description" with
  | VStr (c :: s) => Some (c :: s)
  | _ => None
  end.

Lemma missing_field_filled (job : Job) key unknown c :
  c <> [] -> c <> unknown ->
  missing_field (<[key := VStr c]> job) key unknown = false.
Proof.
  intros H1 H2. eapply populated_not_missing; [apply lookup_insert_eq | |];
    assumption.
Qed.

Lemma len_nonempty c : (2 < len c)%nat -> c <> [].
Proof. intros H ->. cbn in H. lia. Qed.

(** [step_company] on a record whose company is missing. *)
Lemma step_company_missing (job j1 : Job) :
  missing_field job "company" (py "Unknown Company") = true ->
  step_company job = (j1, Ok tt) ->
  j1 !! "company"
  = Some (VStr (match searched_description job with
                | Some desc =>
                  match name_from_description company_patterns 40 company_banned desc with
                  | Some c => if PyStr.eqb c (py "Unknown Company")
                              then py "Hiring Company" else c
                  | None => py "Hiring Company"
                  end
                | None => py "Hiring Company"
                end)).
Proof.
  intros Hm. unfold step_company, searched_description. rewrite Hm.
  destruct (dict_get job "description") as [| | |desc| |] eqn:Ed;
    cbn [truthy as_text]; unfold_result.
  1-3, 5-6:
    repeat match goal with
           | |- context [if ?b then _ else _] => destruct b eqn:?
           end; try discriminate; try rewrite Hm;
    intros [= <-]; try apply lookup_insert_eq; congruence.
  - destruct desc as [|c0 desc].
    + rewrite Hm. intros [= <-]. apply lookup_insert_eq.
    + destruct (name_from_description _ _ _ _) as [c|] eqn:En.
      * pose proof (name_from_description_spec _ _ _ _ _ En) as (Hlen & _).
        unfold PyStr.eqb. destruct (bool_decide (c = py "Unknown Company")) eqn:Eu.
        -- apply bool_decide_eq_true in Eu as ->.
           replace (missing_field _ "company" (py "Unknown Company")) with true.
           ++ intros [= <-]. rewrite lookup_insert_eq. reflexivity.
           ++ unfold missing_field, dict_get. rewrite lookup_insert_eq.
              cbn [default from_option id eq_str]. unfold PyStr.eqb.
              rewrite bool_decide_eq_true_2 by reflexivity.
              rewrite orb_true_r. reflexivity.
        -- apply bool_decide_eq_false in Eu.
           rewrite missing_field_filled by (auto using len_nonempty).
           intros [= <-]. apply lookup_insert_eq.
      * rewrite Hm. intros [= <-]. apply lookup_insert_eq.
Qed.

(** [step_location] on a record whose location is missing. *)
Lemma step_location_missing (job j2 : Job) :
  missing_field job "location" (py "Unknown Location") = true ->
  step_location job = (j2, Ok tt) ->
  j2 !! "location"
  = match searched_description job with
    | Some desc =>
      match name_from_description location_patterns 30 location_banned desc with
      | Some c => Some (VStr c)
      | None => if truthy (dict_get job "is_uk")
                then Some (VStr (py "United Kingdom - Remote"))
                else job !! "location"
      end
    | None => if truthy (dict_get job "is_uk")
              then Some (VStr (py "United Kingdom - Remote"))
              else job !! "location"
    end.
Proof.
  intros Hm. unfold step_location, searched_description. rewrite Hm.
  assert (Hd : forall v,
             dict_get (if truthy (dict_get job "is_uk")
                       then <["location" := v]> job else job) "description"
             = dict_get job "description").
  { intros v. destruct (truthy (dict_get job "is_uk")); [|reflexivity].
    unfold dict_get. rewrite lookup_insert_ne by discriminate. reflexivity. }
  cbv zeta. rewrite Hd.
  destruct (dict_get job "description") as [| | |desc| |] eqn:Ed;
    cbn [truthy as_text].
  1-3, 5-6:
    repeat match goal with
           | |- context [if ?b then _ else _] => destruct b eqn:?
           end; try discriminate;
    intros [= <-]; try apply lookup_insert_eq; reflexivity.
  destruct desc as [|c0 desc].
  - destruct (truthy (dict_get job "is_uk")); intros [= <-];
      [apply lookup_insert_eq | reflexivity].
  - destruct (name_from_description _ _ _ _) as [c|].
    + intros [= <-]. apply lookup_insert_eq.
    + destruct (truthy (dict_get job "is_uk")); intros [= <-];
        [apply lookup_insert_eq | reflexivity].
Qed.

(** X8. When the post-processing of a record whose company is missing
    returns, the company is filled in, and it is never "Unknown Company":
    it is "Hiring Company", or else a name taken from the description, the
    stripped first group of a match of a company pattern, of three to
    thirty-nine characters, with none of the banned words in it. Without a
    description to search it is "Hiring Company". *)
Theorem post_process_company (job : Job) :
  (post_process_job job).2 = Ok tt ->
  missing_field job "company" (py "Unknown Company") = true ->
  let job' := (post_process_job job).1 in
  (exists c,
     job' !! "company" = Some (VStr c)
     /\ c <> [] /\ c <> py "Unknown Company"
     /\ (c = py "Hiring Company"
         \/ ((2 < len c)%nat /\ (len c < 40)%nat
             /\ any_keyword company_banned (str_lower c) = false
             /\ strip c = c
             /\ exists desc pattern m,
                  job !! "description" = Some (VStr desc)
                  /\ In pattern company_patterns
                  /\ re_search pattern false desc = Some m
                  /\ c = strip (m_group1 m))))
  /\ (truthy (dict_get job "description") = false ->
      job' !! "company" = Some (VStr (py "Hiring Company"))).
Proof.
  intros Hok Hm. cbv zeta.
  apply post_process_returned, post_process_trace in Hok
    as (j1 & j2 & j3 & j4 & j5 & j6 & H1 & H2 & H3 & H4 & H5 & H6 & H7).
  assert (Hc : (post_process_job job).1 !! "company" = j1 !! "company").
  { rewrite (step_frame _ _ _ _ _ _ step_experience_writes H7) by other_key.
    rewrite (step_frame _ _ _ _ _ _ step_skills_writes H6) by other_key.
    rewrite (step_frame _ _ _ _ _ _ step_job_type_writes H5) by other_key.
    rewrite (step_frame _ _ _ _ _ _ step_structured_writes H4) by other_key.
    rewrite (step_frame _ _ _ _ _ _ step_html_writes H3) by other_key.
    rewrite (step_frame _ _ _ _ _ _ step_location_writes H2) by other_key.
    reflexivity. }
  rewrite Hc, (step_company_missing job j1 Hm H1). clear.
  assert (Hhc : py "Hiring Company" <> [] /\ py "Hiring Company" <> py "Unknown Company")
    by (split; intros H; vm_compute in H; discriminate H).
  destruct Hhc as [Hh1 Hh2].
  unfold searched_description. split.
  - assert (Hhiring : exists c,
               Some (VStr (py "Hiring Company")) = Some (VStr c)
               /\ c <> [] /\ c <> py "Unknown Company"
               /\ (c = py "Hiring Company"
                   \/ ((2 < len c)%nat /\ (len c < 40)%nat
                       /\ any_keyword company_banned (str_lower c) = false
                       /\ strip c = c
                       /\ exists desc pattern m,
                            job !! "description" = Some (VStr desc)
                            /\ In pattern company_patterns
                            /\ re_search pattern false desc = Some m
                            /\ c = strip (m_group1 m))))
      by (exists (py "Hiring Company"); auto).
    destruct (dict_get job "description") as [| | |[|c0 desc]| |] eqn:Ed;
      try exact Hhiring.
    destruct (name_from_description _ _ _ _) as [c|] eqn:En; [|exact Hhiring].
    unfold PyStr.eqb. destruct (bool_decide (c = py "Unknown Company")) eqn:Eu;
      [exact Hhiring|].
    apply bool_decide_eq_false in Eu.
    destruct (name_from_description_spec _ _ _ _ _ En)
      as (A & B & C & D & pattern & m & Hp & Hs & Hg).
    exists c. split; [reflexivity|]. split; [apply len_nonempty, A|].
    split; [exact Eu|]. right. repeat (split; [assumption|]).
    exists (c0 :: desc), pattern, m. split; [|auto].
    unfold dict_get in Ed. destruct (job !! "description") as [v|];
      cbn [default from_option id] in Ed; [congruence | discriminate].
  - intros Hf. destruct (dict_get job "description") as [| | |[|c0 desc]| |];
      try reflexivity. discriminate Hf.
Qed.

(** A description gives no location: there is none to search, or no
    pattern gives a name. *)
Definition no_location_in_description (job : Job) : Prop :=
  forall desc, searched_description job = Some desc ->
    name_from_description location_patterns 30 location_banned desc = None.

(** X9. When the post-processing of a record whose location is missing
    returns: a name the location patterns find in the description is the
    location, also for a record marked "is_uk"; with no such name a record
    marked "is_uk" gets "United Kingdom - Remote"; and any other record
    keeps what it had: unlike the company, a missing location gets no
    default. *)
Theorem post_process_location (job : Job) :
  (post_process_job job).2 = Ok tt ->
  missing_field job "location" (py "Unknown Location") = true ->
  let job' := (post_process_job job).1 in
  (forall desc c,
     searched_description job = Some desc ->
     name_from_description location_patterns 30 location_banned desc = Some c ->
     job' !! "location" = Some (VStr c)
     /\ (2 < len c)%nat /\ (len c < 30)%nat /\ strip c = c
     /\ any_keyword location_banned (str_lower c) = false)
  /\ (no_location_in_description job ->
      truthy (dict_get job "is_uk") = true ->
      job' !! "location" = Some (VStr (py "United Kingdom - Remote")))
  /\ (no_location_in_description job ->
      truthy (dict_get job "is_uk") = false ->
      job' !! "location" = job !! "location").
Proof.
  intros Hok Hm. cbv zeta.
  apply post_process_returned, post_process_trace in Hok
    as (j1 & j2 & j3 & j4 & j5 & j6 & H1 & H2 & H3 & H4 & H5 & H6 & H7).
  assert (Hother : forall k : string, k <> "company"%string -> j1 !! k = job !! k).
  { intros k Hk. apply (step_frame _ _ _ _ _ _ step_company_writes H1).
    cbn [In]. intuition congruence. }
  assert (Hm1 : missing_field j1 "location" (py "Unknown Location") = true).
  { rewrite (missing_field_lookup job j1); [exact Hm|]. apply Hother. discriminate. }
  assert (Hs1 : searched_description j1 = searched_description job).
  { unfold searched_description, dict_get. rewrite Hother by discriminate.
    reflexivity. }
  assert (Hu1 : dict_get j1 "is_uk" = dict_get job "is_uk").
  { unfold dict_get. rewrite Hother by discriminate. reflexivity. }
  assert (Hc : (post_process_job job).1 !! "location" = j2 !! "location").
  { rewrite (step_frame _ _ _ _ _ _ step_experience_writes H7) by other_key.
    rewrite (step_frame _ _ _ _ _ _ step_skills_writes H6) by other_key.
    rewrite (step_frame _ _ _ _ _ _ step_job_type_writes H5) by other_key.
    rewrite (step_frame _ _ _ _ _ _ step_structured_writes H4) by other_key.
    rewrite (step_frame _ _ _ _ _ _ step_html_writes H3) by other_key.
    reflexivity. }
  rewrite Hc, (step_location_missing j1 j2 Hm1 H2), Hs1, Hu1.
  rewrite (Hother "location"%string) by discriminate.
  unfold no_location_in_description.
  split; [|split].
  - intros desc c -> Hn. rewrite Hn. split; [reflexivity|].
    destruct (name_from_description_spec _ _ _ _ _ Hn) as (A & B & C & D & _).
    auto.
  - intros Hno Huk. rewrite Huk.
    destruct (searched_description job) as [desc|]; [|reflexivity].
    rewrite (Hno desc eq_refl). reflexivity.
  - intros Hno Huk. rewrite Huk.
    destruct (searched_description job) as [desc|]; [|reflexivity].
    rewrite (Hno desc eq_refl). reflexivity.
Qed.

(** X10. When the post-processing of a record without "job_type" returns:
    if the record has a description that is not empty, "job_type" and
    "standardized_job_type" are both set to the same one of the seven
    standard types; otherwise neither is written. For a record with a
    "job_type", that field is kept and "standardized_job_type" is what
    [extract_job_type] gives for it and the description. *)
Theorem post_process_job_type (job : Job) :
  (post_process_job job).2 = Ok tt ->
  let job' := (post_process_job job).1 in
  let description := dict_get_default job "description" (VStr (py "")) in
  (job !! "job_type" = None -> truthy description = true ->
   exists t, In t standard_types
             /\ extract_job_type VNone description = Ok t
             /\ job' !! "job_type" = Some (VStr t)
             /\ job' !! "standardized_job_type" = Some (VStr t))
  /\ (job !! "job_type" = None -> truthy description = false ->
      job' !! "job_type" = None
      /\ job' !! "standardized_job_type" = job !! "standardized_job_type")
  /\ (forall job_type_text, job !! "job_type" = Some job_type_text ->
        job' !! "job_type" = Some job_type_text
        /\ exists t, extract_job_type job_type_text description = Ok t
                     /\ job' !! "standardized_job_type" = Some (VStr t)).
Proof.
  intros Hok. cbv zeta.
  apply post_process_returned, post_process_trace in Hok
    as (j1 & j2 & j3 & j4 & j5 & j6 & H1 & H2 & H3 & H4 & H5 & H6 & H7).
  assert (Hbefore : forall k : string,
             ~ In k ["company"; "location"; "description_html";
                     "formatted_description"; "structured_description"]%string ->
             j4 !! k = job !! k).
  { intros k Hk.
    rewrite (step_frame _ _ _ _ _ _ step_structured_writes H4)
      by (cbn [In] in *; intuition auto).
    rewrite (step_frame _ _ _ _ _ _ step_html_writes H3)
      by (cbn [In] in *; intuition auto).
    rewrite (step_frame _ _ _ _ _ _ step_location_writes H2)
      by (cbn [In] in *; intuition auto).
    rewrite (step_frame _ _ _ _ _ _ step_company_writes H1)
      by (cbn [In] in *; intuition auto).
    reflexivity. }
  assert (Hafter : forall k : string,
             k = "job_type"%string \/ k = "standardized_job_type"%string ->
             (post_process_job job).1 !! k = j5 !! k).
  { intros k Hk.
    rewrite (step_frame _ _ _ _ _ _ step_experience_writes H7)
      by (destruct Hk as [-> | ->]; other_key).
    rewrite (step_frame _ _ _ _ _ _ step_skills_writes H6)
      by (destruct Hk as [-> | ->]; other_key).
    reflexivity. }
  rewrite !Hafter by auto.
  unfold step_job_type, dict_get_default in *.
  rewrite !Hbefore in H5 by other_key.
  rewrite <- (Hbefore "standardized_job_type"%string) by other_key.
  set (description := default (VStr (py "")) (job !! "description")) in *.
  split; [|split].
  - intros Hj Ht. rewrite Hj in H5.
    destruct (extract_job_type VNone description) as [t|e] eqn:E; [|discriminate].
    assert (Hin : In t standard_types).
    { revert E. unfold extract_job_type. cbn [truthy negb andb]. rewrite Ht.
      cbn [negb]. unfold job_type_from_text. cbn [truthy]. unfold_result.
      destruct (job_type_from_description description) as [[t2|]|] eqn:E2;
        try discriminate; intros [= <-].
      - eapply job_type_from_description_in, E2.
      - left. reflexivity. }
    pose proof (standard_types_nonempty t Hin) as Hne.
    destruct t as [|c t]; [congruence|]. cbn [nonempty] in H5.
    injection H5 as <-. exists (c :: t).
    split; [exact Hin|]. split; [reflexivity|].
    split; [apply lookup_insert_eq|].
    rewrite lookup_insert_ne by discriminate. apply lookup_insert_eq.
  - intros Hj Ht. rewrite Hj in H5.
    unfold extract_job_type in H5. cbn [truthy negb andb] in H5.
    rewrite Ht in H5. cbn [negb nonempty] in H5. injection H5 as <-.
    split; [|reflexivity]. rewrite Hbefore by other_key. exact Hj.
  - intros job_type_text Hj. rewrite Hj in H5.
    destruct (extract_job_type job_type_text description) as [t|e]; [|discriminate].
    injection H5 as <-. split.
    + rewrite lookup_insert_ne by discriminate. rewrite Hbefore by other_key.
      exact Hj.
    + exists t. split; [reflexivity | apply lookup_insert_eq].
Qed.

End PostProcessFields.

Section SkillsExperience.
Context {RE : ReLib} {STR : StrLib} {BS : Bs4Lib}.

(** *** extract_skills *)

Lemma extract_skills_str s :
  extract_skills (VStr s)
  = Ok (match map str_title (filter (skill_found (str_lower s)) common_skills) with
        | [] => None
        | skills => Some skills
        end).
Proof.
  unfold extract_skills. cbn [as_str]. unfold_result. cbv zeta.
  destruct (map str_title _); reflexivity.
Qed.

Lemma map_sublist {A B : Type} (f : A -> B) (l l' : list A) :
  sublist l l' -> sublist (map f l) (map f l').
Proof.
  induction 1; cbn [map]; [constructor | apply sublist_skip | apply sublist_cons];
    assumption.
Qed.

Lemma skill_found_filter description_lower skill :
  In skill (filter (skill_found description_lower) common_skills)
  <-> In skill common_skills /\ skill_found description_lower skill = true.
Proof.
  rewrite <- !list_elem_of_In, list_elem_of_filter, Is_true_true. tauto.
Qed.

(** X11. [extract_skills] raises on a description that is no string. On a
    string it returns [None] or a list that is not empty, never the empty
    list; the list holds the title-cased names of the table, in the order
    of the table, of exactly the skills found; a skill is found only if its
    name is a substring of the lowered description, and a one-word skill
    whenever it is. *)
Theorem extract_skills_spec (description : Value) :
  ((forall s, description <> VStr s) ->
   extract_skills description = Raise "AttributeError")
  /\ (forall s, description = VStr s ->
        exists r,
          extract_skills description = Ok r
          /\ r <> Some []
          /\ (r = None <->
              forall skill, In skill common_skills ->
                skill_found (str_lower s) skill = false)
          /\ (forall skills, r = Some skills ->
                sublist skills (map str_title common_skills)
                /\ (forall t, In t skills <->
                      exists skill, In skill common_skills
                                    /\ skill_found (str_lower s) skill = true
                                    /\ t = str_title skill))
          /\ (forall skill, skill_found (str_lower s) skill = true ->
                contains skill (str_lower s) = true)
          /\ (forall skill, contains (py " ") skill = false ->
                contains skill (str_lower s) = true ->
                skill_found (str_lower s) skill = true)).
Proof.
  split.
  - intros H. destruct description; try reflexivity. exfalso. exact (H _ eq_refl).
  - intros s ->. rewrite extract_skills_str.
    set (found := filter (skill_found (str_lower s)) common_skills).
    assert (Hfound : forall skill,
               In skill found <->
               In skill common_skills /\ skill_found (str_lower s) skill = true)
      by (intros skill; apply skill_found_filter).
    eexists. split; [reflexivity|].
    split; [destruct (map str_title found); discriminate|].
    split; [|split; [|split]].
    + split.
      * intros H skill Hin.
        destruct (skill_found (str_lower s) skill) eqn:E; [|reflexivity].
        assert (Hf : In skill found) by (apply Hfound; auto).
        destruct found; [destruct Hf | discriminate H].
      * intros H. destruct found as [|skill rest] eqn:E; [reflexivity|].
        assert (Hf : In skill (skill :: rest)) by (left; reflexivity).
        apply Hfound in Hf as [Hin Ht]. rewrite (H skill Hin) in Ht. discriminate.
    + intros skills Hs.
      assert (Heq : skills = map str_title found).
      { destruct (map str_title found); [discriminate | congruence]. }
      subst skills. split.
      * apply map_sublist, sublist_filter.
      * intros t. rewrite in_map_iff. split.
        -- intros (skill & <- & Hin). apply Hfound in Hin as [H1 H2]. eauto.
        -- intros (skill & H1 & H2 & ->). exists skill. split; [reflexivity|].
           apply Hfound. auto.
    + intros skill H. unfold skill_found in H.
      apply andb_true_iff in H as [H _]. exact H.
    + intros skill Hw Hc. unfold skill_found. rewrite Hc, Hw. reflexivity.
Qed.

(** A skill whose name lies inside the name of another, both of one word. *)
Definition skills_inside : list (pystr * pystr) :=
  [ (py "java", py "javascript"); (py "git", py "github");
    (py "sql", py "postgresql"); (py "sql", py "mysql") ].

(** X12. The one-word skills are looked up as substrings, not as words:
    a description that names "javascript" is reported to name "java" as
    well, and so for "git" in "github" and "sql" in "postgresql" and
    "mysql". *)
Theorem skill_inside_skill (s : pystr) (inner outer : pystr) :
  In (inner, outer) skills_inside ->
  contains outer (str_lower s) = true ->
  exists skills,
    extract_skills (VStr s) = Ok (Some skills)
    /\ In (str_title outer) skills /\ In (str_title inner) skills.
Proof.
  intros Hin Hc.
  assert (Hpair : In inner common_skills /\ In outer common_skills
                  /\ contains (py " ") inner = false
                  /\ contains (py " ") outer = false
                  /\ contains inner outer = true).
  { unfold skills_inside in Hin. cbn [In] in Hin.
    repeat destruct Hin as [[= <- <-]|Hin]; try destruct Hin;
      (split; [vm_compute; auto 60|]); (split; [vm_compute; auto 60|]);
      repeat split; vm_compute; reflexivity. }
  destruct Hpair as (Hi & Ho & Hwi & Hwo & Hsub).
  assert (Hfo : skill_found (str_lower s) outer = true)
    by (unfold skill_found; rewrite Hc, Hwo; reflexivity).
  assert (Hfi : skill_found (str_lower s) inner = true).
  { unfold skill_found. rewrite (contains_trans _ _ _ Hsub Hc), Hwi. reflexivity. }
  rewrite extract_skills_str.
  assert (Ho' : In (str_title outer)
                   (map str_title (filter (skill_found (str_lower s)) common_skills)))
    by (apply in_map, skill_found_filter; auto).
  assert (Hi' : In (str_title inner)
                   (map str_title (filter (skill_found (str_lower s)) common_skills)))
    by (apply in_map, skill_found_filter; auto).
  destruct (map str_title _) as [|t ts]; [destruct Ho'|].
  exists (t :: ts). auto.
Qed.

(** *** extract_experience *)

Lemma experience_from_spec patterns description_lower e :
  experience_from patterns description_lower = Some e ->
  exists before pattern after m,
    patterns = before ++ pattern :: after
    /\ (forall q, In q before -> re_search q false description_lower = None)
    /\ re_search pattern false description_lower = Some m
    /\ e = strip (m_group1 m)
           ++ (if contains (py "-") (strip (m_group1 m))
                  || contains (py "to") (strip (m_group1 m))
               then py " years of experience"
               else py "+ years of experience").
Proof.
  induction patterns as [|p ps IH]; cbn [experience_from]; [discriminate|].
  destruct (re_search p false description_lower) as [m|] eqn:E.
  - cbv zeta. intros H. exists [], p, ps, m.
    split; [reflexivity|]. split; [intros q []|]. split; [exact E|].
    destruct (contains (py "-") _ || contains (py "to") _); congruence.
  - intros H. destruct (IH H) as (before & pattern & after & m & -> & Hb & Hm & He).
    exists (p :: before), pattern, after, m.
    split; [reflexivity|]. split; [|auto].
    intros q [<-|Hq]; [exact E | apply Hb, Hq].
Qed.

Lemma experience_from_none patterns description_lower :
  experience_from patterns description_lower = None
  <-> forall p, In p patterns -> re_search p false description_lower = None.
Proof.
  induction patterns as [|p ps IH]; cbn [experience_from].
  - split; [intros _ p [] | reflexivity].
  - destruct (re_search p false description_lower) as [m|] eqn:E.
    + cbv zeta. split.
      * destruct (contains _ _ || contains _ _); discriminate.
      * intros H. specialize (H p (or_introl eq_refl)). congruence.
    + rewrite IH. split.
      * intros H q [<-|Hq]; [exact E | apply H, Hq].
      * intros H q Hq. apply H. right. exact Hq.
Qed.

(** X13. [extract_experience] raises on a description that is no string.
    On a string it gives [None] exactly when none of its four patterns is
    found in the lowered description; otherwise the first pattern found, in
    the order of the list, decides: the result is its stripped first group
    followed by " years of experience" when the group holds "-" or "to",
    and by "+ years of experience" when not, so it is never empty. *)
Theorem extract_experience_spec (description : Value) :
  ((forall s, description <> VStr s) ->
   extract_experience description = Raise "AttributeError")
  /\ (forall s, description = VStr s ->
        exists r,
          extract_experience description = Ok r
          /\ (r = None <->
              forall p, In p experience_patterns ->
                re_search p false (str_lower s) = None)
          /\ (forall e, r = Some e ->
                e <> []
                /\ exists before pattern after m,
                     experience_patterns = before ++ pattern :: after
                     /\ (forall q, In q before ->
                           re_search q false (str_lower s) = None)
                     /\ re_search pattern false (str_lower s) = Some m
                     /\ e = strip (m_group1 m)
                            ++ (if contains (py "-") (strip (m_group1 m))
                                   || contains (py "to") (strip (m_group1 m))
                                then py " years of experience"
                                else py "+ years of experience"))).
Proof.
  split.
  - intros H. destruct description; try reflexivity. exfalso. exact (H _ eq_refl).
  - intros s ->. unfold extract_experience. cbn [as_str]. unfold_result.
    eexists. split; [reflexivity|]. split; [apply experience_from_none|].
    intros e He. pose proof (experience_from_spec _ _ _ He) as Hspec.
    split; [|exact Hspec].
    destruct Hspec as (_ & _ & _ & m & _ & _ & _ & ->).
    destruct (contains _ _ || contains _ _); intros H;
      apply app_eq_nil in H as [_ H]; vm_compute in H; discriminate H.
Qed.

End SkillsExperience.

Section DescriptionKeys.
Context {RE : ReLib} {STR : StrLib} {BS : Bs4Lib}.

(** *** The keys and the texts of a structured description *)

(** The keys of the table [sections]. *)
Definition section_keys : list string :=
  [ "about_company"; "job_overview"; "responsibilities"; "requirements";
    "nice_to_have"; "benefits"; "application_process" ]%string.

(** Every key [structure_description] may use. *)
Definition section_names : list string := section_keys ++ ["about"%string].

Lemma section_keys_table : map fst sections = section_keys.
Proof. reflexivity. Qed.

(** The keys of a dictionary are among [names]. *)
Definition keys_within (names : list string) (d : Sections) : Prop :=
  forall k : string, is_Some (d !! k) -> In k names.

(** No text of a dictionary is empty. *)
Definition texts_nonempty (d : Sections) : Prop :=
  forall (k : string) v, d !! k = Some v -> v <> [].

Lemma keys_within_empty names : keys_within names ∅.
Proof. intros k [v H]. rewrite lookup_empty in H. discriminate. Qed.

Lemma keys_within_insert names (d : Sections) (key : string) v :
  In key names -> keys_within names d -> keys_within names (<[key := v]> d).
Proof.
  intros Hk Hd k H. apply lookup_insert_is_Some' in H as [<-|H]; auto.
Qed.

Lemma keys_within_more names names' (d : Sections) :
  (forall k, In k names -> In k names') -> keys_within names d ->
  keys_within names' d.
Proof. intros H Hd k Hk. apply H, Hd, Hk. Qed.

Lemma texts_nonempty_empty : texts_nonempty ∅.
Proof. intros k v H. rewrite lookup_empty in H. discriminate. Qed.

Lemma texts_nonempty_insert (d : Sections) (key : string) v :
  v <> [] -> texts_nonempty d -> texts_nonempty (<[key := v]> d).
Proof.
  intros Hv Hd k w. destruct (decide (key = k)) as [->|Hne].
  - rewrite lookup_insert_eq. intros [= <-]. exact Hv.
  - rewrite lookup_insert_ne by exact Hne. apply Hd.
Qed.

Lemma join_nonempty sep p ps : p <> [] -> join sep (p :: ps) <> [].
Proof.
  intros Hp. destruct ps as [|q ps]; cbn [join]; [exact Hp|].
  intros H. apply app_eq_nil in H as [H _]. exact (Hp H).
Qed.

Lemma header_section_in table header_text k :
  header_section table header_text = Some k -> In k (map fst table).
Proof.
  induction table as [|[key kws] rest IH]; cbn [header_section]; [discriminate|].
  destruct (any_keyword kws header_text).
  - intros [= <-]. left. reflexivity.
  - intros H. right. apply IH, H.
Qed.

Lemma line_section_in table line line_lower k :
  line_section table line line_lower = Some k -> In k (map fst table).
Proof.
  induction table as [|[key kws] rest IH]; cbn [line_section]; [discriminate|].
  destruct (any_keyword kws line_lower); [destruct (len line <? 50)%nat|].
  - intros [= <-]. left. reflexivity.
  - intros H. right. apply IH, H.
  - intros H. right. apply IH, H.
Qed.

Lemma sibling_content_nonempty siblings :
  Forall (fun t => t <> []) (sibling_content siblings).
Proof.
  induction siblings as [|sib rest IH]; cbn [sibling_content]; [constructor|].
  destruct (sib_truthy sib && negb (sib_in_headers sib)); [|constructor].
  apply Forall_app. split; [|exact IH].
  destruct (sib_has_get_text sib).
  - destruct (strip (sib_text sib)) eqn:E; cbn [nonempty]; repeat constructor.
    discriminate.
  - destruct (sib_is_str sib); cbn [andb]; [|constructor].
    destruct (strip (sib_text sib)) eqn:E; cbn [nonempty]; repeat constructor.
    discriminate.
Qed.

Lemma header_step_sound (d : Sections) header :
  keys_within section_keys d /\ texts_nonempty d ->
  keys_within section_keys (header_step d header)
  /\ texts_nonempty (header_step d header).
Proof.
  intros [Hk Hv]. unfold header_step. cbv zeta.
  destruct (negb _ || _); [auto|].
  destruct (header_section sections _) as [k|] eqn:E; [|auto].
  pose proof (sibling_content_nonempty (hd_siblings header)) as Hc.
  destruct (sibling_content (hd_siblings header)) as [|c cs]; [auto|].
  split.
  - apply keys_within_insert; [|exact Hk].
    rewrite <- section_keys_table. eapply header_section_in, E.
  - apply texts_nonempty_insert; [|exact Hv].
    apply join_nonempty. inversion Hc; assumption.
Qed.

Lemma html_sections_sound html hs :
  html_sections html = Ok hs ->
  keys_within section_keys hs /\ texts_nonempty hs.
Proof.
  unfold html_sections. destruct (truthy html).
  - unfold_result. destruct (bs_headers html) as [headers|]; [|discriminate].
    intros [= <-].
    assert (H : forall d,
               keys_within section_keys d /\ texts_nonempty d ->
               keys_within section_keys (fold_left header_step headers d)
               /\ texts_nonempty (fold_left header_step headers d)).
    { induction headers as [|h headers IH]; intros d Hd; cbn [fold_left];
        [exact Hd|]. apply IH, header_step_sound, Hd. }
    apply H. split; [apply keys_within_empty | apply texts_nonempty_empty].
  - intros [= <-]. split; [apply keys_within_empty | apply texts_nonempty_empty].
Qed.

(** What the loop over the lines keeps true of its state. *)
Definition line_state_sound (st : LineState) : Prop :=
  keys_within section_keys (section_content st)
  /\ texts_nonempty (section_content st)
  /\ (forall k, current_section st = Some k -> In k section_keys)
  /\ Forall (fun line => line <> []) (section_lines st).

Lemma save_section_sound st :
  line_state_sound st ->
  keys_within section_keys (save_section st) /\ texts_nonempty (save_section st).
Proof.
  intros (Hk & Hv & Hc & Hl). unfold save_section.
  destruct (current_section st) as [cur|]; [|auto].
  destruct (section_lines st) as [|l ls]; [auto|]. split.
  - apply keys_within_insert; auto.
  - apply texts_nonempty_insert; [|exact Hv].
    apply join_nonempty. inversion Hl; assumption.
Qed.

Lemma line_step_sound st line :
  line_state_sound st -> line_state_sound (line_step st line).
Proof.
  intros Hst. unfold line_step. cbv zeta.
  destruct (strip line) as [|c r] eqn:El; cbn [nonempty negb]; [exact Hst|].
  destruct (line_section sections (c :: r) _) as [k|] eqn:E.
  - destruct (save_section_sound st Hst) as [Hk Hv].
    split; [exact Hk|]. split; [exact Hv|]. cbn [current_section section_lines].
    split; [|constructor].
    intros k' [= <-]. rewrite <- section_keys_table. eapply line_section_in, E.
  - destruct (current_section st) as [cur|] eqn:Ec; [|exact Hst].
    destruct Hst as (Hk & Hv & Hc & Hl).
    split; [exact Hk|]. split; [exact Hv|].
    cbn [current_section section_lines].
    split; [intros k [= <-]; apply Hc, Ec|].
    apply Forall_app. split; [exact Hl|]. repeat constructor. discriminate.
Qed.

Lemma text_sections_sound description_text :
  keys_within section_keys (text_sections description_text)
  /\ texts_nonempty (text_sections description_text).
Proof.
  unfold text_sections. apply save_section_sound.
  assert (H : forall lines st,
             line_state_sound st -> line_state_sound (fold_left line_step lines st)).
  { induction lines as [|l lines IH]; intros st Hst; cbn [fold_left];
      [exact Hst|]. apply IH, line_step_sound, Hst. }
  apply H. split; [apply keys_within_empty|].
  split; [apply texts_nonempty_empty|].
  cbn [current_section section_lines]. split; [discriminate | constructor].
Qed.

(** X14. The two header stages of [structure_description], the headers
    of the HTML and the header lines of the text, give sections under the
    seven keys of the table only, and never an empty text: a header with
    nothing under it gives no section. *)
Theorem header_sections_sound (description_text : pystr) (description_html : Value) :
  (forall hs (k : string) v,
     html_sections description_html = Ok hs -> hs !! k = Some v ->
     In k section_keys /\ v <> [])
  /\ (forall (k : string) v,
        text_sections description_text !! k = Some v ->
        In k section_keys /\ v <> []).
Proof.
  split.
  - intros hs k v Hh Hv. destruct (html_sections_sound _ _ Hh) as [A B].
    split; [apply A; eauto | eapply B, Hv].
  - intros k v Hv. destruct (text_sections_sound description_text) as [A B].
    split; [apply A; eauto | eapply B, Hv].
Qed.

Lemma section_keys_names k : In k section_keys -> In k section_names.
Proof. intros H. apply in_or_app. left. exact H. Qed.

Lemma bullet_stage_keys description_text (d : Sections) :
  keys_within section_names d ->
  keys_within section_names (bullet_stage description_text d).
Proof.
  intros Hd. unfold bullet_stage. cbv zeta.
  destruct (3 <? length _)%nat; [|exact Hd].
  set (d1 := match re_split _ description_text with
             | first :: _ => if (100 <? len first)%nat
                             then <["about" := strip first]> d else d
             | [] => d
             end).
  assert (H1 : keys_within section_names d1).
  { unfold d1. destruct (re_split _ description_text) as [|first rest]; [exact Hd|].
    destruct (100 <? len first)%nat; [|exact Hd].
    apply keys_within_insert; [|exact Hd]. cbn; auto 10. }
  destruct (map _ _); [exact H1|].
  destruct (_ <? _)%nat; (apply keys_within_insert; [cbn; auto 10 | exact H1]).
Qed.

Lemma classify_step_keys (d : Sections) section :
  keys_within section_names d -> keys_within section_names (classify_step d section).
Proof.
  intros Hd. unfold classify_step. cbv zeta.
  repeat match goal with
         | |- context [if ?b then _ else _] => destruct b
         end;
    try exact Hd; (apply keys_within_insert; [cbn; auto 10 | exact Hd]).
Qed.

Lemma overview_stage_keys description_text :
  keys_within section_names (overview_stage description_text).
Proof.
  assert (H0 : forall v, keys_within section_names (<["job_overview" := v]> ∅)).
  { intros v. apply keys_within_insert; [cbn; auto 10 | apply keys_within_empty]. }
  unfold overview_stage. destruct (len description_text <? 500)%nat; [apply H0|].
  cbv zeta. destruct (map strip _) as [|first [|second rest]]; try apply H0.
  assert (H : forall l d, keys_within section_names d ->
                          keys_within section_names (fold_left classify_step l d)).
  { induction l as [|x l IH]; intros d Hd; cbn [fold_left]; [exact Hd|].
    apply IH, classify_step_keys, Hd. }
  apply H, H0.
Qed.

(** X15. Whatever the description and the HTML, every key of the
    dictionary [structure_description] returns is one of "about_company",
    "job_overview", "responsibilities", "requirements", "nice_to_have",
    "benefits", "application_process" and "about". *)
Theorem structure_description_keys
    (description_text description_html : Value) (d : Sections) :
  structure_description description_text description_html = Ok d ->
  forall k : string, is_Some (d !! k) -> In k section_names.
Proof.
  unfold structure_description, try_except.
  destruct (structure_description_body description_text description_html)
    as [d0|e] eqn:E.
  - intros [= <-]. revert E. unfold structure_description_body. unfold_result.
    destruct (html_sections description_html) as [hs|] eqn:Eh; [|discriminate].
    apply html_sections_sound in Eh as [Hhs _].
    apply (keys_within_more _ section_names) in Hhs; [|apply section_keys_names].
    assert (H1 : forall d1,
               (if is_empty hs
                then match as_str description_text with
                     | Ok text => Ok (text_sections text)
                     | Raise e => Raise e
                     end
                else Ok hs) = Ok d1 ->
               keys_within section_names d1).
    { intros d1. destruct (is_empty hs); [|intros [= <-]; exact Hhs].
      destruct (as_str description_text) as [text|]; [|discriminate].
      intros [= <-].
      apply (keys_within_more section_keys); [apply section_keys_names|].
      apply text_sections_sound. }
    destruct (if is_empty hs then _ else _) as [d1|]; [|discriminate].
    specialize (H1 d1 eq_refl).
    assert (H2 : forall d2,
               (if (size d1 <? 2)%nat
                then match as_text description_text with
                     | Ok text => Ok (bullet_stage text d1)
                     | Raise e => Raise e
                     end
                else Ok d1) = Ok d2 ->
               keys_within section_names d2).
    { intros d2. destruct (size d1 <? 2)%nat; [|intros [= <-]; exact H1].
      destruct (as_text description_text) as [text|]; [|discriminate].
      intros [= <-]. apply bullet_stage_keys, H1. }
    destruct (if (size d1 <? 2)%nat then _ else _) as [d2|]; [|discriminate].
    specialize (H2 d2 eq_refl).
    destruct (is_empty d2 && truthy description_text);
      [|intros [= <-]; exact H2].
    destruct (as_str description_text) as [text|]; [|discriminate].
    intros [= <-]. apply overview_stage_keys.
  - destruct (truthy description_text).
    + unfold_result. destruct (as_str description_text) as [text|]; [|discriminate].
      intros [= <-]. apply keys_within_insert; [cbn; auto 10|].
      apply keys_within_empty.
    + intros [= <-]. apply keys_within_empty.
Qed.

End DescriptionKeys.

(** *** main *)

Lemma replace_from_absent old new s :
  contains old s = false -> replace_from old new 0 s = s.
Proof.
  induction s as [|c t IH]; [reflexivity|].
  cbn [contains replace_from]. intros H.
  apply orb_false_iff in H as [H1 H2].
  rewrite H1, IH by exact H2. reflexivity.
Qed.

Lemma replace_from_skip_all old new t k :
  (length t <= k)%nat -> replace_from old new k t = [].
Proof.
  revert k. induction t as [|c t IH]; intros k Hk; [reflexivity|].
  cbn [length] in Hk. destruct k as [|k]; [lia|].
  cbn [replace_from]. apply IH. lia.
Qed.

(** A name that ends with the only occurrence of [old]. *)
Lemma replace_from_extension d old' new stem :
  ~ In d stem ->
  replace_from (d :: old') new 0 (stem ++ d :: old') = stem ++ new.
Proof.
  intros Hd. induction stem as [|c stem IH].
  - cbn [app replace_from].
    assert (Hs : startswith (d :: old') (d :: old') = true)
      by (apply startswith_spec; exists []; symmetry; apply app_nil_r).
    rewrite Hs.
    rewrite replace_from_skip_all by (cbn [length]; lia).
    rewrite app_nil_r. reflexivity.
  - cbn [app replace_from startswith].
    assert (Hc : (d =? c) = false).
    { apply N.eqb_neq. intros ->. apply Hd. left. reflexivity. }
    rewrite Hc. cbn [andb]. rewrite IH; [reflexivity|].
    intros Hin. apply Hd. right. exact Hin.
Qed.

Lemma replace_char_no_space s : ~ In space (replace_char space 95 s).
Proof.
  unfold replace_char. rewrite in_map_iff. intros (c & Hc & _).
  destruct (c =? space) eqn:E; [discriminate Hc|].
  apply N.eqb_neq in E. congruence.
Qed.

Lemma replace_char_keeps_out (d a b : N) s :
  d <> b -> ~ In d s -> ~ In d (replace_char a b s).
Proof.
  intros Hb Hs. unfold replace_char. rewrite in_map_iff. intros (c & Hc & Hin).
  destruct (c =? a); [congruence|]. subst c. exact (Hs Hin).
Qed.

(** X16. The list of country codes is the argument split at its commas,
    whether it has a comma or not: it is never empty, no code holds a
    comma, and joining the codes with commas gives the argument back, so
    nothing is stripped from a code (a space after a comma stays in it). An
    argument without a comma is the only code. *)
Theorem parse_countries_split (countries : pystr) :
  parse_countries countries = split_char 44 countries
  /\ parse_countries countries <> []
  /\ join (py ",") (parse_countries countries) = countries
  /\ (forall code, In code (parse_countries countries) -> ~ In 44 code)
  /\ (~ In 44 countries -> parse_countries countries = [countries]).
Proof.
  assert (H : parse_countries countries = split_char 44 countries).
  { unfold parse_countries.
    destruct (contains (py ",") countries) eqn:E; [reflexivity|].
    symmetry. apply split_char_single. intros Hin.
    apply (contains_char_in 44) in Hin.
    change [44] with (py ",") in Hin. congruence. }
  rewrite H. split; [reflexivity|]. split; [|split; [|split]].
  - destruct (split_char_cons 44 countries) as (w & ws & ->). discriminate.
  - apply (join_split_char 44).
  - intros code. apply split_char_no_sep.
  - apply split_char_single.
Qed.

(** X17. A job type that is absent or blank is replaced by "all jobs",
    so the job type searched is never blank. The name of the CSV file is
    the name of the JSON file with every ".json" in it replaced by ".csv":
    a name given with [--output] that holds no ".json" is therefore the
    name of the CSV file too, which is then written over the JSON file just
    saved. The generated name, for a job type, a location and a timestamp
    without a dot, ends in ".json", holds no space when the timestamp holds
    none, and its CSV name is the same stem with ".csv". *)
Theorem csv_name_of_output
    (output given_job_type : option pystr) (location timestamp : pystr) :
  let job_type := effective_job_type given_job_type in
  strip job_type <> []
  /\ (forall name, output = Some name -> contains (py ".json") name = false ->
        csv_name (output_name output job_type location timestamp) = name)
  /\ (output = None ->
      ~ In 46 job_type -> ~ In 46 location -> ~ In 46 timestamp ->
      exists stem,
        output_name output job_type location timestamp = stem ++ py ".json"
        /\ csv_name (output_name output job_type location timestamp)
           = stem ++ py ".csv"
        /\ csv_name (output_name output job_type location timestamp)
           <> output_name output job_type location timestamp
        /\ (~ In space timestamp -> ~ In space stem)).
Proof.
  cbv zeta. set (job_type := effective_job_type given_job_type).
  split; [|split].
  - unfold job_type, effective_job_type.
    assert (Hall : strip (py "all jobs") <> [])
      by (intros H; vm_compute in H; discriminate H).
    destruct given_job_type as [t|]; [|exact Hall].
    unfold PyStr.eqb. destruct (bool_decide (strip t = py "")) eqn:E; [exact Hall|].
    apply bool_decide_eq_false in E. exact E.
  - intros name -> Hc. cbn [output_name]. unfold csv_name, str_replace.
    apply replace_from_absent, Hc.
  - intros -> Hj Hl Ht. cbn [output_name]. cbv zeta.
    set (stem := py "ziprecruiter_jobs_" ++ replace_char space 95 job_type
                 ++ py "_" ++ replace_char space 95 location ++ py "_" ++ timestamp).
    assert (Hname : py "ziprecruiter_jobs_" ++ replace_char space 95 job_type
                    ++ py "_" ++ replace_char space 95 location ++ py "_"
                    ++ timestamp ++ py ".json" = stem ++ py ".json").
    { unfold stem. rewrite <- !app_assoc. reflexivity. }
    rewrite Hname. exists stem.
    assert (Hdot : ~ In 46 stem).
    { unfold stem. rewrite !in_app_iff.
      intros [H|[H|[H|[H|[H|H]]]]].
      - vm_compute in H. intuition discriminate.
      - revert H. apply replace_char_keeps_out; [discriminate | exact Hj].
      - vm_compute in H. intuition discriminate.
      - revert H. apply replace_char_keeps_out; [discriminate | exact Hl].
      - vm_compute in H. intuition discriminate.
      - exact (Ht H). }
    assert (Hcsv : csv_name (stem ++ py ".json") = stem ++ py ".csv").
    { unfold csv_name, str_replace.
      change (py ".json") with (46 :: py "json").
      apply replace_from_extension, Hdot. }
    split; [reflexivity|]. split; [exact Hcsv|]. split.
    + rewrite Hcsv. intros H. apply app_inv_head in H.
      vm_compute in H. discriminate H.
    + intros Hts. unfold stem. rewrite !in_app_iff.
      intros [H|[H|[H|[H|[H|H]]]]].
      * vm_compute in H. intuition discriminate.
      * exact (replace_char_no_space _ H).
      * vm_compute in H. intuition discriminate.
      * exact (replace_char_no_space _ H).
      * vm_compute in H. intuition discriminate.
      * exact (Hts H).
Qed.

Lemma map_result_length {A B : Type} (f : A -> Result B) l l' :
  map_result f l = Ok l' -> length l' = length l.
Proof.
  revert l'. induction l as [|a l IH]; intros l'; cbn [map_result].
  - intros [= <-]. reflexivity.
  - unfold_result. destruct (f a); [|discriminate].
    destruct (map_result f l) as [bs|]; [|discriminate].
    intros [= <-]. cbn [length]. rewrite (IH bs eq_refl). reflexivity.
Qed.

(** The sum of the counts. *)
Definition total_count (country_stats : list (pystr * nat)) : nat :=
  list_sum (map snd country_stats).

Lemma count_country_total country_stats country :
  total_count (count_country country_stats country) = S (total_count country_stats).
Proof.
  unfold total_count.
  induction country_stats as [|[c n] rest IH]; cbn [count_country]; [reflexivity|].
  unfold list_sum in *.
  destruct (PyStr.eqb c country); cbn [map snd fold_right] in *; lia.
Qed.

Lemma count_country_positive country_stats country :
  Forall (fun entry => (1 <= snd entry)%nat) country_stats ->
  Forall (fun entry => (1 <= snd entry)%nat) (count_country country_stats country).
Proof.
  induction 1 as [|[c n] rest Hn Hrest IH]; cbn [count_country].
  - repeat constructor.
  - destruct (PyStr.eqb c country); constructor; cbn [snd] in *; auto; lia.
Qed.

Lemma fold_count_total names country_stats :
  total_count (fold_left count_country names country_stats)
  = (total_count country_stats + length names)%nat.
Proof.
  revert country_stats. induction names as [|n names IH]; intros st;
    cbn [fold_left length]; [lia|].
  rewrite IH, count_country_total. lia.
Qed.

Lemma fold_count_positive names country_stats :
  Forall (fun entry => (1 <= snd entry)%nat) country_stats ->
  Forall (fun entry => (1 <= snd entry)%nat)
         (fold_left count_country names country_stats).
Proof.
  revert country_stats. induction names as [|n names IH]; intros st H;
    cbn [fold_left]; [exact H|].
  apply IH, count_country_positive, H.
Qed.

Lemma fold_count_same country n names :
  Forall (fun name => name = country) names ->
  fold_left count_country names [(country, n)] = [(country, (n + length names)%nat)].
Proof.
  revert n. induction names as [|x names IH]; intros n H; cbn [fold_left length].
  - rewrite Nat.add_0_r. reflexivity.
  - inversion H as [|? ? -> Hrest]; subst. cbn [count_country].
    unfold PyStr.eqb. rewrite bool_decide_eq_true_2 by reflexivity.
    rewrite IH by exact Hrest. do 2 f_equal. lia.
Qed.

Section MainProps.
Context {STR : StrLib}.

(** X18. The summary by country, when it is printed whole, counts every
    record once: its counts are positive and add up to the number of
    records. A record without "country_code" is counted under "unknown";
    so records that all lack the key, as those of [extract_job_listings]
    do (they carry "country"), give the single entry "UNKNOWN". *)
Theorem jobs_by_country_counts (jobs : list Job) :
  (forall entries,
     jobs_by_country jobs = Ok entries ->
     total_count entries = length jobs
     /\ Forall (fun entry => (1 <= snd entry)%nat) entries)
  /\ ((forall job, In job jobs -> job !! "country_code" = None) ->
      jobs_by_country jobs
      = Ok (match jobs with
            | [] => []
            | _ => [(str_upper (py "unknown"), length jobs)]
            end)).
Proof.
  split.
  - intros entries. unfold jobs_by_country. unfold_result.
    destruct (map_result country_key jobs) as [countries|] eqn:E1; [|discriminate].
    destruct (map_result as_str countries) as [names|] eqn:E2; [|discriminate].
    intros [= <-].
    apply map_result_length in E1, E2.
    split.
    + unfold total_count. rewrite map_map. cbn [snd].
      change (list_sum (map (fun x => snd x) (fold_left count_country names [])))
        with (total_count (fold_left count_country names [])).
      rewrite fold_count_total. cbn. congruence.
    + apply Forall_map. cbn [snd]. apply fold_count_positive. constructor.
  - intros Hnone.
    assert (H1 : map_result country_key jobs
                 = Ok (map (fun _ => VStr (py "unknown")) jobs)).
    { induction jobs as [|job jobs IH]; [reflexivity|].
      cbn [map_result map]. unfold_result.
      unfold country_key at 1, dict_get_default.
      rewrite (Hnone job) by (left; reflexivity). cbn [default from_option id].
      rewrite IH; [reflexivity|]. intros j Hj. apply Hnone. right. exact Hj. }
    assert (H2 : map_result as_str (map (fun _ : Job => VStr (py "unknown")) jobs)
                 = Ok (map (fun _ => py "unknown") jobs)).
    { clear. induction jobs as [|job jobs IH]; [reflexivity|].
      cbn [map_result map as_str]. unfold_result. rewrite IH. reflexivity. }
    unfold jobs_by_country. unfold_result. rewrite H1, H2.
    destruct jobs as [|job jobs]; [reflexivity|].
    cbn [map fold_left count_country].
    rewrite fold_count_same.
    + cbn [map fst snd length]. rewrite length_map. reflexivity.
    + apply List.Forall_forall. intros x Hx. apply in_map_iff in Hx as (? & <- & _).
      reflexivity.
Qed.

End MainProps.

(** *** From the extraction to the post-processing *)

Section Pipeline.
Context {RE : ReLib} {STR : StrLib} {SYS : SysLib} {BS : Bs4Lib}.
Variable base_urls : gmap pystr pystr.

(** The records of the extraction are typed as the post-processing
    expects them. *)
Lemma process_card_well_typed country_code job_card (job : Job) :
  process_card base_urls country_code job_card = Ok (Some job) ->
  well_typed job.
Proof.
  intros E.
  pose proof (process_card_lookup base_urls country_code job_card job) as Hlk.
  assert (Htext : forall (k : string) v,
             In k optional_keys -> job !! k = Some v -> exists s, v = VStr s).
  { intros k v Hk Hv.
    destruct (Hlk k v E Hv) as [[_ (t & -> & _)] | [[-> _] | [[-> _] | [H _]]]].
    - eauto.
    - exfalso. unfold optional_keys in Hk. cbn [In] in Hk. intuition discriminate.
    - exfalso. unfold optional_keys in Hk. cbn [In] in Hk. intuition discriminate.
    - exfalso. unfold optional_keys in Hk. cbn [In] in Hk, H.
      intuition (subst; discriminate). }
  split; [|split].
  - intros v. apply Htext. unfold optional_keys. cbn [In]. auto 10.
  - intros v. apply Htext. unfold optional_keys. cbn [In]. auto 10.
  - destruct (job !! "description_html") as [v|] eqn:Ev; [|reflexivity].
    exfalso.
    destruct (Hlk _ v E Ev) as [[H _] | [[H _] | [[H _] | [H _]]]];
      try discriminate H; unfold optional_keys in *; cbn [In] in H;
      intuition discriminate.
Qed.

(** X19. The post-processing never fails on what the extraction gives: on
    a store whose records are records [extract_job_listings] returned,
    [post_process_job_data] returns the list it was given. Such records
    have a string for description and for job type when they have one, and
    no HTML description, so no step raises. *)
Theorem extracted_records_are_post_processed
    (html_content : Html) (country_code : pystr) (records : list Job)
    (jobs : positive) (refs : list positive) (h : Heap) :
  extract_job_listings base_urls html_content country_code = Ok records ->
  lists h !! jobs = Some refs ->
  (forall r, In r refs -> is_Some (dicts h !! r)) ->
  (forall l job, dicts h !! l = Some job -> In job records) ->
  (forall job, In job records -> well_typed job)
  /\ (post_process_job_data jobs h).2 = Ok jobs.
Proof.
  intros Hex Hrefs Hall Hrec.
  assert (Hwt : forall job, In job records -> well_typed job).
  { revert Hex. unfold extract_job_listings. unfold_result.
    destruct (discover_cards html_content) as [cards|]; [|discriminate].
    destruct (preview_first_card cards) as [[]|]; [|discriminate].
    rewrite process_cards_app. cbn [app]. intros [= <-] job Hin.
    apply list_elem_of_In, list_elem_of_omap in Hin as (job_card & _ & Hr).
    unfold record_of in Hr.
    destruct (process_card base_urls country_code job_card) as [[job'|]|] eqn:E;
      try discriminate.
    injection Hr as ->. eapply process_card_well_typed, E. }
  split; [exact Hwt|].
  unfold post_process_job_data. rewrite Hrefs.
  destruct (post_process_loop_returns refs h Hall) as [h1 ->]; [|reflexivity].
  intros l job Hl. apply Hwt, (Hrec l), Hl.
Qed.

End Pipeline.

Section DescriptionFields.
Context {RE : ReLib} {STR : StrLib} {BS : Bs4Lib}.

(** *** The fields taken from the description *)

Lemma structure_description_nonempty s html d :
  s <> [] -> structure_description (VStr s) html = Ok d -> d <> ∅.
Proof.
  intros Hs. unfold structure_description, try_except.
  destruct (structure_description_body (VStr s) html) as [d0|e] eqn:E.
  - intros [= <-].
    destruct (html_sections html) as [hs|e] eqn:Eh.
    + rewrite (structure_description_body_ok s html hs Hs Eh) in E.
      injection E as <-. unfold after_headers.
      destruct (size _ <? 2)%nat eqn:Esz.
      * destruct (is_empty (bullet_stage s _)) eqn:Eb.
        -- eapply sections_nonempty, overview_stage_has_overview.
        -- apply is_empty_false, Eb.
      * apply is_empty_false, is_empty_size, Nat.ltb_ge, Esz.
    + unfold structure_description_body in E. rewrite Eh in E.
      unfold_result. discriminate.
  - cbn [truthy as_str]. unfold_result. destruct s; [congruence|].
    intros [= <-]. eapply (sections_nonempty _ "job_overview").
    rewrite lookup_insert_eq. eauto.
Qed.

Lemma experience_from_nonempty patterns description_lower e :
  experience_from patterns description_lower = Some e -> e <> [].
Proof.
  intros H. apply experience_from_spec in H as (_ & _ & _ & m & _ & _ & _ & ->).
  destruct (contains _ _ || contains _ _); intros H;
    apply app_eq_nil in H as [_ H]; vm_compute in H; discriminate H.
Qed.

Lemma extract_experience_nonempty s e :
  extract_experience (VStr s) = Ok (Some e) -> e <> [].
Proof.
  unfold extract_experience. cbn [as_str]. unfold_result.
  intros H. apply (experience_from_nonempty experience_patterns (str_lower s)).
  congruence.
Qed.

(** X20. When the post-processing of a record with a string for
    description returns: the structured description is computed from the
    description and the sanitized HTML (the empty string when the record has
    none) and is stored when it is not empty, which it never is for a
    description that is not empty; the skills and the experience are stored
    when [extract_skills] and [extract_experience] find some, and when they
    find none what the record had under these keys stays. *)
Theorem post_process_description_fields (job : Job) (s : pystr) :
  job !! "description" = Some (VStr s) ->
  (post_process_job job).2 = Ok tt ->
  let job' := (post_process_job job).1 in
  let html := match job !! "description_html" with
              | Some html => sanitize_html html
              | None => VStr (py "")
              end in
  (exists d,
     structure_description (VStr s) html = Ok d
     /\ (s <> [] -> d <> ∅)
     /\ (d <> ∅ -> job' !! "structured_description" = Some (str_dict d))
     /\ (d = ∅ ->
         job' !! "structured_description" = job !! "structured_description"))
  /\ (forall skills,
        extract_skills (VStr s) = Ok (Some skills) ->
        job' !! "skills" = Some (VList (map VStr skills)))
  /\ (extract_skills (VStr s) = Ok None -> job' !! "skills" = job !! "skills")
  /\ (forall e,
        extract_experience (VStr s) = Ok (Some e) ->
        job' !! "experience" = Some (VStr e))
  /\ (extract_experience (VStr s) = Ok None ->
      job' !! "experience" = job !! "experience").
Proof.
  intros Hd Hok. cbv zeta.
  apply post_process_returned, post_process_trace in Hok
    as (j1 & j2 & j3 & j4 & j5 & j6 & H1 & H2 & H3 & H4 & H5 & H6 & H7).
  assert (K2 : forall k : string,
             ~ In k ["company"; "location"]%string -> j2 !! k = job !! k).
  { intros k Hk.
    rewrite (step_frame _ _ _ _ _ _ step_location_writes H2)
      by (cbn [In] in *; intuition auto).
    rewrite (step_frame _ _ _ _ _ _ step_company_writes H1)
      by (cbn [In] in *; intuition auto).
    reflexivity. }
  assert (K3 : forall k : string,
             ~ In k ["description_html"; "formatted_description"]%string ->
             j3 !! k = j2 !! k).
  { intros k Hk. apply (step_frame _ _ _ _ _ _ step_html_writes H3), Hk. }
  assert (Hhtml : dict_get_default j3 "description_html" (VStr (py ""))
                  = match job !! "description_html" with
                    | Some html => sanitize_html html
                    | None => VStr (py "")
                    end).
  { unfold dict_get_default. unfold step_html in H3.
    rewrite (K2 "description_html"%string) in H3 by other_key.
    destruct (job !! "description_html") as [html|] eqn:Eh.
    - destruct (format_html_to_text (sanitize_html html)); [|discriminate].
      injection H3 as <-. rewrite lookup_insert_ne by discriminate.
      rewrite lookup_insert_eq. reflexivity.
    - injection H3 as <-. rewrite (K2 "description_html"%string) by other_key.
      rewrite Eh. reflexivity. }
  assert (D3 : j3 !! "description" = Some (VStr s))
    by (rewrite K3, K2 by other_key; exact Hd).
  assert (D4 : j4 !! "description" = Some (VStr s)).
  { rewrite (step_frame _ _ _ _ _ _ step_structured_writes H4) by other_key.
    exact D3. }
  assert (D5 : j5 !! "description" = Some (VStr s)).
  { rewrite (step_frame _ _ _ _ _ _ step_job_type_writes H5) by other_key.
    exact D4. }
  assert (D6 : j6 !! "description" = Some (VStr s)).
  { rewrite (step_frame _ _ _ _ _ _ step_skills_writes H6) by other_key.
    exact D5. }
  split; [|split; [|split; [|split]]].
  - assert (Hlater : (post_process_job job).1 !! "structured_description"
                     = j4 !! "structured_description").
    {
      rewrite (step_frame _ _ _ _ _ _ step_experience_writes H7) by other_key.
      rewrite (step_frame _ _ _ _ _ _ step_skills_writes H6) by other_key.
      rewrite (step_frame _ _ _ _ _ _ step_job_type_writes H5) by other_key.
      reflexivity. }
    assert (Hearlier : j3 !! "structured_description" = job !! "structured_description")
      by (rewrite K3, K2 by other_key; reflexivity).
    unfold step_structured in H4. rewrite D3, Hhtml in H4.
    destruct (structure_description _ _) as [d|e] eqn:Es; [|discriminate].
    exists d. split; [reflexivity|].
    split; [intros Hs; eapply structure_description_nonempty; eassumption|].
    rewrite Hlater. unfold is_empty in H4.
    destruct (bool_decide (d = ∅)) eqn:Ee; injection H4 as <-.
    + apply bool_decide_eq_true in Ee. split; [congruence | intros _; exact Hearlier].
    + apply bool_decide_eq_false in Ee.
      split; [intros _; apply lookup_insert_eq | congruence].
  - intros skills Hs.
    rewrite (step_frame _ _ _ _ _ _ step_experience_writes H7) by other_key.
    unfold step_skills in H6. rewrite D5, Hs in H6. injection H6 as <-.
    apply lookup_insert_eq.
  - intros Hs.
    rewrite (step_frame _ _ _ _ _ _ step_experience_writes H7) by other_key.
    unfold step_skills in H6. rewrite D5, Hs in H6. injection H6 as <-.
    rewrite (step_frame _ _ _ _ _ _ step_job_type_writes H5) by other_key.
    rewrite (step_frame _ _ _ _ _ _ step_structured_writes H4) by other_key.
    rewrite K3, K2 by other_key. reflexivity.
  - intros e He.
    pose proof (extract_experience_nonempty s e He) as Hne.
    unfold step_experience in H7. rewrite D6, He in H7.
    destruct e as [|c e]; [congruence|]. cbn [nonempty] in H7.
    injection H7 as <-. apply lookup_insert_eq.
  - intros He.
    unfold step_experience in H7. rewrite D6, He in H7. injection H7 as <-.
    rewrite (step_frame _ _ _ _ _ _ step_skills_writes H6) by other_key.
    rewrite (step_frame _ _ _ _ _ _ step_job_type_writes H5) by other_key.
    rewrite (step_frame _ _ _ _ _ _ step_structured_writes H4) by other_key.
    rewrite K3, K2 by other_key. reflexivity.
Qed.

End DescriptionFields.

(* ===================================================================== *)
(** ** Examples on the concrete library *)
(* ===================================================================== *)

(** A closed equation, checked by evaluating both sides. *)
Ltac by_vm := vm_compute; exact (eq_refl _).

(** An element that holds text only. *)
Definition text_element (name text : pystr) : Element :=
  mkElement name None text None None (fun _ => Ok None) (Ok text).

(** A link. *)
Definition link_element (text href : pystr) : Element :=
  mkElement (py "a") None text (Some href) None (fun _ => Ok None) (Ok text).

(** A card given by the answers of [select_one] that are not [None] and by
    its full text. *)
Definition card_of (answers : list (pystr * Result (option Element)))
    (full_text : pystr) : Element :=
  mkElement (py "div") (Some [py "job_content"]) full_text None None
    (fun selector =>
       match find (fun a => PyStr.eqb (fst a) selector) answers with
       | Some (_, answer) => answer
       | None => Ok None
       end)
    (Ok full_text).

(** A card with a title, a relative link, a company, a location, a snippet,
    and a salary in its text only. *)
Definition sample_card : Element :=
  card_of
    [ (sel "h2", Ok (Some (text_element (py "h2") (py "Python Developer"))));
      (sel "a[href*='job']",
       Ok (Some (link_element (py "Python Developer")
                              (py "/jobs/python-developer-123"))));
      (sel ".company_name", Ok (Some (text_element (py "span") (py " Acme Ltd "))));
      (sel ".location", Ok (Some (text_element (py "span") (py "London"))));
      (sel ".job_snippet", Ok (Some (text_element (py "p") (py "Build APIs")))) ]
    (py "Python Developer Acme Ltd London Build APIs $50,000 - $60,000 per year").

(** A sponsored card. *)
Definition sponsored_card : Element :=
  card_of
    [ (sponsored_selector, Ok (Some (text_element (py "span") (py "Sponsored"))));
      (sel "h2", Ok (Some (text_element (py "h2") (py "Sales Lead"))));
      (sel "a[href*='job']",
       Ok (Some (link_element (py "Sales Lead") (py "/jobs/sales-lead-9")))) ]
    (py "Sponsored Sales Lead").

(** A card with a title and a link whose first company lookup raises, and
    nothing else does. *)
Definition failing_card : Element :=
  card_of
    [ (sel "h2", Ok (Some (text_element (py "h2") (py "Data Analyst"))));
      (sel "a[href*='job']",
       Ok (Some (link_element (py "Data Analyst")
                   (py "https://www.ziprecruiter.co.uk/jobs/data-analyst-7"))));
      (sel ".company_name", Raise "RecursionError") ]
    (py "Data Analyst").

(** A card whose salary element and text disagree. *)
Definition salary_card : Element :=
  card_of
    [ (sel ".salary", Ok (Some (text_element (py "span") (py "   "))));
      (sel "[class*='salary']", Raise "RecursionError");
      (sel ".compensation",
       Ok (Some (text_element (py "span") (py " £30,000 p.a. ")))) ]
    (py "Clerk $99 per hour").

Definition sample_base_urls : gmap pystr pystr :=
  {[ py "uk" := py "https://www.ziprecruiter.co.uk" ]}.

(** A page whose cards are found by the first selector. *)
Definition sample_page : Html :=
  mkHtml (fun selector =>
            if PyStr.eqb selector (sel ".job_content")
            then Ok [sample_card; sponsored_card; failing_card; sample_card]
            else Ok []).

(** The record of [sample_card]. *)
Definition sample_record : Job :=
  <["id" := VStr (py "2aefab97184feab90644f439cf7d8b9d")]>
  (<["title" := VStr (py "Python Developer")]>
  (<["url" := VStr (py "https://www.ziprecruiter.co.uk/jobs/python-developer-123")]>
  (<["source" := VStr (py "ZipRecruiter")]>
  (<["country" := VStr (py "uk")]>
  (<["timestamp" := VStr (py "2024-05-01 09:30:00")]>
  (<["company" := VStr (py "Acme Ltd")]>
  (<["location" := VStr (py "London")]>
  (<["description" := VStr (py "Build APIs")]>
  (<["salary" :=
       VDict (<["text" := VStr (py "$50,000 - $60,000 per year")]>
             (<["currency" := VStr (py "USD")]>
             (<["min" := VNum (inject_Z 50000)]>
             (<["max" := VNum (inject_Z 60000)]>
             (<["period" := VStr (py "yearly")]>
             (<["is_range" := VBool true]> ∅))))))]> ∅))))))))).

Definition sample_jobs : list Job := [sample_record; sample_record].

Example extract_job_listings_sample :
  extract_job_listings sample_base_urls sample_page (py "uk") = Ok sample_jobs.
Proof. by_vm. Qed.

(** [v[k]] for a value that is a dictionary. *)
Definition value_get (v : Value) (k : string) : option Value :=
  match v with
  | VDict d => d !! k
  | _ => None
  end.

(** The first salary selector gives blank text and the second raises: the
    third is taken, and the text of the card is not searched. *)
Example extract_salary_prefers_selectors :
  map (value_get (extract_salary salary_card))
      ["text"; "currency"; "period"; "min"; "max"; "is_range"]%string
  = [ Some (VStr (py "£30,000 p.a.")); Some (VStr (py "GBP"));
      Some (VStr (py "yearly")); Some (VNum (inject_Z 30000)); Some VNone;
      Some (VBool false) ].
Proof. by_vm. Qed.

Example extract_salary_absent :
  extract_salary failing_card = VNone.
Proof. by_vm. Qed.

Example extract_job_type_samples :
  extract_job_type (VStr (py "Permanent, part time")) VNone = Ok (py "Full-time")
  /\ extract_job_type VNone (VStr (py "Job type: seasonal. Great team."))
     = Ok (py "Temporary")
  /\ extract_job_type (VStr (py "n/a")) (VStr (py "Contract role")) = Ok (py "Contract")
  /\ extract_job_type (VStr (py "n/a")) VNone = Ok (py "Full-time")
  /\ extract_job_type (VStr (py "")) VNone = Ok (py "")
  /\ extract_job_type (VNum 1) VNone = Raise "AttributeError".
Proof. repeat apply conj; by_vm. Qed.

(** C8, on the sample page. *)
Lemma extract_job_listings_invariants_witness :
  (forall c u, sample_base_urls !! c = Some u -> startswith (py "http") u = true)
  /\ extract_job_listings sample_base_urls sample_page (py "uk") = Ok sample_jobs
  /\ (forall job, In job sample_jobs ->
        exists job_title job_url href,
          job !! "title" = Some (VStr job_title) /\ job_title <> []
          /\ job !! "url" = Some (VStr job_url)
          /\ startswith (py "http") job_url = true
          /\ job_url = absolute_url sample_base_urls (py "uk") href
          /\ (startswith (py "http") href = true -> job_url = href)
          /\ (startswith (py "http") href = false ->
              job_url = base_url sample_base_urls (py "uk") ++ href
              \/ job_url = base_url sample_base_urls (py "uk") ++ py "/" ++ href)
          /\ job !! "id" = Some (VStr (md5_hexdigest job_url))
          /\ job !! "source" = Some (VStr (py "ZipRecruiter"))
          /\ job !! "country" = Some (VStr (py "uk"))).
Proof.
  assert (H1 : forall c u, sample_base_urls !! c = Some u ->
                           startswith (py "http") u = true).
  { intros c u H. unfold sample_base_urls in H.
    apply lookup_singleton_Some in H as [_ <-]. reflexivity. }
  assert (H2 : extract_job_listings sample_base_urls sample_page (py "uk")
               = Ok sample_jobs) by (by_vm).
  split; [exact H1|]. split; [exact H2|].
  exact (proj1 (extract_job_listings_invariants
                  sample_base_urls sample_page (py "uk") sample_jobs H1 H2)).
Defined.

(** C9, on the sample card. *)
Lemma extract_salary_numbers_witness :
  find_salary_text sample_card = Some (py "$50,000 - $60,000 per year")
  /\ py "$50,000 - $60,000 per year" <> []
  /\ (exists d, extract_salary sample_card = VDict d
                /\ d !! "text"
                   = Some (VStr (clean_salary_text (py "$50,000 - $60,000 per year"))))
  /\ (exists d lo hi,
        extract_salary sample_card = VDict d
        /\ d !! "is_range" = Some (VBool true)
        /\ d !! "min" = Some (VNum lo) /\ d !! "max" = Some (VNum hi)
        /\ In lo [inject_Z 50000; inject_Z 60000]
        /\ In hi [inject_Z 50000; inject_Z 60000]
        /\ (forall n, In n [inject_Z 50000; inject_Z 60000] -> Qle lo n /\ Qle n hi)
        /\ Qle lo hi).
Proof.
  assert (H1 : find_salary_text sample_card = Some (py "$50,000 - $60,000 per year"))
    by (by_vm).
  assert (H2 : py "$50,000 - $60,000 per year" <> [])
    by (intros H; vm_compute in H; discriminate H).
  assert (H3 : salary_numbers (clean_salary_text (py "$50,000 - $60,000 per year"))
               = Ok [inject_Z 50000; inject_Z 60000])
    by (by_vm).
  split; [exact H1|]. split; [exact H2|].
  destruct (extract_salary_numbers sample_card _ H1 H2) as (A & B & _).
  split; [exact A|].
  exact (B (inject_Z 50000) (inject_Z 60000) [] H3).
Defined.

(** C2, the claim as stated fails: one lookup for the company raises,
    nothing else does, the card has a title and a link, and the list
    returned has no record of it. *)
Lemma company_failure_drops_record :
  el_select_one failing_card (sel ".company_name") = Raise "RecursionError"
  /\ forallb (fun s => PyStr.eqb s (sel ".company_name")
                       || is_ok (el_select_one failing_card s))
             (field_selectors ++ salary_selectors) = true
  /\ is_ok (el_get_text failing_card) = true
  /\ first_text failing_card title_selectors = Ok (Some (py "Data Analyst"))
  /\ first_href failing_card url_selectors
     = Ok (Some (py "https://www.ziprecruiter.co.uk/jobs/data-analyst-7"))
  /\ extract_job_listings sample_base_urls
       (mkHtml (fun _ => Ok [failing_card])) (py "uk") = Ok [].
Proof. repeat apply conj; by_vm. Qed.

(** On the sample page the cards before and after the one that raises
    give their records. *)
Example failing_card_is_skipped :
  process_card sample_base_urls (py "uk") failing_card = Raise "RecursionError"
  /\ process_card sample_base_urls (py "uk") sponsored_card = Ok None
  /\ process_cards sample_base_urls (py "uk")
       [sample_card; failing_card; sample_card] []
     = [sample_record; sample_record].
Proof. repeat apply conj; by_vm. Qed.

(** A description with one header line and bullet points under it. *)
Definition sample_text : pystr :=
  join [nl] [ py "Requirements"; py "Python experience";
              py "- skill a"; py "- skill b"; py "- skill c" ].

(** C5, on the sample text. *)
Lemma structure_description_fallbacks_witness :
  sample_text <> []
  /\ exists d, structure_description (VStr sample_text) VNone = Ok d /\ d <> ∅.
Proof.
  assert (H : sample_text <> []) by (intros H; vm_compute in H; discriminate H).
  split; [exact H|].
  exact (proj1 (structure_description_fallbacks sample_text VNone H)).
Defined.

(** C5, the claim as stated fails: there is no HTML, the header lines of
    the text give the section "requirements" with the four lines under the
    header, and yet the dictionary returned is the one the bullet stage
    makes, in which the first of those lines is lost. *)
Lemma bullets_replace_header_section :
  html_sections VNone = Ok ∅
  /\ text_sections sample_text
     = {[ "requirements"%string :=
            join [nl] [ py "Python experience"; py "- skill a"; py "- skill b";
                        py "- skill c" ] ]}
  /\ structure_description (VStr sample_text) VNone
     = Ok {[ "requirements"%string :=
               join [nl] [ py "• skill a"; py "• skill b"; py "• skill c" ] ]}
  /\ structure_description (VStr sample_text) VNone
     <> Ok (text_sections sample_text).
Proof.
  repeat apply conj; try by_vm.
  intros H.
  apply (f_equal (fun r => match r with
                           | Ok d => length <$> d !! "requirements"
                           | Raise _ => None
                           end)) in H.
  vm_compute in H. discriminate H.
Qed.

(** A record without salary whose description states one. *)
Definition sample_job : Job :=
  <["title" := VStr (py "Backend Developer")]>
  (<["salary" := VNone]>
  (<["description" :=
       VStr (py "Backend role in Leeds. Salary: $45,000 - $55,000 per year. Full time, 5 years of Python.")]>
   ∅)).

(** A record whose salary was found and not parsed. *)
Definition unparsed_job : Job :=
  <["title" := VStr (py "Clerk")]>
  (<["company" := VStr (py "Acme Ltd")]>
  (<["salary" := VDict (<["text" := VStr (py "45k-55k")]> ∅)]> ∅)).

(** A store with the list [1] of the records [2] and [3]. *)
Definition sample_heap : Heap :=
  mkHeap {[ 2%positive := sample_job; 3%positive := unparsed_job ]}
         {[ 1%positive := [2%positive; 3%positive] ]}.

(** The field [k] of the record [l] after the post-processing. *)
Definition processed_field (l : positive) (k : string) : option Value :=
  job ← dicts (post_process_job_data 1%positive sample_heap).1 !! l; job !! k.

(** C4, the claim as stated fails: the pass returns, it fills in the
    company, the location, the job type, the skills and the experience of
    the first record from its description, and the salary is still
    [None], as the unparsed salary of the second record is still what it
    was. *)
Lemma post_process_does_not_enrich_salary :
  (post_process_job_data 1%positive sample_heap).2 = Ok 1%positive
  /\ map (processed_field 2%positive)
         ["company"; "location"; "standardized_job_type"; "job_type";
          "experience"; "skills"]%string
     = [ Some (VStr (py "Hiring Company")); Some (VStr (py "Leeds"));
         Some (VStr (py "Full-time")); Some (VStr (py "Full-time"));
         Some (VStr (py "5+ years of experience"));
         Some (VList [VStr (py "Python")]) ]
  /\ sample_job !! "salary" = Some VNone
  /\ processed_field 2%positive "salary" = Some VNone
  /\ processed_field 3%positive "salary"
     = Some (VDict (<["text" := VStr (py "45k-55k")]> ∅))
  /\ processed_field 3%positive "company" = Some (VStr (py "Acme Ltd")).
Proof. repeat apply conj; by_vm. Qed.

(** *** More examples *)

(** An element without text: only its name and its parent matter. *)
Definition plain_element (name : pystr) (parent : option Element) : Element :=
  mkElement name None [] None parent (fun _ => Ok None) (Ok []).

(** A title under [parent]. *)
Definition title_under (parent : option Element) : Element :=
  mkElement (py "h2") None (py "Nurse") None parent (fun _ => Ok None)
            (Ok (py "Nurse")).

Definition fallback_card : Element := plain_element (py "div") None.

Definition fallback_titles : list Element :=
  [ title_under (Some (plain_element (py "span") (Some fallback_card)));
    title_under None ].

(** A page on which no selector of the list finds a card, and the
    alternative approach finds two titles: the first has a [div] two levels
    up, the second has no parent. *)
Definition fallback_page : Html :=
  mkHtml (fun selector =>
            if PyStr.eqb selector (sel "h2, h3, a[href*='job'], a[href*='career']")
            then Ok fallback_titles
            else Ok []).

(** X2, on the page above. *)
Lemma cards_from_titles_nearest_ancestor_witness :
  html_select fallback_page (sel "h2, h3, a[href*='job'], a[href*='career']")
  = Ok fallback_titles
  /\ cards_from_titles fallback_page = Ok [fallback_card]
  /\ (length [fallback_card] <= 10)%nat
  /\ (length [fallback_card] <= length fallback_titles)%nat
  /\ forall c, In c [fallback_card] ->
       looks_like_card c = true
       /\ exists title_elem nearer further,
            In title_elem (take 10 fallback_titles)
            /\ ancestors 3 (el_parent title_elem) = nearer ++ c :: further
            /\ Forall (fun a => looks_like_card a = false) nearer.
Proof.
  assert (H1 : html_select fallback_page
                 (sel "h2, h3, a[href*='job'], a[href*='career']")
               = Ok fallback_titles) by (by_vm).
  assert (H2 : cards_from_titles fallback_page = Ok [fallback_card]) by (by_vm).
  split; [exact H1|]. split; [exact H2|].
  exact (cards_from_titles_nearest_ancestor fallback_page fallback_titles
           [fallback_card] H1 H2).
Defined.

Example discover_cards_fallback :
  discover_cards fallback_page = Ok [fallback_card]
  /\ discover_cards sample_page
     = Ok [sample_card; sponsored_card; failing_card; sample_card].
Proof. repeat apply conj; by_vm. Qed.

(** X3, on the sample page. *)
Lemma extract_job_listings_schema_witness :
  extract_job_listings sample_base_urls sample_page (py "uk") = Ok sample_jobs
  /\ In sample_record sample_jobs
  /\ (forall k, In k required_keys -> is_Some (sample_record !! k))
  /\ (forall k : string, is_Some (sample_record !! k) ->
        In k (required_keys ++ optional_keys))
  /\ (forall k v, In k optional_keys -> sample_record !! k = Some v ->
        exists t, v = VStr t /\ t <> [] /\ strip t = t)
  /\ (forall k v, In k ["id"; "title"; "url"; "source"; "country"; "timestamp"]%string ->
        sample_record !! k = Some v -> exists t, v = VStr t)
  /\ (sample_record !! "salary" = Some VNone
      \/ exists d, sample_record !! "salary" = Some (VDict d)).
Proof.
  assert (Hin : In sample_record sample_jobs) by (left; reflexivity).
  split; [exact extract_job_listings_sample|]. split; [exact Hin|].
  exact (extract_job_listings_schema sample_base_urls sample_page (py "uk")
           sample_jobs extract_job_listings_sample sample_record Hin).
Defined.

(** A record whose description is [None]. *)
Definition broken_job : Job :=
  <["title" := VStr (py "Nurse")]> (<["description" := VNone]> ∅).

(** A store with the list [1] of the records [2], [3] and [4], the second
    of which is the record above. *)
Definition broken_heap : Heap :=
  mkHeap {[ 2%positive := sample_job; 3%positive := broken_job;
            4%positive := unparsed_job ]}
         {[ 1%positive := [2%positive; 3%positive; 4%positive] ]}.

(** X6, on the store above: the pass raises, and the third record is as
    it was. *)
Lemma post_process_stops_at_bad_description_witness :
  lists broken_heap !! 1%positive = Some ([2%positive] ++ 3%positive :: [4%positive])
  /\ dicts broken_heap !! 3%positive = Some broken_job
  /\ broken_job !! "description" = Some VNone
  /\ (forall s, VNone <> VStr s)
  /\ (exists e, (post_process_job_data 1%positive broken_heap).2 = Raise e)
  /\ forall l, ~ In l ([2%positive] ++ [3%positive]) ->
       dicts (post_process_job_data 1%positive broken_heap).1 !! l
       = dicts broken_heap !! l.
Proof.
  assert (H1 : lists broken_heap !! 1%positive
               = Some ([2%positive] ++ 3%positive :: [4%positive])) by (by_vm).
  assert (H2 : dicts broken_heap !! 3%positive = Some broken_job) by (by_vm).
  assert (H3 : broken_job !! "description" = Some VNone) by (by_vm).
  assert (H4 : forall s, VNone <> VStr s) by (intros s; discriminate).
  split; [exact H1|]. split; [exact H2|]. split; [exact H3|]. split; [exact H4|].
  exact (post_process_stops_at_bad_description 1%positive broken_heap
           [2%positive] [4%positive] 3%positive broken_job VNone H1 H2 H3 H4).
Defined.

Example post_process_bad_description :
  (post_process_job_data 1%positive broken_heap).2 = Raise "AttributeError"
  /\ (job ← dicts (post_process_job_data 1%positive broken_heap).1 !! 4%positive;
      job !! "company") = Some (VStr (py "Acme Ltd"))
  /\ (job ← dicts (post_process_job_data 1%positive broken_heap).1 !! 3%positive;
      job !! "company") = Some (VStr (py "Hiring Company")).
Proof. repeat apply conj; by_vm. Qed.

(** A record with an HTML description that holds no markup. *)
Definition html_job : Job := <["description_html" := VStr (py " Hello ")]> ∅.

(** X7, on the record above. *)
Lemma post_process_html_witness :
  html_job !! "description_html" = Some (VStr (py " Hello "))
  /\ (post_process_job html_job).2 = Ok tt
  /\ let job' := (post_process_job html_job).1 in
     job' !! "description_html" = Some (sanitize_html (VStr (py " Hello ")))
     /\ (exists text,
           format_html_to_text (sanitize_html (VStr (py " Hello "))) = Ok text
           /\ job' !! "formatted_description" = Some (VStr text))
     /\ (truthy (VStr (py " Hello ")) = false ->
         job' !! "description_html" = Some (VStr (py ""))
         /\ job' !! "formatted_description" = Some (VStr (py "")))
     /\ (forall e, truthy (VStr (py " Hello ")) = true ->
           bs_sanitize (VStr (py " Hello ")) = Raise e ->
           job' !! "description_html" = Some (VStr (py " Hello "))).
Proof.
  assert (H1 : html_job !! "description_html" = Some (VStr (py " Hello ")))
    by (by_vm).
  assert (H2 : (post_process_job html_job).2 = Ok tt) by (by_vm).
  split; [exact H1|]. split; [exact H2|].
  exact (post_process_html html_job (VStr (py " Hello ")) H1 H2).
Defined.

Example post_process_html_sample :
  map (fun k => (post_process_job html_job).1 !! k)
      ["description_html"; "formatted_description"]%string
  = [ Some (VStr (py " Hello ")); Some (VStr (py "Hello")) ]
  /\ map (fun k => (post_process_job (<["description_html" := VNone]> ∅)).1 !! k)
         ["description_html"; "formatted_description"]%string
     = [ Some (VStr (py "")); Some (VStr (py "")) ].
Proof. repeat apply conj; by_vm. Qed.

(** The post-processing of the sample record returns. *)
Lemma sample_job_processed : (post_process_job sample_job).2 = Ok tt.
Proof. by_vm. Qed.

Lemma sample_job_company_missing :
  missing_field sample_job "company" (py "Unknown Company") = true.
Proof. by_vm. Qed.

Lemma sample_job_location_missing :
  missing_field sample_job "location" (py "Unknown Location") = true.
Proof. by_vm. Qed.

(** X8, on the sample record. *)
Lemma post_process_company_witness :
  (post_process_job sample_job).2 = Ok tt
  /\ missing_field sample_job "company" (py "Unknown Company") = true
  /\ let job' := (post_process_job sample_job).1 in
     (exists c,
        job' !! "company" = Some (VStr c)
        /\ c <> [] /\ c <> py "Unknown Company"
        /\ (c = py "Hiring Company"
            \/ ((2 < len c)%nat /\ (len c < 40)%nat
                /\ any_keyword company_banned (str_lower c) = false
                /\ strip c = c
                /\ exists desc pattern m,
                     sample_job !! "description" = Some (VStr desc)
                     /\ In pattern company_patterns
                     /\ re_search pattern false desc = Some m
                     /\ c = strip (m_group1 m))))
     /\ (truthy (dict_get sample_job "description") = false ->
         job' !! "company" = Some (VStr (py "Hiring Company"))).
Proof.
  split; [exact sample_job_processed|].
  split; [exact sample_job_company_missing|].
  exact (post_process_company sample_job sample_job_processed
           sample_job_company_missing).
Defined.

(** X9, on the sample record. *)
Lemma post_process_location_witness :
  (post_process_job sample_job).2 = Ok tt
  /\ missing_field sample_job "location" (py "Unknown Location") = true
  /\ let job' := (post_process_job sample_job).1 in
     (forall desc c,
        searched_description sample_job = Some desc ->
        name_from_description location_patterns 30 location_banned desc = Some c ->
        job' !! "location" = Some (VStr c)
        /\ (2 < len c)%nat /\ (len c < 30)%nat /\ strip c = c
        /\ any_keyword location_banned (str_lower c) = false)
     /\ (no_location_in_description sample_job ->
         truthy (dict_get sample_job "is_uk") = true ->
         job' !! "location" = Some (VStr (py "United Kingdom - Remote")))
     /\ (no_location_in_description sample_job ->
         truthy (dict_get sample_job "is_uk") = false ->
         job' !! "location" = sample_job !! "location").
Proof.
  split; [exact sample_job_processed|].
  split; [exact sample_job_location_missing|].
  exact (post_process_location sample_job sample_job_processed
           sample_job_location_missing).
Defined.

(** A record of the United Kingdom without a location or a description,
    and one of elsewhere. *)
Definition uk_job : Job := <["is_uk" := VBool true]> (<["title" := VStr (py "Nurse")]> ∅).
Definition other_job : Job := <["title" := VStr (py "Nurse")]> ∅.

Example post_process_location_defaults :
  (post_process_job uk_job).1 !! "location"
  = Some (VStr (py "United Kingdom - Remote"))
  /\ (post_process_job other_job).1 !! "location" = None
  /\ (post_process_job other_job).1 !! "company" = Some (VStr (py "Hiring Company"))
  /\ (post_process_job other_job).1 !! "job_type" = None
  /\ (post_process_job other_job).2 = Ok tt.
Proof. repeat apply conj; by_vm. Qed.

(** X10, on the sample record. *)
Lemma post_process_job_type_witness :
  (post_process_job sample_job).2 = Ok tt
  /\ let job' := (post_process_job sample_job).1 in
     let description := dict_get_default sample_job "description" (VStr (py "")) in
     (sample_job !! "job_type" = None -> truthy description = true ->
      exists t, In t standard_types
                /\ extract_job_type VNone description = Ok t
                /\ job' !! "job_type" = Some (VStr t)
                /\ job' !! "standardized_job_type" = Some (VStr t))
     /\ (sample_job !! "job_type" = None -> truthy description = false ->
         job' !! "job_type" = None
         /\ job' !! "standardized_job_type" = sample_job !! "standardized_job_type")
     /\ (forall job_type_text, sample_job !! "job_type" = Some job_type_text ->
           job' !! "job_type" = Some job_type_text
           /\ exists t, extract_job_type job_type_text description = Ok t
                        /\ job' !! "standardized_job_type" = Some (VStr t)).
Proof.
  split; [exact sample_job_processed|].
  exact (post_process_job_type sample_job sample_job_processed).
Defined.

(** X12, on a description that names GitHub. *)
Lemma skill_inside_skill_witness :
  In (py "git", py "github") skills_inside
  /\ contains (py "github") (str_lower (py "We host our code on GitHub.")) = true
  /\ exists skills,
       extract_skills (VStr (py "We host our code on GitHub.")) = Ok (Some skills)
       /\ In (str_title (py "github")) skills /\ In (str_title (py "git")) skills.
Proof.
  assert (H1 : In (py "git", py "github") skills_inside)
    by (right; left; reflexivity).
  assert (H2 : contains (py "github") (str_lower (py "We host our code on GitHub."))
               = true) by (by_vm).
  split; [exact H1|]. split; [exact H2|].
  exact (skill_inside_skill (py "We host our code on GitHub.")
           (py "git") (py "github") H1 H2).
Defined.

Example extract_skills_samples :
  extract_skills (VStr (py "We host our code on GitHub."))
  = Ok (Some [py "Git"; py "Github"])
  /\ extract_skills (VStr (py "JavaScript, REST API design and passwords"))
     = Ok (Some [py "Javascript"; py "Java"; py "Rest Api"; py "Word"])
  /\ extract_skills (VStr (py "Forklift driver")) = Ok None
  /\ extract_skills VNone = Raise "AttributeError".
Proof. repeat apply conj; by_vm. Qed.

Example extract_experience_samples :
  extract_experience (VStr (py "At least 3+ years experience"))
  = Ok (Some (py "3++ years of experience"))
  /\ extract_experience (VStr (py "2 - 4 yrs in sales"))
     = Ok (Some (py "2 - 4 years of experience"))
  /\ extract_experience (VStr (py "5 years of Python"))
     = Ok (Some (py "5+ years of experience"))
  /\ extract_experience (VStr (py "No numbers here")) = Ok None
  /\ extract_experience VNone = Raise "AttributeError".
Proof. repeat apply conj; by_vm. Qed.

Example job_type_order_samples :
  extract_job_type (VStr (py "Temporary")) VNone = Ok (py "Contract")
  /\ extract_job_type (VStr (py "Seasonal")) VNone = Ok (py "Temporary")
  /\ extract_job_type (VStr (py "Part-time, permanent")) VNone = Ok (py "Full-time").
Proof. repeat apply conj; by_vm. Qed.

(** X15, on the sample text. *)
Lemma structure_description_keys_witness :
  structure_description (VStr sample_text) VNone
  = Ok {[ "requirements"%string :=
            join [nl] [ py "• skill a"; py "• skill b"; py "• skill c" ] ]}
  /\ forall k : string,
       is_Some (({[ "requirements"%string :=
                      join [nl] [ py "• skill a"; py "• skill b"; py "• skill c" ] ]}
                 : Sections) !! k) ->
       In k section_names.
Proof.
  assert (H : structure_description (VStr sample_text) VNone
              = Ok {[ "requirements"%string :=
                        join [nl] [ py "• skill a"; py "• skill b"; py "• skill c" ] ]})
    by (by_vm).
  split; [exact H|].
  exact (structure_description_keys (VStr sample_text) VNone _ H).
Defined.

Example main_samples :
  parse_countries (py "uk, de") = [py "uk"; py " de"]
  /\ parse_countries (py "uk") = [py "uk"]
  /\ csv_name (py "results.txt") = py "results.txt"
  /\ csv_name (py "a.json.b.json") = py "a.csv.b.csv"
  /\ output_name None (effective_job_type (Some (py "  "))) (py "New York")
       (py "20240501_093000")
     = py "ziprecruiter_jobs_all_jobs_New_York_20240501_093000.json"
  /\ jobs_by_country [sample_record; <["country_code" := VStr (py "de")]> sample_record;
                      sample_record]
     = Ok [(py "UNKNOWN", 2%nat); (py "DE", 1%nat)]
  /\ jobs_by_country [<["country_code" := VNone]> sample_record]
     = Raise "AttributeError".
Proof. repeat apply conj; by_vm. Qed.

(** A store with the list [1] of the first record of the sample page. *)
Definition extracted_heap : Heap :=
  mkHeap {[ 2%positive := sample_record ]} {[ 1%positive := [2%positive] ]}.

(** X19, on the records of the sample page. *)
Lemma extracted_records_are_post_processed_witness :
  extract_job_listings sample_base_urls sample_page (py "uk") = Ok sample_jobs
  /\ lists extracted_heap !! 1%positive = Some [2%positive]
  /\ (forall r, In r [2%positive] -> is_Some (dicts extracted_heap !! r))
  /\ (forall l job, dicts extracted_heap !! l = Some job -> In job sample_jobs)
  /\ (forall job, In job sample_jobs -> well_typed job)
  /\ (post_process_job_data 1%positive extracted_heap).2 = Ok 1%positive.
Proof.
  assert (H2 : lists extracted_heap !! 1%positive = Some [2%positive]) by (by_vm).
  assert (H3 : forall r, In r [2%positive] -> is_Some (dicts extracted_heap !! r)).
  { intros r [<-|[]]. unfold extracted_heap. cbn [dicts].
    rewrite lookup_singleton_eq. eauto. }
  assert (H4 : forall l job, dicts extracted_heap !! l = Some job ->
                             In job sample_jobs).
  { intros l job H. unfold extracted_heap in H. cbn [dicts] in H.
    apply lookup_singleton_Some in H as [_ <-]. left. reflexivity. }
  split; [exact extract_job_listings_sample|]. split; [exact H2|].
  split; [exact H3|]. split; [exact H4|].
  exact (extracted_records_are_post_processed sample_base_urls sample_page (py "uk")
           sample_jobs 1%positive [2%positive] extracted_heap
           extract_job_listings_sample H2 H3 H4).
Defined.

(** X20, on the sample record. *)
Lemma post_process_description_fields_witness :
  let s := py "Backend role in Leeds. Salary: $45,000 - $55,000 per year. Full time, 5 years of Python." in
  sample_job !! "description" = Some (VStr s)
  /\ (post_process_job sample_job).2 = Ok tt
  /\ let job' := (post_process_job sample_job).1 in
     let html := match sample_job !! "description_html" with
                 | Some html => sanitize_html html
                 | None => VStr (py "")
                 end in
     (exists d,
        structure_description (VStr s) html = Ok d
        /\ (s <> [] -> d <> ∅)
        /\ (d <> ∅ -> job' !! "structured_description" = Some (str_dict d))
        /\ (d = ∅ ->
            job' !! "structured_description" = sample_job !! "structured_description"))
     /\ (forall skills,
           extract_skills (VStr s) = Ok (Some skills) ->
           job' !! "skills" = Some (VList (map VStr skills)))
     /\ (extract_skills (VStr s) = Ok None ->
         job' !! "skills" = sample_job !! "skills")
     /\ (forall e,
           extract_experience (VStr s) = Ok (Some e) ->
           job' !! "experience" = Some (VStr e))
     /\ (extract_experience (VStr s) = Ok None ->
         job' !! "experience" = sample_job !! "experience").
Proof.
  cbv zeta.
  assert (H1 : sample_job !! "description"
               = Some (VStr (py "Backend role in Leeds. Salary: $45,000 - $55,000 per year. Full time, 5 years of Python.")))
    by (by_vm).
  split; [exact H1|]. split; [exact sample_job_processed|].
  exact (post_process_description_fields sample_job _ H1 sample_job_processed).
Defined.

(** The job-type text decides before the description, a context of the
    description before the rest of it. *)
Example extract_job_type_preference :
  extract_job_type (VStr (py "Contract")) (VStr (py "An internship for students"))
  = Ok (py "Contract")
  /\ extract_job_type (VStr (py "n/a")) (VStr (py "An internship for students"))
     = Ok (py "Internship")
  /\ extract_job_type VNone
       (VStr (py "Volunteer drivers wanted. Job type: freelance. Apply now"))
     = Ok (py "Freelance")
  /\ extract_job_type (VStr (py "Part time")) VNone = Ok (py "Part-time").
Proof. repeat apply conj; by_vm. Qed.

(** A card on which every lookup raises. *)
Definition stubborn_card : Element :=
  mkElement (py "div") (Some [py "job_content"]) (py "Data Analyst") None None
    (fun _ => Raise "RecursionError") (Raise "RecursionError").

(** A page whose cards, found by the first selector, are [cards]. *)
Definition page_of (cards : list Element) : Html :=
  mkHtml (fun selector =>
            if PyStr.eqb selector (sel ".job_content") then Ok cards else Ok []).

(** C3, at a failing input. The loop over the cards skips a card on which
    every lookup raises, wherever it stands, and when that card comes
    second [extract_job_listings] returns the record of the first. When it
    comes first the same failure leaves the function from the preview of
    the first card, which no handler guards, and no record is returned. *)
Lemma first_card_failure_aborts_batch :
  process_card sample_base_urls (py "uk") stubborn_card = Raise "RecursionError"
  /\ process_cards sample_base_urls (py "uk") [stubborn_card; sample_card] []
     = [sample_record]
  /\ extract_job_listings sample_base_urls (page_of [sample_card; stubborn_card])
       (py "uk") = Ok [sample_record]
  /\ extract_job_listings sample_base_urls (page_of [stubborn_card; sample_card])
       (py "uk") = Raise "RecursionError".
Proof. repeat apply conj; by_vm. Qed.
